(** * BrowserWorld: controller hit-testing, event dispatch and frame composition

    A shallow embedding of [app/src/main/cpp/BrowserWorld.cpp]
    ([ControllerRecord], [BrowserWorld::State::UpdateControllers],
    [BrowserWorld::Draw] and the parts of [BrowserWorld::InitializeJava]
    that resolve the Java callbacks and create the controller records),
    together with the properties of it that the design document states.

    Conventions.
    - A C++ [float] is an IEEE-754 binary32 value: [spec_float] with
      [prec = 24] and [emax = 128]; [<], [!=], [-] and [*] are the
      operations of [SpecFloat] at that format, so NaN and signed zeros
      behave as in the program.
    - [int32_t] and [uint32_t] values are [Z]; no arithmetic is done on
      them here except the gesture loop counter.
    - The classes of the [vrb] library, [Widget] and [DeviceDelegate] are
      defined elsewhere; each is a record of the methods
      [BrowserWorld.cpp] calls on it.  The nodes of the scene graph
      ([root], the floor, the pointer geometry, the cameras) and the JNI
      environment and activity are left out.
    - A [WidgetPtr] / [Widget*] is the position of the widget in
      [State::widgets]: widgets are shared objects and the pointer
      highlight is written through that position.
    - The JNI calls, the device calls and the log lines a function makes
      are returned as a list of [Effect]s, in program order. *)

From Stdlib Require Import ZArith List String Bool Lia SpecFloat.
From stdpp Require Import base list.
Import ListNotations.

Local Open Scope Z_scope.

(** ** binary32 floating point *)

Module F32.

Definition float : Type := spec_float.

Definition prec : Z := 24.
Definition emax : Z := 128.

(** [a < b] *)
Definition lt (a b : float) : bool := SFltb a b.
(** [a != b]: true when unordered *)
Definition ne (a b : float) : bool := negb (SFeqb a b).
(** [a - b], [a * b], rounded to nearest even *)
Definition sub (a b : float) : float := SFsub prec emax a b.
Definition mul (a b : float) : float := SFmul prec emax a b.

Definition zero : float := S754_zero false.            (* 0.0f *)
Definition one : float := S754_finite false 8388608 (-23).   (* 1.0f *)

(** conversions between [bool] and [float], as for [float touched] *)
Definition of_bool (b : bool) : float := if b then one else zero.
Definition to_bool (f : float) : bool := ne f zero.

(** small integers as floats, for examples *)
Definition of_Z (z : Z) : float := binary_normalize prec emax z 0 false.

(** The order [SFcompare] decides, as a lexicographic key: the class of
    the number (infinities, sign of the finite numbers, zero), then the
    exponent and the mantissa, negated for negative numbers. *)
Definition key (f : float) : option (Z * Z * Z) :=
  match f with
  | S754_nan => None
  | S754_infinity true => Some (-2, 0, 0)
  | S754_infinity false => Some (2, 0, 0)
  | S754_zero _ => Some (0, 0, 0)
  | S754_finite true m e => Some (-1, - e, - Zpos m)
  | S754_finite false m e => Some (1, e, Zpos m)
  end.

Definition key_lt (a b : Z * Z * Z) : Prop :=
  let '(c1, e1, m1) := a in
  let '(c2, e2, m2) := b in
  c1 < c2 \/ (c1 = c2 /\ (e1 < e2 \/ (e1 = e2 /\ m1 < m2))).

End F32.

Abbreviation float := F32.float.


(** ** Classes defined outside [BrowserWorld.cpp], by the methods used *)

(** [vrb::Vector] *)
Record Vector := { vx : float; vy : float; vz : float }.

(** [vrb::Vector()] *)
Definition Vector_zero : Vector := {| vx := F32.zero; vy := F32.zero; vz := F32.zero |}.

(** [vrb::Quaternion] *)
Record Quaternion := { qx : float; qy : float; qz : float; qw : float }.

(** [vrb::Matrix]: what the program asks of a matrix. *)
Record Matrix := {
  MultiplyPosition : Vector -> Vector;
  MultiplyDirection : Vector -> Vector;
  GetTranslation : Vector;
  ToQuaternion : Quaternion            (* [vrb::Quaternion q(head)] *)
}.

(** The return value of [Widget::TestControllerIntersection] and the
    values it leaves in [aResult], [aIsInWidget] and [aDistance]. *)
Record Intersection := {
  hit : bool;
  aResult : Vector;
  aIsInWidget : bool;
  aDistance : float
}.

(** [crow::Widget] ([Widget.h]); [pointerEnabled] is what [TogglePointer]
    sets. *)
Record Widget := {
  GetHandle : Z;
  TestControllerIntersection : Vector -> Vector -> Intersection;
  ConvertToWidgetCoordinates : Vector -> float * float;
  pointerEnabled : bool
}.

Definition TogglePointer (aEnabled : bool) (w : Widget) : Widget :=
  {| GetHandle := GetHandle w;
     TestControllerIntersection := TestControllerIntersection w;
     ConvertToWidgetCoordinates := ConvertToWidgetCoordinates w;
     pointerEnabled := aEnabled |}.

Module GestureType.
(** [SwipeLeft], [SwipeRight], and any other enumerator. *)
Inductive t := SwipeLeft | SwipeRight | Other (tag : Z).
End GestureType.

Record GestureDelegate := {
  GetGestureCount : Z;
  GetGestureType : Z -> GestureType.t
}.

(** [DeviceDelegate], as it answers during one frame (after
    [ProcessEvents]).  [GetControllerScrolled] is [Some (x, y)] when the
    call returns true with the deltas [x] and [y]. *)
Record DeviceDelegate := {
  GetControllerTransform : Z -> Matrix;
  GetControllerButtonState : Z -> Z -> bool;
  GetControllerScrolled : Z -> option (float * float);
  GetControllerModelName : Z -> string;
  GetControllerCount : Z;
  GetGestureDelegate : option GestureDelegate;
  GetHeadTransform : Matrix
}.

Module CameraEnum.
Inductive t := Left | Right.
End CameraEnum.

(** ** JNI *)

(** The Java methods [InitializeJava] looks up (name and signature). *)
Inductive JavaMethod :=
| dispatchCreateWidget | getDisplayDensity | handleMotionEvent
| handleScrollEvent | handleAudioPose | handleGesture.

Definition JavaMethod_eqb (a b : JavaMethod) : bool :=
  match a, b with
  | dispatchCreateWidget, dispatchCreateWidget
  | getDisplayDensity, getDisplayDensity
  | handleMotionEvent, handleMotionEvent
  | handleScrollEvent, handleScrollEvent
  | handleAudioPose, handleAudioPose
  | handleGesture, handleGesture => true
  | _, _ => false
  end.

(** [kDispatchCreateWidgetName], [kHandleMotionEventName], ... *)
Definition methodName (m : JavaMethod) : string :=
  match m with
  | dispatchCreateWidget => "dispatchCreateWidget"
  | getDisplayDensity => "getDisplayDensity"
  | handleMotionEvent => "handleMotionEvent"
  | handleScrollEvent => "handleScrollEvent"
  | handleAudioPose => "handleAudioPose"
  | handleGesture => "handleGesture"
  end.

(** [kDispatchCreateWidgetSignature], [kHandleMotionEventSignature], ... *)
Definition methodSignature (m : JavaMethod) : string :=
  match m with
  | dispatchCreateWidget => "(IILandroid/graphics/SurfaceTexture;II)V"
  | getDisplayDensity => "()I"
  | handleMotionEvent => "(IIZFF)V"
  | handleScrollEvent => "(IIFF)V"
  | handleAudioPose => "(FFFFFFF)V"
  | handleGesture => "(I)V"
  end.

(** A [jmethodID]; [None] is [nullptr]. *)
Definition jmethodID : Type := option JavaMethod.

Definition nonnull {A} (p : option A) : bool :=
  match p with Some _ => true | None => false end.

(** A [jclass], by the methods it has; [GetMethodID] is null for the
    others. *)
Definition jclass : Type := JavaMethod -> bool.

Definition GetMethodID (clazz : jclass) (name : JavaMethod) : jmethodID :=
  if clazz name then Some name else None.

Inductive jvalue :=
| JInt (i : Z)
| JBoolean (z : bool)
| JFloat (f : float).

(** What a function does to the outside, in program order. *)
Inductive Effect :=
| VRB_LOG (msg : string)
| CallVoidMethod (methodID : jmethodID) (args : list jvalue)
| CallIntMethod (methodID : jmethodID)
| ContextInitializeGL
| ProcessEvents
| ContextUpdate
| DrawListReset
| Cull
| StartFrame
| BindEye (eye : CameraEnum.t)
| DrawListDraw (camera : CameraEnum.t)
| EndFrame.

(** The calls in a trace that reach the Java method [m]. *)
Definition isCallTo (m : JavaMethod) (e : Effect) : bool :=
  match e with
  | CallVoidMethod (Some m') _ => JavaMethod_eqb m m'
  | _ => false
  end.

Definition callsTo (m : JavaMethod) (trace : list Effect) : list Effect :=
  List.filter (isCallTo m) trace.

(** The calls in a trace made through a null [jmethodID]. *)
Definition isNullCall (e : Effect) : bool :=
  match e with
  | CallVoidMethod None _ => true
  | _ => false
  end.

(** ** Constants *)

Definition GestureSwipeLeft : Z := 0.
Definition GestureSwipeRight : Z := 1.

(** [kScrollFactor = 20.0f] *)
Definition kScrollFactor : float := S754_finite false 10485760 (-19).

(** ** ControllerRecord *)

(** A [TransformPtr]: null, or the node with its current transform. *)
Definition TransformPtr : Type := option Matrix.

Record ControllerRecord := {
  index : Z;
  widget : Z;
  pressed : bool;
  xx : float;
  yy : float;
  touched : float;
  touchPadX : float;
  touchPadY : float;
  controller : TransformPtr
}.

(** [ControllerRecord(const int32_t aIndex)] *)
Definition ControllerRecord_new (aIndex : Z) : ControllerRecord :=
  {| index := aIndex; widget := 0; pressed := false;
     xx := F32.zero; yy := F32.zero;
     touched := F32.of_bool false; touchPadX := F32.zero; touchPadY := F32.zero;
     controller := None |}.

(** [ControllerRecord(const ControllerRecord& aRecord)] and
    [ControllerRecord(ControllerRecord&& aRecord)].  The initializer list
    names [widget], [index] and [controller] only; the other members are
    not initialized and keep what the storage the record is built in
    held, given here as [storage]. *)
Definition ControllerRecord_copy (storage aRecord : ControllerRecord) : ControllerRecord :=
  {| index := index aRecord; widget := widget aRecord;
     pressed := pressed storage;
     xx := xx storage; yy := yy storage;
     touched := touched storage;
     touchPadX := touchPadX storage; touchPadY := touchPadY storage;
     controller := controller aRecord |}.

Definition ControllerRecord_move (storage aRecord : ControllerRecord) : ControllerRecord :=
  {| index := index aRecord; widget := widget aRecord;
     pressed := pressed storage;
     xx := xx storage; yy := yy storage;
     touched := touched storage;
     touchPadX := touchPadX storage; touchPadY := touchPadY storage;
     controller := controller aRecord |}.

(** [CopyValues] *)
Definition CopyValues (this aRecord : ControllerRecord) : ControllerRecord :=
  {| index := index aRecord; widget := widget aRecord;
     pressed := pressed aRecord;
     xx := xx aRecord; yy := yy aRecord;
     touched := touched aRecord;
     touchPadX := touchPadX aRecord; touchPadY := touchPadY aRecord;
     controller := controller this |}.

(** [operator=], copying and moving *)
Definition ControllerRecord_assign (this aRecord : ControllerRecord) : ControllerRecord :=
  let this := CopyValues this aRecord in
  {| index := index this; widget := widget this; pressed := pressed this;
     xx := xx this; yy := yy this; touched := touched this;
     touchPadX := touchPadX this; touchPadY := touchPadY this;
     controller := controller aRecord |}.

(** [controllers.push_back(std::move(record))]: the new element is
    move-constructed in storage of the vector. *)
Definition push_back_move (storage : ControllerRecord)
    (v : list ControllerRecord) (record : ControllerRecord) : list ControllerRecord :=
  v ++ [ControllerRecord_move storage record].

(** [record.controller->SetTransform(transform)] *)
Definition SetTransform (transform : Matrix) (record : ControllerRecord) : ControllerRecord :=
  {| index := index record; widget := widget record; pressed := pressed record;
     xx := xx record; yy := yy record; touched := touched record;
     touchPadX := touchPadX record; touchPadY := touchPadY record;
     controller := option_map (fun _ => transform) (controller record) |}.

(** The values last handed to [handleMotionEvent]: the assignments of
    lines 260-263. *)
Definition setSent (handle : Z) (theX theY : float) (aPressed : bool)
    (record : ControllerRecord) : ControllerRecord :=
  {| index := index record; widget := handle; pressed := aPressed;
     xx := theX; yy := theY; touched := touched record;
     touchPadX := touchPadX record; touchPadY := touchPadY record;
     controller := controller record |}.

(** The assignments of lines 271-273 and of line 275. *)
Definition setTouch (aTouched : bool) (x y : float)
    (record : ControllerRecord) : ControllerRecord :=
  {| index := index record; widget := widget record; pressed := pressed record;
     xx := xx record; yy := yy record; touched := F32.of_bool aTouched;
     touchPadX := x; touchPadY := y;
     controller := controller record |}.

(** ** BrowserWorld::State *)

Record State := {
  widgets : list Widget;
  device : option DeviceDelegate;
  paused : bool;
  glInitialized : bool;
  controllerCount : Z;
  controllers : list ControllerRecord;
  farClip : float;
  dispatchCreateWidgetMethod : jmethodID;
  handleMotionEventMethod : jmethodID;
  handleScrollEventMethod : jmethodID;
  handleAudioPoseMethod : jmethodID;
  handleGestureMethod : jmethodID;
  gestures : option GestureDelegate
}.

(** [State()]; [farClip(100.0f)] *)
Definition State_new : State :=
  {| widgets := []; device := None; paused := true; glInitialized := false;
     controllerCount := 0; controllers := [];
     farClip := S754_finite false 13107200 (-17);
     dispatchCreateWidgetMethod := None; handleMotionEventMethod := None;
     handleScrollEventMethod := None; handleAudioPoseMethod := None;
     handleGestureMethod := None; gestures := None |}.

Definition set_scene (ws : list Widget) (records : list ControllerRecord) (s : State) : State :=
  {| widgets := ws; device := device s; paused := paused s;
     glInitialized := glInitialized s; controllerCount := controllerCount s;
     controllers := records; farClip := farClip s;
     dispatchCreateWidgetMethod := dispatchCreateWidgetMethod s;
     handleMotionEventMethod := handleMotionEventMethod s;
     handleScrollEventMethod := handleScrollEventMethod s;
     handleAudioPoseMethod := handleAudioPoseMethod s;
     handleGestureMethod := handleGestureMethod s; gestures := gestures s |}.

Definition set_glInitialized (b : bool) (s : State) : State :=
  {| widgets := widgets s; device := device s; paused := paused s;
     glInitialized := b; controllerCount := controllerCount s;
     controllers := controllers s; farClip := farClip s;
     dispatchCreateWidgetMethod := dispatchCreateWidgetMethod s;
     handleMotionEventMethod := handleMotionEventMethod s;
     handleScrollEventMethod := handleScrollEventMethod s;
     handleAudioPoseMethod := handleAudioPoseMethod s;
     handleGestureMethod := handleGestureMethod s; gestures := gestures s |}.

Definition set_paused (b : bool) (s : State) : State :=
  {| widgets := widgets s; device := device s; paused := b;
     glInitialized := glInitialized s; controllerCount := controllerCount s;
     controllers := controllers s; farClip := farClip s;
     dispatchCreateWidgetMethod := dispatchCreateWidgetMethod s;
     handleMotionEventMethod := handleMotionEventMethod s;
     handleScrollEventMethod := handleScrollEventMethod s;
     handleAudioPoseMethod := handleAudioPoseMethod s;
     handleGestureMethod := handleGestureMethod s; gestures := gestures s |}.

(** [BrowserWorld::Pause], [BrowserWorld::Resume] *)
Definition Pause (s : State) : State := set_paused true s.
Definition Resume (s : State) : State := set_paused false s.

(** Every callback handle is null or the method it was looked up as:
    what [State()], [InitializeJava] and [ShutdownJava] leave. *)
Definition handles_resolved (s : State) : Prop :=
  (dispatchCreateWidgetMethod s = None \/ dispatchCreateWidgetMethod s = Some dispatchCreateWidget) /\
  (handleMotionEventMethod s = None \/ handleMotionEventMethod s = Some handleMotionEvent) /\
  (handleScrollEventMethod s = None \/ handleScrollEventMethod s = Some handleScrollEvent) /\
  (handleAudioPoseMethod s = None \/ handleAudioPoseMethod s = Some handleAudioPose) /\
  (handleGestureMethod s = None \/ handleGestureMethod s = Some handleGesture).

(** ** BrowserWorld::State::UpdateControllers *)

(** [hitWidget], [hitDistance] and [hitPoint] of lines 219-221. *)
Record Hit := {
  hitWidget : option nat;
  hitDistance : float;
  hitPoint : Vector
}.

(** Lines 224-233, for the widget at position [ptr]. *)
Definition testWidget (start direction : Vector) (ptr : nat) (w : Widget) (h : Hit) : Hit :=
  let r := TestControllerIntersection w start direction in
  if hit r then
    if aIsInWidget r && F32.lt (aDistance r) (hitDistance h)
    then {| hitWidget := Some ptr; hitDistance := aDistance r; hitPoint := aResult r |}
    else h
  else h.

(** The loop of lines 222-234 over the widgets from position [ptr] on:
    the widgets with their pointers switched off, and the hit. *)
Fixpoint hitLoop (start direction : Vector) (ptr : nat) (ws : list Widget) (h : Hit)
    : list Widget * Hit :=
  match ws with
  | [] => ([], h)
  | w :: rest =>
      let w' := TogglePointer false w in
      let h' := testWidget start direction ptr w' h in
      let '(rest', h'') := hitLoop start direction (S ptr) rest h' in
      (w' :: rest', h'')
  end.

(** Lines 217-218: [start] and [direction], the ray of the controller;
    [vrb::Vector(0.0f, 0.0f, -1.0f)] is the forward direction. *)
Definition rayStart (transform : Matrix) : Vector :=
  MultiplyPosition transform Vector_zero.
Definition rayDirection (transform : Matrix) : Vector :=
  MultiplyDirection transform {| vx := F32.zero; vy := F32.zero; vz := SFopp F32.one |}.

(** Lines 217-234: the ray, the initial values of lines 219-221 and the
    hit test. *)
Definition hitTest (aFarClip : float) (transform : Matrix) (ws : list Widget)
    : list Widget * Hit :=
  let start := rayStart transform in
  let direction := rayDirection transform in
  hitLoop start direction 0 ws
    {| hitWidget := None; hitDistance := aFarClip; hitPoint := Vector_zero |}.

(** Lines 239-244. *)
Definition javaTypeOf (type : GestureType.t) : Z :=
  match type with
  | GestureType.SwipeLeft => GestureSwipeLeft
  | GestureType.SwipeRight => GestureSwipeRight
  | GestureType.Other _ => -1
  end.

(** Lines 238-247, for one gesture. *)
Definition gestureCall (aHandleGestureMethod : jmethodID) (type : GestureType.t)
    : list Effect :=
  let javaType := javaTypeOf type in
  if (0 <=? javaType) && nonnull aHandleGestureMethod
  then [CallVoidMethod aHandleGestureMethod [JInt javaType]]
  else [].

(** The gesture kinds [GetGestureType(0)] to
    [GetGestureType(gestureCount - 1)]. *)
Definition pendingGestures (g : GestureDelegate) : list GestureType.t :=
  List.map (fun count => GetGestureType g (Z.of_nat count))
           (List.seq 0 (Z.to_nat (GetGestureCount g))).

(** Lines 235-249. *)
Definition gestureStep (s : State) : list Effect :=
  match gestures s with
  | Some g => List.flat_map (gestureCall (handleGestureMethod s)) (pendingGestures g)
  | None => []
  end.

(** Lines 257-264. *)
Definition pointerStep (s : State) (handle : Z) (aPressed : bool) (theX theY : float)
    (record : ControllerRecord) : ControllerRecord * list Effect :=
  if F32.ne (xx record) theX || F32.ne (yy record) theY
     || negb (Bool.eqb (pressed record) aPressed)
     || negb (widget record =? handle)
  then (setSent handle theX theY aPressed record,
        [CallVoidMethod (handleMotionEventMethod s)
           [JInt handle; JInt (index record); JBoolean aPressed; JFloat theX; JFloat theY]])
  else (record, []).

(** Lines 265-276. *)
Definition scrollStep (s : State) (dev : DeviceDelegate) (record : ControllerRecord)
    : ControllerRecord * list Effect :=
  match GetControllerScrolled dev (index record) with
  | Some (scrollX, scrollY) =>
      (setTouch true scrollX scrollY record,
       if F32.to_bool (touched record) && negb (pressed record)
       then [CallVoidMethod (handleScrollEventMethod s)
               [JInt (widget record); JInt (index record);
                JFloat (F32.mul (F32.sub scrollX (touchPadX record)) kScrollFactor);
                JFloat (F32.mul (F32.sub scrollY (touchPadY record)) kScrollFactor)]]
       else [])
  | None => (setTouch false (touchPadX record) (touchPadY record) record, [])
  end.

(** The body of the loop over the controllers, lines 215-277: the record,
    the widgets, [active] and the calls made. *)
Definition updateRecord (s : State) (dev : DeviceDelegate)
    (ws : list Widget) (active : list nat) (record : ControllerRecord)
    : ControllerRecord * list Widget * list nat * list Effect :=
  let transform := GetControllerTransform dev (index record) in
  let record := SetTransform transform record in
  let '(ws, h) := hitTest (farClip s) transform ws in
  let calls := gestureStep s in
  match handleMotionEventMethod s, hitWidget h with
  | Some _, Some ptr =>
      match ws !! ptr with
      | Some hitW =>
          let active := active ++ [ptr] in
          let '(theX, theY) := ConvertToWidgetCoordinates hitW (hitPoint h) in
          let aPressed := GetControllerButtonState dev (index record) 0 in
          let handle := GetHandle hitW in
          let '(record, moved) := pointerStep s handle aPressed theX theY record in
          let '(record, scrolled) := scrollStep s dev record in
          (record, ws, active, calls ++ moved ++ scrolled)
      | None => (record, ws, active, calls)   (* no such pointer: see [hitTest_lookup] *)
      end
  | _, _ => (record, ws, active, calls)
  end.

(** The loop of lines 214-278. *)
Fixpoint controllerLoop (s : State) (dev : DeviceDelegate)
    (records : list ControllerRecord) (ws : list Widget) (active : list nat)
    : list ControllerRecord * list Widget * list nat * list Effect :=
  match records with
  | [] => ([], ws, active, [])
  | record :: rest =>
      let '(record', ws, active, calls) := updateRecord s dev ws active record in
      let '(rest', ws, active, calls') := controllerLoop s dev rest ws active in
      (record' :: rest', ws, active, calls ++ calls')
  end.

(** The loop of lines 279-281. *)
Definition toggleActive (active : list nat) (ws : list Widget) : list Widget :=
  fold_left (fun ws ptr => alter (TogglePointer true) ptr ws) active ws.

(** [UpdateControllers], with [device] the delegate [dev]. *)
Definition UpdateControllers (dev : DeviceDelegate) (s : State) : State * list Effect :=
  let '(records, ws, active, calls) :=
    controllerLoop s dev (controllers s) (widgets s) [] in
  (set_scene (toggleActive active ws) records s, calls).

(** ** BrowserWorld::Draw *)

(** Lines 489-494. *)
Definition audioPose (dev : DeviceDelegate) (s : State) : list Effect :=
  if nonnull (handleAudioPoseMethod s) then
    let head := GetHeadTransform dev in
    let p := GetTranslation head in
    let q := ToQuaternion head in
    [CallVoidMethod (handleAudioPoseMethod s)
       [JFloat (qx q); JFloat (qy q); JFloat (qz q); JFloat (qw q);
        JFloat (vx p); JFloat (vy p); JFloat (vz p)]]
  else [].

(** Lines 476-486; [noVrApi] is [defined(VRBROWSER_NO_VR_API)]. *)
Definition render (noVrApi : bool) : list Effect :=
  [DrawListReset; Cull; StartFrame;
   BindEye CameraEnum.Left; DrawListDraw CameraEnum.Left]
  ++ (if noVrApi then [] else [BindEye CameraEnum.Right; DrawListDraw CameraEnum.Right])
  ++ [EndFrame].

(** [Draw].  [contextInitializeGL] is what [m.context->InitializeGL()]
    returns if it is called in this frame. *)
Definition Draw (noVrApi : bool) (contextInitializeGL : bool) (s : State)
    : State * list Effect :=
  match device s with
  | None => (s, [VRB_LOG "No device"])
  | Some dev =>
      if paused s then (s, [VRB_LOG "BrowserWorld Paused"])
      else
        let '(s, init) :=
          if negb (glInitialized s)
          then (set_glInitialized contextInitializeGL s, [ContextInitializeGL])
          else (s, []) in
        if negb (glInitialized s)
        then (s, init ++ [VRB_LOG "FAILED to initialize GL"])
        else
          let '(s, calls) := UpdateControllers dev s in
          (s, init ++ [ProcessEvents; ContextUpdate] ++ calls
                ++ render noVrApi ++ audioPose dev s)
  end.

(** ** BrowserWorld::InitializeJava *)

Definition set_methods (create motion scroll audio gesture : jmethodID) (s : State) : State :=
  {| widgets := widgets s; device := device s; paused := paused s;
     glInitialized := glInitialized s; controllerCount := controllerCount s;
     controllers := controllers s; farClip := farClip s;
     dispatchCreateWidgetMethod := create;
     handleMotionEventMethod := motion;
     handleScrollEventMethod := scroll;
     handleAudioPoseMethod := audio;
     handleGestureMethod := gesture; gestures := gestures s |}.

(** [VRB_LOG("Failed to find Java method: %s %s", name, signature)] *)
Definition failedToFind (m : JavaMethod) : list Effect :=
  [VRB_LOG ("Failed to find Java method: " ++ methodName m ++ " " ++ methodSignature m)].

(** Lines 357-385: the callbacks are looked up in the class of the
    activity.  The test of line 371 has no negation. *)
Definition resolveMethods (clazz : jclass) (s : State) : State * list Effect :=
  let create := GetMethodID clazz dispatchCreateWidget in
  let motion := GetMethodID clazz handleMotionEvent in
  let scroll := GetMethodID clazz handleScrollEvent in
  let audio := GetMethodID clazz handleAudioPose in
  let gesture := GetMethodID clazz handleGesture in
  (set_methods create motion scroll audio gesture s,
   (if negb (nonnull create) then failedToFind dispatchCreateWidget else [])
   ++ (if negb (nonnull motion) then failedToFind handleMotionEvent else [])
   ++ (if nonnull scroll then failedToFind handleScrollEvent else [])
   ++ (if negb (nonnull audio) then failedToFind handleAudioPose else [])
   ++ (if negb (nonnull gesture) then failedToFind handleGesture else [])).

(** Lines 387-390; the density only sizes the URL bar. *)
Definition displayDensity (clazz : jclass) : list Effect :=
  let getDisplayDensityMethod := GetMethodID clazz getDisplayDensity in
  if nonnull getDisplayDensityMethod then [CallIntMethod getDisplayDensityMethod] else [].

(** [record.controller = Transform::Create(m.contextWeak)] *)
Definition set_controller (node : TransformPtr) (record : ControllerRecord) : ControllerRecord :=
  {| index := index record; widget := widget record; pressed := pressed record;
     xx := xx record; yy := yy record; touched := touched record;
     touchPadX := touchPadX record; touchPadY := touchPadY record;
     controller := node |}.

(** Lines 395-405: the records for the controllers [ix], [ix + 1], ...
    ([n] of them).  [created] is the transform of a node made by
    [Transform::Create]; [storage ix] is what the storage of the vector
    held where record [ix] is built. *)
Fixpoint createControllers (created : Matrix) (storage : Z -> ControllerRecord)
    (n : nat) (ix : Z) (v : list ControllerRecord) : list ControllerRecord :=
  match n with
  | O => v
  | S n' =>
      let record := ControllerRecord_new ix in
      let record := set_controller (Some created) record in
      createControllers created storage n' (ix + 1) (push_back_move (storage ix) v record)
  end.

(** [InitializeWindows]; [browser] and [urlbar] are the widgets
    [Widget::Create] returns, placed. *)
Definition InitializeWindows (browser urlbar : Widget) (s : State) : State :=
  set_scene (widgets s ++ [browser; urlbar]) (controllers s) s.

(** [InitializeJava].  [clazz] is [None] when the function returns early
    (no environment, no global reference or no class).  The pointer
    geometry and the floor (lines 406-407) are nodes of the scene. *)
Definition InitializeJava (clazz : option jclass) (browser urlbar : Widget)
    (created : Matrix) (storage : Z -> ControllerRecord) (s : State)
    : State * list Effect :=
  match clazz with
  | None => (s, [VRB_LOG "BrowserWorld::InitializeJava"])
  | Some clazz =>
      let '(s, logs) := resolveMethods clazz s in
      let s := InitializeWindows browser urlbar s in
      let s :=
        if (Nat.eqb (length (controllers s)) 0) && (0 <? controllerCount s)
        then set_scene (widgets s)
               (createControllers created storage (Z.to_nat (controllerCount s)) 0
                  (controllers s)) s
        else s in
      (s, VRB_LOG "BrowserWorld::InitializeJava" :: logs ++ displayDensity clazz)
  end.

(** [RegisterDeviceDelegate]; the clear color, the clip planes and the
    cameras are left to the device. *)
Definition RegisterDeviceDelegate (aDelegate : option DeviceDelegate) (s : State) : State :=
  match aDelegate with
  | Some dev =>
      {| widgets := widgets s; device := Some dev; paused := paused s;
         glInitialized := glInitialized s;
         controllerCount := GetControllerCount dev;
         controllers := controllers s; farClip := farClip s;
         dispatchCreateWidgetMethod := dispatchCreateWidgetMethod s;
         handleMotionEventMethod := handleMotionEventMethod s;
         handleScrollEventMethod := handleScrollEventMethod s;
         handleAudioPoseMethod := handleAudioPoseMethod s;
         handleGestureMethod := handleGestureMethod s;
         gestures := GetGestureDelegate dev |}
  | None =>
      {| widgets := widgets s; device := None; paused := paused s;
         glInitialized := glInitialized s;
         controllerCount := 0;
         controllers := []; farClip := farClip s;
         dispatchCreateWidgetMethod := dispatchCreateWidgetMethod s;
         handleMotionEventMethod := handleMotionEventMethod s;
         handleScrollEventMethod := handleScrollEventMethod s;
         handleAudioPoseMethod := handleAudioPoseMethod s;
         handleGestureMethod := handleGestureMethod s;
         gestures := None |}
  end.

(** [ShutdownJava] *)
Definition ShutdownJava (s : State) : State * list Effect :=
  (set_methods None None None None None s, [VRB_LOG "BrowserWorld::ShutdownJava"]).

(** ** Properties of the hit test, as predicates *)

Definition distanceOf (start direction : Vector) (w : Widget) : float :=
  aDistance (TestControllerIntersection w start direction).

(** [a >= b] on floats *)
Definition F32_ge (a b : float) : bool := SFleb b a.

(** The widgets the hit test can select: hit, inside the widget, and
    nearer than the far clip distance. *)
Definition candidate (aFarClip : float) (start direction : Vector) (w : Widget) : Prop :=
  hit (TestControllerIntersection w start direction) = true /\
  aIsInWidget (TestControllerIntersection w start direction) = true /\
  F32.lt (distanceOf start direction w) aFarClip = true.

(** [h] is the nearest candidate of [ws], the first one among equals;
    none when there is no candidate. *)
Definition nearest (aFarClip : float) (start direction : Vector)
    (ws : list Widget) (h : Hit) : Prop :=
  match hitWidget h with
  | None =>
      hitDistance h = aFarClip /\
      forall j w, ws !! j = Some w -> ~ candidate aFarClip start direction w
  | Some i =>
      exists w, ws !! i = Some w /\
        candidate aFarClip start direction w /\
        hitDistance h = distanceOf start direction w /\
        hitPoint h = aResult (TestControllerIntersection w start direction) /\
        forall j w', ws !! j = Some w' -> candidate aFarClip start direction w' ->
          F32.lt (distanceOf start direction w') (distanceOf start direction w) = false /\
          ((j < i)%nat ->
           F32.lt (distanceOf start direction w) (distanceOf start direction w') = true)
  end.

(** ** Predicates and functions used in the statements *)

(** The values a record holds as last sent to [handleMotionEvent]. *)
Definition sentValues (record : ControllerRecord) : Z * bool * float * float :=
  (widget record, pressed record, xx record, yy record).

(** The comparison of line 257, negated: every field compares equal. *)
Definition sameAsSent (record : ControllerRecord) (handle : Z) (aPressed : bool)
    (theX theY : float) : bool :=
  negb (F32.ne (xx record) theX) && negb (F32.ne (yy record) theY)
  && Bool.eqb (pressed record) aPressed && (widget record =? handle).


(** The widget the controller of [record] points at in this frame: the
    hit of its ray on the widgets [ws]. *)
Definition pointedAt (s : State) (dev : DeviceDelegate) (ws : list Widget)
    (record : ControllerRecord) : Hit :=
  (hitTest (farClip s) (GetControllerTransform dev (index record)) ws).2.

(** The pointers pushed on [active] in a frame: for each record in turn,
    the widget its controller points at, when lines 250-251 are
    reached. *)
Definition pushedBy (s : State) (dev : DeviceDelegate) (ws : list Widget)
    (record : ControllerRecord) : list nat :=
  match handleMotionEventMethod s, hitWidget (pointedAt s dev ws record) with
  | Some _, Some i => [i]
  | _, _ => []
  end.

Definition activeOf (s : State) (dev : DeviceDelegate) (ws : list Widget)
    (records : list ControllerRecord) : list nat :=
  List.flat_map (pushedBy s dev ws) records.

(** Every call of a trace goes through the handle [methodID]. *)
Definition callsThrough (methodID : jmethodID) (trace : list Effect) : Prop :=
  Forall (fun e => exists args, e = CallVoidMethod methodID args) trace.

(** The effects on the draw list. *)
Definition isDrawListOp (e : Effect) : bool :=
  match e with
  | DrawListReset | Cull | DrawListDraw _ => true
  | _ => false
  end.

Definition isHostCall (e : Effect) : bool :=
  match e with
  | CallVoidMethod _ _ => true
  | _ => false
  end.

(** In [trace], [a] is done before every [b], and not again after a
    [b]. *)
Definition completedBefore (a b : Effect) (trace : list Effect) : Prop :=
  forall l1 l2, trace = l1 ++ b :: l2 -> In a l1 /\ ~ In a l2.

(** In [trace], an [a] is done before every [b]. *)
Definition doneBefore (a b : Effect) (trace : list Effect) : Prop :=
  forall l1 l2, trace = l1 ++ b :: l2 -> In a l1.

(** ** A scene to run the program on *)

Module Example.

Definition f (z : Z) : float := F32.of_Z z.

Definition identity : Matrix :=
  {| MultiplyPosition := fun v => v;
     MultiplyDirection := fun v => v;
     GetTranslation := Vector_zero;
     ToQuaternion := {| qx := F32.zero; qy := F32.zero; qz := F32.zero; qw := F32.one |} |}.

(** A controller turned to the side: its forward direction has
    [vx = 1]. *)
Definition turned : Matrix :=
  {| MultiplyPosition := fun v => v;
     MultiplyDirection := fun v => {| vx := F32.one; vy := vy v; vz := vz v |};
     GetTranslation := Vector_zero;
     ToQuaternion := {| qx := F32.zero; qy := F32.zero; qz := F32.zero; qw := F32.one |} |}.

(** A widget straight ahead at distance [d]: a ray with [vx = 0] meets
    it inside its bounds at local coordinates [(x, y)], any other ray
    meets its plane outside. *)
Definition widgetAt (handle : Z) (d x y : float) : Widget :=
  {| GetHandle := handle;
     TestControllerIntersection := fun _ direction =>
       {| hit := true; aResult := Vector_zero;
          aIsInWidget := SFeqb (vx direction) F32.zero;
          aDistance := d |};
     ConvertToWidgetCoordinates := fun _ => (x, y);
     pointerEnabled := false |}.

Definition browser : Widget := widgetAt 5 (f 18) (f 100) (f 50).
Definition urlbar : Widget := widgetAt 6 (f 18) (f 10) (f 20).
(** A widget beyond the far clip distance. *)
Definition farAway : Widget := widgetAt 7 (f 150) (f 1) (f 1).

Definition swipes (l : list GestureType.t) : GestureDelegate :=
  {| GetGestureCount := Z.of_nat (length l);
     GetGestureType := fun i => nth (Z.to_nat i) l (GestureType.Other 0) |}.

(** A device with [count] controllers, all with the transform
    [transform], the button state [aPressed] and the scroll answer
    [scroll]. *)
Definition deviceWith (count : Z) (transform : Matrix) (aPressed : bool)
    (scroll : option (float * float)) (g : option GestureDelegate) : DeviceDelegate :=
  {| GetControllerTransform := fun _ => transform;
     GetControllerButtonState := fun _ _ => aPressed;
     GetControllerScrolled := fun _ => scroll;
     GetControllerModelName := fun _ => EmptyString;
     GetControllerCount := count;
     GetGestureDelegate := g;
     GetHeadTransform := identity |}.

Definition allMethods : jclass := fun _ => true.
Definition without (m : JavaMethod) : jclass := fun m' => negb (JavaMethod_eqb m m').

(** Storage that held zeros. *)
Definition zeroed : Z -> ControllerRecord := fun _ => ControllerRecord_new 0.

(** The world after [RegisterDeviceDelegate], [InitializeJava] and
    [Resume]. *)
Definition started (clazz : jclass) (dev : DeviceDelegate) : State :=
  Resume (InitializeJava (Some clazz) browser urlbar identity zeroed
            (RegisterDeviceDelegate (Some dev) State_new)).1.

(** One controller pointing straight ahead, button up, no scroll, no
    gesture source. *)
Definition dev0 : DeviceDelegate := deviceWith 1 identity false None None.

(** The record [InitializeJava] makes for controller 0 in zeroed
    storage. *)
Definition record0 : ControllerRecord :=
  ControllerRecord_move (zeroed 0)
    (set_controller (Some identity) (ControllerRecord_new 0)).

Definition s0 : State := started allMethods dev0.

(** The touch pad is touched at [(1, 0)], then the finger is at
    [(3, 0)]. *)
Definition devTouch : DeviceDelegate :=
  deviceWith 1 identity false (Some (f 1, f 0)) None.
Definition devScroll : DeviceDelegate :=
  deviceWith 1 identity false (Some (f 3, f 0)) None.
(** The controller points away from the widgets; no scroll delta. *)
Definition devAway : DeviceDelegate := deviceWith 1 turned false None None.

(** A device with [count] controllers and the gestures [l] pending. *)
Definition devSwipes (count : Z) (l : list GestureType.t) : DeviceDelegate :=
  deviceWith count identity false None (Some (swipes l)).

(** Storage that held ones: [pressed] set, [1.0f] in the floats. *)
Definition ones : Z -> ControllerRecord := fun _ =>
  {| index := 1; widget := 1; pressed := true;
     xx := F32.one; yy := F32.one; touched := F32.one;
     touchPadX := F32.one; touchPadY := F32.one; controller := None |}.

(** The button is down. *)
Definition devPressed : DeviceDelegate := deviceWith 1 identity true None None.

(** The world after a frame in which the touch began. *)
Definition s1 : State := (UpdateControllers devTouch s0).1.
Definition record1 : ControllerRecord :=
  (updateRecord s0 devTouch (widgets s0) [] record0).1.1.1.

End Example.

(** ** One controller, by itself *)

(** The record and the calls of a controller in a frame that starts with
    the widgets [ws]. *)
Definition recordAfter (s : State) (dev : DeviceDelegate) (ws : list Widget)
    (record : ControllerRecord) : ControllerRecord :=
  (updateRecord s dev ws [] record).1.1.1.

Definition callsOf (s : State) (dev : DeviceDelegate) (ws : list Widget)
    (record : ControllerRecord) : list Effect :=
  (updateRecord s dev ws [] record).2.

(** The widgets with the pointer highlight put aside. *)
Definition placement (ws : list Widget) : list Widget := TogglePointer false <$> ws.

(** A float that is not NaN: it compares equal to itself. *)
Definition ordered (f : float) : Prop := F32.ne f f = false.

(** ** More scenes *)

Module Sample.

(** A widget whose local x coordinate is NaN. *)
Definition nanWidget : Widget :=
  Example.widgetAt 8 (Example.f 1) S754_nan (Example.f 0).

(** The world started with [nanWidget] in the place of the browser. *)
Definition nanWorld : State :=
  Resume (InitializeJava (Some Example.allMethods) nanWidget Example.urlbar
            Example.identity Example.zeroed
            (RegisterDeviceDelegate (Some Example.dev0) State_new)).1.

(** Two widgets straight ahead, at distances 3 and 7. *)
Definition nearW : Widget :=
  Example.widgetAt 9 (Example.f 3) (Example.f 1) (Example.f 2).
Definition farW : Widget :=
  Example.widgetAt 10 (Example.f 7) (Example.f 4) (Example.f 5).

End Sample.

(** ** Frames *)

(** [Draw] gets past its checks: a device, not paused, and the GL
    context initialized or initialized now. *)
Definition rendersFrame (contextInitializeGL : bool) (s : State) : bool :=
  nonnull (device s) && negb (paused s) && (glInitialized s || contextInitializeGL).

(** ** The hit test and the order of the widgets *)

(** The widget a hit points at. *)
Definition hitObject (ws : list Widget) (h : Hit) : option Widget :=
  match hitWidget h with
  | Some i => ws !! i
  | None => None
  end.

(** No two candidates of [ws] are at distances that compare equal or
    unordered. *)
Definition noTies (aFarClip : float) (start direction : Vector) (ws : list Widget) : Prop :=
  forall j k wj wk, ws !! j = Some wj -> ws !! k = Some wk -> j <> k ->
    candidate aFarClip start direction wj -> candidate aFarClip start direction wk ->
    F32.lt (distanceOf start direction wj) (distanceOf start direction wk) = true \/
    F32.lt (distanceOf start direction wk) (distanceOf start direction wj) = true.

(** ** Surfaces: SetSurfaceTexture, InitializeGL, ShutdownGL, SurfaceObserver *)

(** A [jobject]; [None] is [nullptr]. *)
Definition jobject : Type := option Z.

(** [m.env] and [m.activity] of [State], non-null or null, which the
    record [State] above leaves out. *)
Record Binding := {
  env : bool;
  activity : bool
}.

(** The effects of the functions below: the ones above, the call of
    [dispatchCreateWidget], which has an object among its arguments, and
    the shutdown of the context. *)
Inductive SurfaceEffect :=
| Plain (e : Effect)
| CallVoidMethodL (methodID : jmethodID) (aType aHandle : Z) (aSurface : jobject)
    (aWidth aHeight : Z)
| ContextShutdownGL.

Definition isDispatch (e : SurfaceEffect) : bool :=
  match e with
  | CallVoidMethodL _ _ _ _ _ _ => true
  | _ => false
  end.

Section Surfaces.

(** The methods of [Widget] ([Widget.h]) that the record [Widget] above
    leaves out. *)
Variable GetType : Widget -> Z.
Variable GetSurfaceTextureName : Widget -> string.
Variable GetSurfaceTextureSize : Widget -> Z * Z.

(** The loop of lines 502-510: the first widget with the name gets the
    call, and the function returns. *)
Fixpoint dispatchFirst (methodID : jmethodID) (aName : string) (aSurface : jobject)
    (ws : list Widget) : list SurfaceEffect :=
  match ws with
  | [] => []
  | w :: rest =>
      if String.eqb aName (GetSurfaceTextureName w)
      then let '(width, height) := GetSurfaceTextureSize w in
           [CallVoidMethodL methodID (GetType w) (GetHandle w) aSurface width height]
      else dispatchFirst methodID aName aSurface rest
  end.

(** [BrowserWorld::SetSurfaceTexture] *)
Definition SetSurfaceTexture (b : Binding) (s : State) (aName : string) (aSurface : jobject)
    : list SurfaceEffect :=
  Plain (VRB_LOG ("SetSurfaceTexture: " ++ aName))
  :: (if env b && activity b && nonnull (dispatchCreateWidgetMethod s)
      then dispatchFirst (dispatchCreateWidgetMethod s) aName aSurface (widgets s)
      else []).

(** The loop of lines 421-427; [LookupSurfaceTexture] is the lookup of
    the surface texture factory. *)
Definition lookupSurfaces (LookupSurfaceTexture : string -> jobject)
    (b : Binding) (s : State) (ws : list Widget) : list SurfaceEffect :=
  List.flat_map
    (fun w =>
       let name := GetSurfaceTextureName w in
       let surface := LookupSurfaceTexture name in
       if nonnull surface then SetSurfaceTexture b s name surface else [])
    ws.

(** [BrowserWorld::InitializeGL]; [contextInitializeGL] is what
    [m.context->InitializeGL()] returns if it is called. *)
Definition InitializeGL (contextInitializeGL : bool)
    (LookupSurfaceTexture : string -> jobject) (b : Binding) (s : State)
    : State * list SurfaceEffect :=
  let log := Plain (VRB_LOG "BrowserWorld::InitializeGL") in
  if negb (glInitialized s) then
    let s := set_glInitialized contextInitializeGL s in
    if negb (glInitialized s) then (s, [log; Plain ContextInitializeGL])
    else (s, [log; Plain ContextInitializeGL]
             ++ lookupSurfaces LookupSurfaceTexture b s (widgets s))
  else (s, [log]).

(** [SurfaceObserver::SurfaceTextureCreated] and
    [SurfaceObserver::SurfaceTextureDestroyed]; [world] is [mWorld.lock()]. *)
Definition SurfaceTextureCreated (world : option (Binding * State))
    (aName : string) (aSurfaceTexture : jobject) : list SurfaceEffect :=
  match world with
  | Some (b, s) => SetSurfaceTexture b s aName aSurfaceTexture
  | None => []
  end.

Definition SurfaceTextureDestroyed (world : option (Binding * State))
    (aName : string) : list SurfaceEffect :=
  match world with
  | Some (b, s) => SetSurfaceTexture b s aName None
  | None => []
  end.

End Surfaces.

(** [BrowserWorld::ShutdownGL] *)
Definition ShutdownGL (s : State) : State * list SurfaceEffect :=
  (set_glInitialized false s,
   [Plain (VRB_LOG "BrowserWorld::ShutdownGL"); ContextShutdownGL]).

(** The calls of [dispatchCreateWidget] in a trace. *)
Definition dispatches (trace : list SurfaceEffect) : list SurfaceEffect :=
  List.filter isDispatch trace.

(** The surface a call of [dispatchCreateWidget] hands over is not null. *)
Definition handsOverSurface (e : SurfaceEffect) : Prop :=
  match e with
  | CallVoidMethodL _ _ _ aSurface _ _ => aSurface <> None
  | _ => True
  end.

Module Surface.

(** The two widgets by type, name and size, and a factory that has the
    surface of the browser only. *)
Definition typeOf (w : Widget) : Z := if GetHandle w =? 5 then 0 else 1.
Definition nameOf (w : Widget) : string :=
  if GetHandle w =? 5 then "browser" else "urlbar".
Definition sizeOf (w : Widget) : Z * Z :=
  if GetHandle w =? 5 then (1920, 1080) else (1920, 275).
Definition factory (name : string) : jobject :=
  if String.eqb name "browser" then Some 42 else None.
Definition bound : Binding := {| env := true; activity := true |}.

End Surface.

(** ** The life of the world *)

(** The entry points of [BrowserWorld], with what they get from
    outside. *)
Inductive Operation :=
| DoRegisterDeviceDelegate (aDelegate : option DeviceDelegate)
| DoInitializeJava (clazz : option jclass) (browser urlbar : Widget)
    (created : Matrix) (storage : Z -> ControllerRecord)
| DoShutdownJava
| DoInitializeGL (GetType : Widget -> Z) (GetSurfaceTextureName : Widget -> string)
    (GetSurfaceTextureSize : Widget -> Z * Z) (contextInitializeGL : bool)
    (LookupSurfaceTexture : string -> jobject) (b : Binding)
| DoShutdownGL
| DoPause
| DoResume
| DoDraw (noVrApi contextInitializeGL : bool).

Definition perform (op : Operation) (s : State) : State :=
  match op with
  | DoRegisterDeviceDelegate aDelegate => RegisterDeviceDelegate aDelegate s
  | DoInitializeJava clazz browser urlbar created storage =>
      (InitializeJava clazz browser urlbar created storage s).1
  | DoShutdownJava => (ShutdownJava s).1
  | DoInitializeGL GetType GetName GetSize gl lookup b =>
      (InitializeGL GetType GetName GetSize gl lookup b s).1
  | DoShutdownGL => (ShutdownGL s).1
  | DoPause => Pause s
  | DoResume => Resume s
  | DoDraw noVrApi gl => (Draw noVrApi gl s).1
  end.

(** The world after the operations [ops], from [State()]. *)
Definition worldAfter (ops : list Operation) : State :=
  fold_left (fun s op => perform op s) ops State_new.

(** The records are numbered from 0 in their order, and each has its
    node. *)
Definition recordsNumbered (s : State) : Prop :=
  List.map index (controllers s)
  = List.map Z.of_nat (List.seq 0 (length (controllers s))) /\
  Forall (fun r => controller r <> None) (controllers s).

(** Without a device there is no controller, no record and no gesture
    source. *)
Definition nothingWithoutDevice (s : State) : Prop :=
  device s = None ->
  controllerCount s = 0 /\ controllers s = [] /\ gestures s = None.

(** The touch state of a record. *)
Definition touchState (record : ControllerRecord) : float * float * float :=
  (touched record, touchPadX record, touchPadY record).

(** The world after the frames [frames] ([noVrApi] and the result of
    [m.context->InitializeGL()] for each). *)
Definition drawAll (frames : list (bool * bool)) (s : State) : State :=
  fold_left (fun s frame => (Draw frame.1 frame.2 s).1) frames s.

(** A call of [dispatchCreateWidget] with a null surface in the place of
    its surface. *)
Definition withoutSurface (e : SurfaceEffect) : SurfaceEffect :=
  match e with
  | CallVoidMethodL methodID aType aHandle _ aWidth aHeight =>
      CallVoidMethodL methodID aType aHandle None aWidth aHeight
  | _ => e
  end.

(** ** Tactics *)

(** Case split used for [lt_key_iff]: one direction computes the keys,
    the other reads the order back from them. *)
Ltac key_case :=
  split;
  [ intros H;
    first [ discriminate H
          | eexists _, _; repeat (split; [reflexivity|]);
            unfold F32.key_lt; lia ]
  | intros (ka & kb & Ha & Hb & Hlt);
    first [ discriminate Ha | discriminate Hb
          | injection Ha as <-; injection Hb as <-;
            unfold F32.key_lt in Hlt; first [reflexivity | lia] ] ].

(** [handles_resolved] of a state that computes. *)
Ltac resolved_by_computation :=
  unfold handles_resolved; cbn;
  repeat split; first [left; reflexivity | right; reflexivity].

(** ** The order on floats *)

Lemma key_lt_irrefl k : ~ F32.key_lt k k.
Proof. destruct k as [[c e] m]. unfold F32.key_lt. lia. Qed.

Lemma key_lt_trans a b c : F32.key_lt a b -> F32.key_lt b c -> F32.key_lt a c.
Proof.
  destruct a as [[? ?] ?], b as [[? ?] ?], c as [[? ?] ?].
  unfold F32.key_lt. lia.
Qed.

Lemma key_lt_total a b c : F32.key_lt a b -> ~ F32.key_lt c b -> F32.key_lt a c.
Proof.
  destruct a as [[? ?] ?], b as [[? ?] ?], c as [[? ?] ?].
  unfold F32.key_lt. lia.
Qed.

Lemma lt_key_iff a b :
  F32.lt a b = true <->
  exists ka kb, F32.key a = Some ka /\ F32.key b = Some kb /\ F32.key_lt ka kb.
Proof.
  unfold F32.lt, SFltb.
  destruct a as [sa|sa| |sa ma ea], b as [sb|sb| |sb mb eb];
    try destruct sa; try destruct sb; cbn; try key_case.
  - change (Pos.compare_cont Eq ma mb) with (Pos.compare ma mb).
    destruct (Z.compare_spec ea eb) as [He|He|He];
      [ destruct (Pos.compare_spec ma mb) as [Hm|Hm|Hm] | | ]; cbn; key_case.
  - change (Pos.compare_cont Eq ma mb) with (Pos.compare ma mb).
    destruct (Z.compare_spec ea eb) as [He|He|He];
      [ destruct (Pos.compare_spec ma mb) as [Hm|Hm|Hm] | | ]; cbn; key_case.
Qed.

Lemma lt_irrefl a : F32.lt a a = false.
Proof.
  destruct (F32.lt a a) eqn:E; [|reflexivity].
  apply lt_key_iff in E as (ka & kb & Ha & Hb & Hlt).
  rewrite Ha in Hb. injection Hb as <-. destruct (key_lt_irrefl _ Hlt).
Qed.

Lemma lt_trans a b c :
  F32.lt a b = true -> F32.lt b c = true -> F32.lt a c = true.
Proof.
  intros (ka & kb & Ha & Hb & Hab)%lt_key_iff (kb' & kc & Hb' & Hc & Hbc)%lt_key_iff.
  rewrite Hb in Hb'. injection Hb' as <-.
  apply lt_key_iff. exists ka, kc. eauto using key_lt_trans.
Qed.

(** [a < b], not [c < b] and [c] ordered (it is below something) give
    [a < c]: the order is total on the numbers that are not NaN. *)
Lemma lt_below a b c d :
  F32.lt a b = true -> F32.lt c b = false -> F32.lt c d = true ->
  F32.lt a c = true.
Proof.
  intros (ka & kb & Ha & Hb & Hab)%lt_key_iff Hcb (kc & kd & Hc & _ & _)%lt_key_iff.
  apply lt_key_iff. exists ka, kc. repeat split; try assumption.
  apply key_lt_total with kb; [assumption|].
  intros Hlt. assert (F32.lt c b = true) as E; [|congruence].
  apply lt_key_iff. eauto.
Qed.

Lemma SFcompare_antisym a b :
  SFcompare b a = option_map CompOpp (SFcompare a b).
Proof.
  destruct a as [sa|sa| |sa ma ea], b as [sb|sb| |sb mb eb];
    try destruct sa; try destruct sb; cbn; try reflexivity.
  - change (Pos.compare_cont Eq mb ma) with (Pos.compare mb ma).
    change (Pos.compare_cont Eq ma mb) with (Pos.compare ma mb).
    rewrite (Z.compare_antisym ea eb), (Pos.compare_antisym ma mb).
    destruct (ea ?= eb); cbn; reflexivity.
  - change (Pos.compare_cont Eq mb ma) with (Pos.compare mb ma).
    change (Pos.compare_cont Eq ma mb) with (Pos.compare ma mb).
    rewrite (Z.compare_antisym ea eb), (Pos.compare_antisym ma mb).
    destruct (ea ?= eb); cbn; reflexivity.
Qed.

(** [a < b] excludes [a >= b]. *)
Lemma lt_not_ge a b : F32.lt a b = true -> F32_ge a b = false.
Proof.
  unfold F32.lt, F32_ge, SFltb, SFleb. rewrite (SFcompare_antisym a b).
  destruct (SFcompare a b) as [[| |]|]; cbn; congruence.
Qed.

(** ** The hit test *)

Lemma testWidget_toggle start direction ptr b w h :
  testWidget start direction ptr (TogglePointer b w) h = testWidget start direction ptr w h.
Proof. reflexivity. Qed.

Lemma hitLoop_widgets start direction ptr ws h :
  (hitLoop start direction ptr ws h).1 = TogglePointer false <$> ws.
Proof.
  revert ptr h. induction ws as [|w ws IH]; intros ptr h; cbn; [reflexivity|].
  specialize (IH (S ptr) (testWidget start direction ptr (TogglePointer false w) h)).
  destruct (hitLoop start direction (S ptr) ws _) as [rest' h'']. cbn in *.
  now rewrite IH.
Qed.

(** A widget that is no candidate, or not nearer than the hit so far,
    keeps [nearest] when the hit is kept. *)
Lemma nearest_skip far start direction seen w h :
  nearest far start direction seen h ->
  (candidate far start direction w ->
   F32.lt (distanceOf start direction w) (hitDistance h) = false) ->
  nearest far start direction (seen ++ [w]) h.
Proof.
  intros Hn Hw. unfold nearest in *. destruct (hitWidget h) as [i|].
  - destruct Hn as (wi & Hi & Hc & Hd & Hp & Hmin).
    exists wi. split; [apply lookup_app_l_Some; assumption|].
    split; [exact Hc|]. split; [exact Hd|]. split; [exact Hp|].
    intros j w' Hj Hcj.
    destruct (decide (j = length seen)) as [->|Hne].
    + rewrite list_lookup_middle in Hj by reflexivity. injection Hj as <-.
      split; [rewrite <- Hd; auto|].
      intros Hlt. apply lookup_lt_Some in Hi. lia.
    + assert (Hlt : (j < length seen)%nat).
      { apply lookup_lt_Some in Hj. rewrite length_app in Hj. cbn in Hj. lia. }
      rewrite lookup_app_l in Hj by assumption.
      apply (Hmin j w' Hj Hcj).
  - destruct Hn as [Hd Hnone]. split; [assumption|].
    intros j w' Hj Hcj.
    destruct (decide (j = length seen)) as [->|Hne].
    + rewrite list_lookup_middle in Hj by reflexivity. injection Hj as <-.
      specialize (Hw Hcj). destruct Hcj as (_ & _ & Hfar).
      rewrite Hd in Hw. congruence.
    + assert (Hlt : (j < length seen)%nat).
      { apply lookup_lt_Some in Hj. rewrite length_app in Hj. cbn in Hj. lia. }
      rewrite lookup_app_l in Hj by assumption. apply (Hnone j w' Hj Hcj).
Qed.

(** A candidate nearer than the hit so far becomes the hit. *)
Lemma nearest_take far start direction seen w h :
  nearest far start direction seen h ->
  hit (TestControllerIntersection w start direction) = true ->
  aIsInWidget (TestControllerIntersection w start direction) = true ->
  F32.lt (distanceOf start direction w) (hitDistance h) = true ->
  nearest far start direction (seen ++ [w])
    {| hitWidget := Some (length seen);
       hitDistance := distanceOf start direction w;
       hitPoint := aResult (TestControllerIntersection w start direction) |}.
Proof.
  intros Hn Ehit Ein Elt.
  assert (Hc : candidate far start direction w).
  { split; [assumption|]. split; [assumption|].
    unfold nearest in Hn. destruct (hitWidget h) as [i|].
    - destruct Hn as (wi & _ & (_ & _ & Hfar) & Hd & _).
      rewrite Hd in Elt. eapply lt_trans; eassumption.
    - destruct Hn as [Hd _]. now rewrite Hd in Elt. }
  unfold nearest in *. cbn [hitWidget hitDistance hitPoint].
  exists w. split; [apply list_lookup_middle; reflexivity|].
  split; [exact Hc|]. split; [reflexivity|]. split; [reflexivity|].
  intros j w' Hj Hcj.
  destruct (decide (j = length seen)) as [->|Hne].
  - rewrite list_lookup_middle in Hj by reflexivity. injection Hj as <-.
    split; [apply lt_irrefl | lia].
  - assert (Hlt : (j < length seen)%nat).
    { apply lookup_lt_Some in Hj. rewrite length_app in Hj. cbn in Hj. lia. }
    rewrite lookup_app_l in Hj by assumption.
    destruct (hitWidget h) as [i|].
    + destruct Hn as (wi & _ & _ & Hd & _ & Hmin).
      destruct (Hmin j w' Hj Hcj) as [Hge _]. rewrite Hd in Elt.
      split.
      * destruct (F32.lt (distanceOf start direction w')
                    (distanceOf start direction w)) eqn:E; [|reflexivity].
        rewrite (lt_trans _ _ _ E Elt) in Hge. discriminate.
      * intros _. destruct Hcj as (_ & _ & Hfar). eapply lt_below; eassumption.
    + destruct Hn as [_ Hnone]. destruct (Hnone j w' Hj Hcj).
Qed.

(** One more widget keeps [nearest]. *)
Lemma nearest_step far start direction seen w h :
  nearest far start direction seen h ->
  nearest far start direction (seen ++ [w])
    (testWidget start direction (length seen) w h).
Proof.
  intros Hn. unfold testWidget.
  destruct (hit (TestControllerIntersection w start direction)) eqn:Ehit;
    [destruct (aIsInWidget (TestControllerIntersection w start direction)) eqn:Ein;
     [destruct (F32.lt (aDistance (TestControllerIntersection w start direction))
                  (hitDistance h)) eqn:Elt|]|]; cbn [andb].
  - apply (nearest_take far start direction seen w h); assumption.
  - apply nearest_skip; [assumption|]. intros _. exact Elt.
  - apply nearest_skip; [assumption|]. intros (_ & Hin & _). congruence.
  - apply nearest_skip; [assumption|]. intros (Hhit & _). congruence.
Qed.

(** The loop keeps [nearest]: [seen] are the widgets before position
    [length seen], [ws] the ones still to test. *)
Lemma hitLoop_nearest far start direction seen ws h :
  nearest far start direction seen h ->
  nearest far start direction (seen ++ ws)
    (hitLoop start direction (length seen) ws h).2.
Proof.
  revert seen h. induction ws as [|w ws IH]; intros seen h Hn; cbn.
  - now rewrite app_nil_r.
  - rewrite testWidget_toggle.
    pose proof (nearest_step far start direction seen w h Hn) as Hstep.
    specialize (IH (seen ++ [w]) _ Hstep).
    rewrite length_app in IH. cbn in IH. rewrite Nat.add_1_r in IH.
    rewrite <- app_assoc in IH. cbn in IH.
    destruct (hitLoop start direction (S (length seen)) ws _) as [rest' h''].
    exact IH.
Qed.

Lemma hitTest_nearest far transform ws :
  nearest far (rayStart transform) (rayDirection transform) ws
    (hitTest far transform ws).2.
Proof.
  unfold hitTest.
  apply (hitLoop_nearest far (rayStart transform) (rayDirection transform) [] ws).
  split; [reflexivity|]. intros j w Hj. discriminate Hj.
Qed.

Lemma hitTest_widgets far transform ws :
  (hitTest far transform ws).1 = TogglePointer false <$> ws.
Proof. apply hitLoop_widgets. Qed.

(** The selected widget is one of the widgets. *)
Lemma hitTest_lookup far transform ws i :
  hitWidget (hitTest far transform ws).2 = Some i ->
  exists w, ws !! i = Some w /\
            (hitTest far transform ws).1 !! i = Some (TogglePointer false w) /\
            candidate far (rayStart transform) (rayDirection transform) w.
Proof.
  intros Hi. pose proof (hitTest_nearest far transform ws) as Hn.
  unfold nearest in Hn. rewrite Hi in Hn.
  destruct Hn as (w & Hw & Hc & _). exists w. split; [assumption|].
  split; [|assumption].
  rewrite hitTest_widgets, list_lookup_fmap, Hw. reflexivity.
Qed.

(** C1 (amended).  In every frame and for every list of widgets, the hit
    test of a controller selects, among the widgets that report a hit
    with [isInWidget = true] and a distance strictly below [farClip],
    the one with the least distance, and among equals the one inserted
    first; its distance and intersection point are recorded.  When no
    widget qualifies, none is selected. *)
Theorem C1_hit_test_selects_nearest_below_far_clip
    (s : State) (dev : DeviceDelegate) (ws : list Widget) (record : ControllerRecord) :
  let transform := GetControllerTransform dev (index record) in
  nearest (farClip s) (rayStart transform) (rayDirection transform) ws
    (pointedAt s dev ws record).
Proof. intros transform. apply hitTest_nearest. Qed.

(** C1 as stated fails: the only widget is hit inside its bounds, at
    distance 150 with [farClip = 100], and no widget is selected. *)
Lemma C1_counterexample_only_hit_beyond_far_clip :
  let transform := Example.identity in
  let ws := [Example.farAway] in
  let r := TestControllerIntersection Example.farAway
             (rayStart transform) (rayDirection transform) in
  farClip State_new = Example.f 100 /\
  hit r = true /\ aIsInWidget r = true /\ aDistance r = Example.f 150 /\
  hitWidget (hitTest (farClip State_new) transform ws).2 = None.
Proof. vm_compute. repeat split. Qed.

(** C10.  A widget whose intersection distance is greater than or equal
    to [farClip] is never selected by the hit test, whatever the other
    widgets are; [farClip] is initialized to 100.0. *)
Theorem C10_distance_at_or_beyond_far_clip_never_selected
    (far : float) (transform : Matrix) (ws : list Widget) (i : nat) (w : Widget) :
  ws !! i = Some w ->
  F32_ge (distanceOf (rayStart transform) (rayDirection transform) w) far = true ->
  hitWidget (hitTest far transform ws).2 <> Some i /\
  farClip State_new = F32.of_Z 100.
Proof.
  intros Hw Hge. split; [|reflexivity].
  intros Hi. apply hitTest_lookup in Hi as (w' & Hw' & _ & (_ & _ & Hlt)).
  rewrite Hw in Hw'. injection Hw' as <-.
  apply lt_not_ge in Hlt. congruence.
Qed.

Lemma C10_witness :
  hitWidget (hitTest (farClip State_new) Example.identity [Example.farAway]).2
    <> Some 0%nat /\
  farClip State_new = F32.of_Z 100.
Proof.
  apply (C10_distance_at_or_beyond_far_clip_never_selected
           (farClip State_new) Example.identity [Example.farAway] 0 Example.farAway).
  - reflexivity.
  - vm_compute. reflexivity.
Defined.

(** ** Calls in a trace *)

Lemma callsTo_app m t1 t2 : callsTo m (t1 ++ t2) = callsTo m t1 ++ callsTo m t2.
Proof. apply List.filter_app. Qed.

Lemma JavaMethod_eqb_eq a b : JavaMethod_eqb a b = true <-> a = b.
Proof. destruct a, b; cbn; split; congruence. Qed.

(** Calls through a handle that is not [m] are not calls to [m]. *)
Lemma callsTo_other m methodID trace :
  callsThrough methodID trace -> methodID <> Some m -> callsTo m trace = [].
Proof.
  intros Hall Hne. induction Hall as [|e trace (args & ->) _ IH]; [reflexivity|].
  cbn. destruct methodID as [m'|]; [|exact IH].
  destruct (JavaMethod_eqb m m') eqn:E; [|exact IH].
  apply JavaMethod_eqb_eq in E. congruence.
Qed.

(** Calls through the handle of [m] are calls to [m]. *)
Lemma callsTo_same m trace :
  callsThrough (Some m) trace -> callsTo m trace = trace.
Proof.
  intros Hall. induction Hall as [|e trace (args & ->) _ IH]; [reflexivity|].
  cbn. destruct (JavaMethod_eqb m m) eqn:E.
  - unfold callsTo in IH. now rewrite IH.
  - assert (JavaMethod_eqb m m = true) by now apply JavaMethod_eqb_eq. congruence.
Qed.

Lemma gestureCall_through methodID type :
  callsThrough methodID (gestureCall methodID type).
Proof.
  unfold gestureCall. destruct (_ && _); repeat constructor. eexists; reflexivity.
Qed.

Lemma gestureStep_through s : callsThrough (handleGestureMethod s) (gestureStep s).
Proof.
  unfold gestureStep. destruct (gestures s) as [g|]; [|constructor].
  induction (pendingGestures g) as [|type l IH]; [constructor|].
  cbn. apply Forall_app. split; [apply gestureCall_through | exact IH].
Qed.

Lemma pointerStep_through s handle aPressed theX theY record :
  callsThrough (handleMotionEventMethod s)
    (pointerStep s handle aPressed theX theY record).2.
Proof.
  unfold pointerStep. destruct (_ || _); repeat constructor. eexists; reflexivity.
Qed.

Lemma scrollStep_through s dev record :
  callsThrough (handleScrollEventMethod s) (scrollStep s dev record).2.
Proof.
  unfold scrollStep. destruct (GetControllerScrolled dev (index record)) as [[x y]|];
    [|constructor].
  cbn. destruct (_ && _); repeat constructor. eexists; reflexivity.
Qed.

(** ** One controller in one frame *)

(** With a hit and the motion callback, the pointer and scroll steps
    run. *)
Lemma updateRecord_hit s dev ws active record m i w :
  handleMotionEventMethod s = Some m ->
  hitWidget (pointedAt s dev ws record) = Some i ->
  ws !! i = Some w ->
  let transform := GetControllerTransform dev (index record) in
  let xy := ConvertToWidgetCoordinates w (hitPoint (pointedAt s dev ws record)) in
  let moved :=
    pointerStep s (GetHandle w) (GetControllerButtonState dev (index record) 0)
      xy.1 xy.2 (SetTransform transform record) in
  let scrolled := scrollStep s dev moved.1 in
  updateRecord s dev ws active record =
    (scrolled.1, TogglePointer false <$> ws, active ++ [i],
     gestureStep s ++ moved.2 ++ scrolled.2).
Proof.
  intros Hm Hi Hw transform xy moved scrolled.
  unfold pointedAt in Hi. fold transform in Hi.
  destruct (hitTest_lookup _ _ _ _ Hi) as (w' & Hw' & Hlook & _).
  rewrite Hw in Hw'. injection Hw' as <-.
  unfold updateRecord. fold transform.
  subst scrolled moved xy. unfold pointedAt. fold transform.
  rewrite <- (hitTest_widgets (farClip s) transform ws).
  destruct (hitTest (farClip s) transform ws) as [ws' h]. cbn [fst snd] in *.
  rewrite Hm, Hi, Hlook. cbn [TogglePointer ConvertToWidgetCoordinates GetHandle index SetTransform].
  destruct (ConvertToWidgetCoordinates w (hitPoint h)) as [theX theY]. cbn [fst snd].
  destruct (pointerStep s (GetHandle w) _ theX theY _) as [r1 c1].
  cbn [fst snd]. destruct (scrollStep s dev r1) as [r2 c2]. reflexivity.
Qed.

(** Without a hit, or without the motion callback, only the gesture step
    runs and the record keeps its values. *)
Lemma updateRecord_miss s dev ws active record :
  handleMotionEventMethod s = None \/ hitWidget (pointedAt s dev ws record) = None ->
  updateRecord s dev ws active record =
    (SetTransform (GetControllerTransform dev (index record)) record,
     TogglePointer false <$> ws, active, gestureStep s).
Proof.
  intros H. unfold updateRecord, pointedAt in *.
  rewrite <- (hitTest_widgets (farClip s) (GetControllerTransform dev (index record)) ws).
  destruct (hitTest (farClip s) _ ws) as [ws' h]. cbn [fst snd] in *.
  destruct H as [-> | ->]; [reflexivity|].
  destruct (handleMotionEventMethod s); reflexivity.
Qed.

Lemma scrollStep_sentValues s dev record :
  sentValues (scrollStep s dev record).1 = sentValues record.
Proof.
  unfold scrollStep. destruct (GetControllerScrolled dev (index record)) as [[x y]|];
    reflexivity.
Qed.

Lemma scrollStep_index s dev record :
  index (scrollStep s dev record).1 = index record.
Proof.
  unfold scrollStep. destruct (GetControllerScrolled dev (index record)) as [[x y]|];
    reflexivity.
Qed.

(** The test of line 257 is the negation of [sameAsSent]. *)
Lemma pointerStep_cases s handle aPressed theX theY record :
  pointerStep s handle aPressed theX theY record =
    if sameAsSent record handle aPressed theX theY
    then (record, [])
    else (setSent handle theX theY aPressed record,
          [CallVoidMethod (handleMotionEventMethod s)
             [JInt handle; JInt (index record); JBoolean aPressed;
              JFloat theX; JFloat theY]]).
Proof.
  unfold pointerStep, sameAsSent.
  destruct (F32.ne (xx record) theX), (F32.ne (yy record) theY),
    (Bool.eqb (pressed record) aPressed), (widget record =? handle); reflexivity.
Qed.

Lemma resolved_gesture_not s m :
  handles_resolved s -> m <> handleGesture -> handleGestureMethod s <> Some m.
Proof. intros (_ & _ & _ & _ & [H|H]) Hm; rewrite H; congruence. Qed.

Lemma resolved_scroll_not s m :
  handles_resolved s -> m <> handleScrollEvent -> handleScrollEventMethod s <> Some m.
Proof. intros (_ & _ & [H|H] & _) Hm; rewrite H; congruence. Qed.

Lemma resolved_motion_not s m :
  handles_resolved s -> m <> handleMotionEvent -> handleMotionEventMethod s <> Some m.
Proof. intros (_ & [H|H] & _) Hm; rewrite H; congruence. Qed.

(** C2 (amended).  For a controller with a nearest hit widget, when the
    motion-event callback handle is not null: if the local x and y, the
    pressed state and the widget handle computed in this frame all
    compare equal to the values of the record, no pointer event is
    emitted for the controller and the record keeps them; if one of them
    compares unequal, exactly one pointer event is emitted, with the four
    current values, and the record holds these values afterwards. *)
Theorem C2_pointer_event_exactly_on_change
    (s : State) (dev : DeviceDelegate) (ws : list Widget) (active : list nat)
    (record : ControllerRecord) (i : nat) (w : Widget) :
  handles_resolved s ->
  handleMotionEventMethod s = Some handleMotionEvent ->
  hitWidget (pointedAt s dev ws record) = Some i ->
  ws !! i = Some w ->
  let handle := GetHandle w in
  let aPressed := GetControllerButtonState dev (index record) 0 in
  let xy := ConvertToWidgetCoordinates w (hitPoint (pointedAt s dev ws record)) in
  let result := updateRecord s dev ws active record in
  if sameAsSent record handle aPressed xy.1 xy.2
  then callsTo handleMotionEvent result.2 = [] /\
       sentValues result.1.1.1 = sentValues record
  else callsTo handleMotionEvent result.2 =
         [CallVoidMethod (Some handleMotionEvent)
            [JInt handle; JInt (index record); JBoolean aPressed;
             JFloat xy.1; JFloat xy.2]] /\
       sentValues result.1.1.1 = (handle, aPressed, xy.1, xy.2).
Proof.
  intros Hres Hm Hi Hw handle aPressed xy result.
  subst result. rewrite (updateRecord_hit s dev ws active record _ i w Hm Hi Hw).
  fold handle aPressed xy. cbn [fst snd].
  rewrite !callsTo_app, scrollStep_sentValues.
  rewrite (callsTo_other _ _ _ (gestureStep_through s))
    by (apply resolved_gesture_not; [assumption|discriminate]).
  rewrite (callsTo_other _ _ _ (scrollStep_through s dev _))
    by (apply resolved_scroll_not; [assumption|discriminate]).
  rewrite app_nil_r. cbn [app].
  rewrite pointerStep_cases.
  change (sameAsSent (SetTransform (GetControllerTransform dev (index record)) record))
    with (sameAsSent record).
  destruct (sameAsSent record handle aPressed xy.1 xy.2); cbn [fst snd].
  - split; reflexivity.
  - rewrite Hm. split; reflexivity.
Qed.

Lemma C2_witness :
  let s := Example.s0 in
  let result := updateRecord s Example.dev0 (widgets s) [] Example.record0 in
  controllers s = [Example.record0] /\
  handleMotionEventMethod s = Some handleMotionEvent /\
  hitWidget (pointedAt s Example.dev0 (widgets s) Example.record0) = Some 0%nat /\
  callsTo handleMotionEvent result.2 =
    [CallVoidMethod (Some handleMotionEvent)
       [JInt 5; JInt 0; JBoolean false; JFloat (Example.f 100); JFloat (Example.f 50)]] /\
  sentValues result.1.1.1 = (5, false, Example.f 100, Example.f 50).
Proof.
  intros s result.
  split; [reflexivity|]. split; [reflexivity|]. split; [reflexivity|].
  assert (Hres : handles_resolved s) by resolved_by_computation.
  exact (C2_pointer_event_exactly_on_change s Example.dev0 (widgets s) []
           Example.record0 0 Example.browser Hres eq_refl eq_refl eq_refl).
Defined.

(** C2 as stated fails: the controller has a nearest hit widget and the
    values of this frame differ from the record's, but the motion-event
    callback is null and no pointer event is emitted. *)
Lemma C2_counterexample_null_motion_handle :
  let s := Example.started (Example.without handleMotionEvent) Example.dev0 in
  controllers s = [Example.record0] /\
  handleMotionEventMethod s = None /\
  hitWidget (pointedAt s Example.dev0 (widgets s) Example.record0) = Some 0%nat /\
  sameAsSent Example.record0 5 false (Example.f 100) (Example.f 50) = false /\
  (UpdateControllers Example.dev0 s).2 = [].
Proof. vm_compute. repeat split. Qed.

(** After the pointer step the record holds the handle and the pressed
    state of this frame, and its touch fields are untouched. *)
Lemma pointerStep_record s handle aPressed theX theY record :
  let r := (pointerStep s handle aPressed theX theY record).1 in
  widget r = handle /\ pressed r = aPressed /\ index r = index record /\
  touched r = touched record /\
  touchPadX r = touchPadX record /\ touchPadY r = touchPadY record.
Proof.
  rewrite pointerStep_cases.
  destruct (sameAsSent record handle aPressed theX theY) eqn:E; cbn.
  - unfold sameAsSent in E.
    apply andb_prop in E as [E Hw]. apply andb_prop in E as [_ Hp].
    apply Z.eqb_eq in Hw. apply eqb_prop in Hp. repeat split; assumption.
  - repeat split.
Qed.

(** C3 (amended).  In a frame in which the controller has a nearest hit
    widget, with the motion and scroll callbacks resolved: a scroll event
    is emitted exactly when the device reports a scroll delta, the
    record's touched flag was true on entry and the controller is not
    pressed; it carries (delta - stored delta) * 20.0 for each axis; when
    a delta is reported, touched is set and the delta stored (also on the
    first such frame, which emits nothing); when none is reported,
    touched is reset.  In a frame in which the controller has no nearest
    hit widget no scroll event is emitted and touched and the stored
    delta are left as they were. *)
Theorem C3_scroll_event_in_frames_with_a_hit
    (s : State) (dev : DeviceDelegate) (ws : list Widget) (active : list nat)
    (record : ControllerRecord) :
  handles_resolved s ->
  handleMotionEventMethod s = Some handleMotionEvent ->
  handleScrollEventMethod s = Some handleScrollEvent ->
  let aPressed := GetControllerButtonState dev (index record) 0 in
  let result := updateRecord s dev ws active record in
  let record' := result.1.1.1 in
  let scrolls := callsTo handleScrollEvent result.2 in
  match hitWidget (pointedAt s dev ws record) with
  | Some i =>
      forall w, ws !! i = Some w ->
      match GetControllerScrolled dev (index record) with
      | Some (scrollX, scrollY) =>
          scrolls =
            (if F32.to_bool (touched record) && negb aPressed
             then [CallVoidMethod (Some handleScrollEvent)
                     [JInt (GetHandle w); JInt (index record);
                      JFloat (F32.mul (F32.sub scrollX (touchPadX record)) (F32.of_Z 20));
                      JFloat (F32.mul (F32.sub scrollY (touchPadY record)) (F32.of_Z 20))]]
             else []) /\
          touched record' = F32.of_bool true /\
          touchPadX record' = scrollX /\ touchPadY record' = scrollY
      | None =>
          scrolls = [] /\ touched record' = F32.of_bool false
      end
  | None =>
      scrolls = [] /\ touched record' = touched record /\
      touchPadX record' = touchPadX record /\ touchPadY record' = touchPadY record
  end.
Proof.
  intros Hres Hm Hs aPressed result record' scrolls.
  destruct (hitWidget (pointedAt s dev ws record)) as [i|] eqn:Hi.
  - intros w Hw. subst scrolls record' result.
    rewrite (updateRecord_hit s dev ws active record _ i w Hm Hi Hw).
    cbn [fst snd]. rewrite !callsTo_app.
    rewrite (callsTo_other _ _ _ (gestureStep_through s))
      by (apply resolved_gesture_not; [assumption|discriminate]).
    rewrite (callsTo_other _ _ _ (pointerStep_through s _ _ _ _ _))
      by (apply resolved_motion_not; [assumption|discriminate]).
    cbn [app].
    pose proof (scrollStep_through s dev
      (pointerStep s (GetHandle w) (GetControllerButtonState dev (index record) 0)
         (ConvertToWidgetCoordinates w (hitPoint (pointedAt s dev ws record))).1
         (ConvertToWidgetCoordinates w (hitPoint (pointedAt s dev ws record))).2
         (SetTransform (GetControllerTransform dev (index record)) record)).1) as Hthrough.
    rewrite Hs in Hthrough. rewrite (callsTo_same _ _ Hthrough). clear Hthrough.
    pose proof (pointerStep_record s (GetHandle w)
      (GetControllerButtonState dev (index record) 0)
      (ConvertToWidgetCoordinates w (hitPoint (pointedAt s dev ws record))).1
      (ConvertToWidgetCoordinates w (hitPoint (pointedAt s dev ws record))).2
      (SetTransform (GetControllerTransform dev (index record)) record))
      as (Hwid & Hpr & Hix & Hto & Htx & Hty).
    cbn [SetTransform index touched touchPadX touchPadY] in Hix, Hto, Htx, Hty.
    unfold scrollStep. rewrite Hix, Hwid, Hpr, Hto, Htx, Hty, Hs.
    fold aPressed.
    destruct (GetControllerScrolled dev (index record)) as [[scrollX scrollY]|];
      cbn [fst snd setTouch touched touchPadX touchPadY].
    + change kScrollFactor with (F32.of_Z 20). repeat split.
    + repeat split.
  - subst scrolls record' result.
    rewrite (updateRecord_miss s dev ws active record) by (right; exact Hi).
    cbn [fst snd SetTransform touched touchPadX touchPadY].
    rewrite (callsTo_other _ _ _ (gestureStep_through s))
      by (apply resolved_gesture_not; [assumption|discriminate]).
    repeat split.
Qed.

Lemma C3_witness :
  let s := Example.s1 in
  let result := updateRecord s Example.devScroll (widgets s) [] Example.record1 in
  controllers s = [Example.record1] /\
  F32.to_bool (touched Example.record1) = true /\
  callsTo handleScrollEvent result.2 =
    [CallVoidMethod (Some handleScrollEvent)
       [JInt 5; JInt 0; JFloat (Example.f 40); JFloat F32.zero]] /\
  touchPadX result.1.1.1 = Example.f 3.
Proof.
  intros s result.
  split; [reflexivity|]. split; [reflexivity|].
  assert (Hres : handles_resolved s) by resolved_by_computation.
  pose proof (C3_scroll_event_in_frames_with_a_hit s Example.devScroll (widgets s) []
                Example.record1 Hres eq_refl eq_refl) as H.
  cbv zeta in H.
  change (hitWidget (pointedAt s Example.devScroll (widgets s) Example.record1))
    with (Some 0%nat) in H.
  cbv iota beta in H.
  destruct (H (TogglePointer true Example.browser) eq_refl) as (Hcalls & _ & Hx & _).
  split; [exact Hcalls | exact Hx].
Defined.

(** C3 as stated fails: the record is touched, the controller then
    points away from every widget and the device reports no scroll
    delta; touched is not reset. *)
Lemma C3_counterexample_touched_kept_without_hit :
  let s1 := Example.s1 in
  let s2 := (UpdateControllers Example.devAway s1).1 in
  List.map touched (controllers s1) = [F32.of_bool true] /\
  GetControllerScrolled Example.devAway 0 = None /\
  List.map (fun r => hitWidget (pointedAt s1 Example.devAway (widgets s1) r))
    (controllers s1) = [None] /\
  List.map touched (controllers s2) = [F32.of_bool true].
Proof. vm_compute. repeat split. Qed.

(** ** Gestures *)


Lemma gestureCall_null type : gestureCall None type = [].
Proof. unfold gestureCall. now rewrite andb_false_r. Qed.


(** The calls of one pass: the gesture step first, then calls through
    the motion and scroll handles. *)
Lemma updateRecord_calls s dev ws active record :
  exists moved scrolled,
    (updateRecord s dev ws active record).2 = gestureStep s ++ moved ++ scrolled /\
    callsThrough (handleMotionEventMethod s) moved /\
    callsThrough (handleScrollEventMethod s) scrolled.
Proof.
  destruct (handleMotionEventMethod s) as [m|] eqn:Hm;
    [destruct (hitWidget (pointedAt s dev ws record)) as [i|] eqn:Hi|].
  - destruct (hitTest_lookup _ _ _ _ Hi) as (w & Hw & _).
    rewrite (updateRecord_hit s dev ws active record m i w Hm Hi Hw).
    eexists _, _. split; [reflexivity|]. rewrite <- Hm.
    split; [apply pointerStep_through | apply scrollStep_through].
  - rewrite updateRecord_miss by (right; exact Hi).
    exists [], []. rewrite !app_nil_r. repeat constructor.
  - rewrite updateRecord_miss by (left; exact Hm).
    exists [], []. rewrite !app_nil_r. repeat constructor.
Qed.


(** ** The pointer highlight *)

Lemma TogglePointer_twice b b' w :
  TogglePointer b (TogglePointer b' w) = TogglePointer b w.
Proof. reflexivity. Qed.

(** The hit test does not look at the pointer highlight. *)
Lemma hitLoop_toggled start direction ptr b ws h :
  (hitLoop start direction ptr (TogglePointer b <$> ws) h).2
  = (hitLoop start direction ptr ws h).2.
Proof.
  revert ptr h. induction ws as [|w ws IH]; intros ptr h; [reflexivity|].
  cbn. rewrite !testWidget_toggle.
  specialize (IH (S ptr) (testWidget start direction ptr w h)).
  destruct (hitLoop start direction (S ptr) (TogglePointer b <$> ws) _) as [r1 h1].
  destruct (hitLoop start direction (S ptr) ws _) as [r2 h2]. exact IH.
Qed.

Lemma pointedAt_toggled s dev b ws record :
  pointedAt s dev (TogglePointer b <$> ws) record = pointedAt s dev ws record.
Proof. apply hitLoop_toggled. Qed.

Lemma activeOf_toggled s dev b ws records :
  activeOf s dev (TogglePointer b <$> ws) records = activeOf s dev ws records.
Proof.
  unfold activeOf. induction records as [|r rest IH]; [reflexivity|].
  cbn. unfold pushedBy at 1 3. now rewrite pointedAt_toggled, IH.
Qed.

(** What one pass does to the widgets and to [active]. *)
Lemma updateRecord_scene s dev ws active record :
  (updateRecord s dev ws active record).1.1.2 = TogglePointer false <$> ws /\
  (updateRecord s dev ws active record).1.2 = active ++ pushedBy s dev ws record.
Proof.
  unfold pushedBy.
  destruct (handleMotionEventMethod s) as [m|] eqn:Hm;
    [destruct (hitWidget (pointedAt s dev ws record)) as [i|] eqn:Hi|].
  - destruct (hitTest_lookup _ _ _ _ Hi) as (w & Hw & _).
    rewrite (updateRecord_hit s dev ws active record m i w Hm Hi Hw).
    split; reflexivity.
  - rewrite updateRecord_miss by (right; exact Hi).
    cbn. now rewrite app_nil_r.
  - rewrite updateRecord_miss by (left; exact Hm).
    cbn. now rewrite app_nil_r.
Qed.

(** What the loop over the controllers does to the widgets and to
    [active]. *)
Lemma controllerLoop_scene s dev records ws active :
  (controllerLoop s dev records ws active).1.1.2
    = match records with [] => ws | _ :: _ => TogglePointer false <$> ws end /\
  (controllerLoop s dev records ws active).1.2 = active ++ activeOf s dev ws records.
Proof.
  revert ws active. induction records as [|r rest IH]; intros ws active.
  - cbn. now rewrite app_nil_r.
  - cbn [controllerLoop].
    destruct (updateRecord_scene s dev ws active r) as [Hws Hact].
    destruct (updateRecord s dev ws active r) as [[[r' ws1] active1] calls1].
    cbn [fst snd] in Hws, Hact. subst ws1 active1.
    specialize (IH (TogglePointer false <$> ws) (active ++ pushedBy s dev ws r)).
    destruct (controllerLoop s dev rest _ _) as [[[rest' ws2] active2] calls2].
    cbn [fst snd] in *. destruct IH as [-> ->]. split.
    + destruct rest; [reflexivity|].
      rewrite <- list_fmap_compose. reflexivity.
    + rewrite activeOf_toggled, <- app_assoc. reflexivity.
Qed.

(** The widgets after the pointers in [active] are switched on. *)
Lemma toggleActive_lookup active ws i :
  toggleActive active ws !! i
  = (fun w => if bool_decide (i ∈ active) then TogglePointer true w else w) <$> ws !! i.
Proof.
  revert ws. induction active as [|a active IH]; intros ws.
  - cbn. destruct (ws !! i); reflexivity.
  - cbn [toggleActive fold_left]. fold (toggleActive active (alter (TogglePointer true) a ws)).
    rewrite IH. destruct (decide (i = a)) as [->|Hne].
    + rewrite list_lookup_alter_eq. destruct (ws !! a) as [w|]; [|reflexivity].
      cbn. rewrite (bool_decide_eq_true_2 (a ∈ a :: active)) by apply list_elem_of_here.
      destruct (bool_decide (a ∈ active)); reflexivity.
    + rewrite list_lookup_alter_ne by congruence.
      destruct (ws !! i) as [w|]; [|reflexivity]. cbn.
      rewrite (bool_decide_ext (i ∈ a :: active) (i ∈ active)); [reflexivity|].
      rewrite elem_of_cons. tauto.
Qed.

Lemma toggleActive_length active ws : length (toggleActive active ws) = length ws.
Proof.
  revert ws. induction active as [|a active IH]; intros ws; [reflexivity|].
  cbn. fold (toggleActive active (alter (TogglePointer true) a ws)).
  now rewrite IH, length_alter.
Qed.

Lemma elem_of_activeOf s dev ws records i :
  i ∈ activeOf s dev ws records <->
  handleMotionEventMethod s <> None /\
  exists record, record ∈ records /\ hitWidget (pointedAt s dev ws record) = Some i.
Proof.
  unfold activeOf. rewrite list_elem_of_In, in_flat_map. split.
  - intros (record & Hin & Hi). unfold pushedBy in Hi.
    destruct (handleMotionEventMethod s); [|destruct Hi].
    destruct (hitWidget (pointedAt s dev ws record)) as [k|] eqn:E; [|destruct Hi].
    destruct Hi as [<-|[]]. split; [discriminate|].
    exists record. split; [now apply list_elem_of_In | assumption].
  - intros (Hm & record & Hin & Hi). exists record.
    split; [now apply list_elem_of_In|].
    unfold pushedBy. rewrite Hi. destruct (handleMotionEventMethod s); [|congruence].
    now left.
Qed.

(** C6 (amended).  After an [UpdateControllers] invocation with at least
    one controller record and a motion-event callback handle that is not
    null, the widgets whose pointer highlight is on are exactly the
    widgets that were the nearest hit (in bounds, below [farClip]) of at
    least one controller in this frame; the highlight of every other
    widget is off. *)
Theorem C6_highlight_is_the_set_of_nearest_hits (s : State) (dev : DeviceDelegate) :
  controllers s <> [] ->
  handleMotionEventMethod s <> None ->
  let s' := (UpdateControllers dev s).1 in
  length (widgets s') = length (widgets s) /\
  forall i w', widgets s' !! i = Some w' ->
    (pointerEnabled w' = true <->
     exists record, record ∈ controllers s /\
       hitWidget (pointedAt s dev (widgets s) record) = Some i).
Proof.
  intros Hrecords Hm s'. subst s'. unfold UpdateControllers.
  destruct (controllerLoop_scene s dev (controllers s) (widgets s) []) as [Hws Hact].
  destruct (controllerLoop s dev (controllers s) (widgets s) [])
    as [[[records ws] active] calls].
  cbn [fst snd widgets set_scene] in *. subst ws active.
  destruct (controllers s) as [|r rest] eqn:Hrs; [congruence|]. rewrite <- Hrs in *.
  split; [now rewrite toggleActive_length, length_fmap|].
  intros i w' Hw'. rewrite toggleActive_lookup, list_lookup_fmap in Hw'.
  destruct (widgets s !! i) as [w|]; [|discriminate Hw'].
  cbn in Hw'. injection Hw' as <-.
  pose proof (elem_of_activeOf s dev (widgets s) (controllers s) i) as Hiff.
  destruct (bool_decide (i ∈ activeOf s dev (widgets s) (controllers s))) eqn:E.
  - apply bool_decide_eq_true in E. cbn. split; [intros _|reflexivity].
    now apply Hiff in E as [_ E].
  - apply bool_decide_eq_false in E. cbn. split; [discriminate|].
    intros Hex. destruct E. apply Hiff. split; assumption.
Qed.

Lemma C6_witness :
  let s := Example.s0 in
  let s' := (UpdateControllers Example.dev0 s).1 in
  List.map pointerEnabled (widgets s') = [true; false] /\
  length (widgets s') = length (widgets s) /\
  forall i w', widgets s' !! i = Some w' ->
    (pointerEnabled w' = true <->
     exists record, record ∈ controllers s /\
       hitWidget (pointedAt s Example.dev0 (widgets s) record) = Some i).
Proof.
  intros s s'. split; [reflexivity|].
  apply (C6_highlight_is_the_set_of_nearest_hits s Example.dev0); discriminate.
Defined.

(** C6 as stated fails.  With a null motion-event callback the widget the
    controller points at is not highlighted.  And with no controller
    record (the delegate was removed and registered again) the highlight
    of the frame before stays on, although no controller points at the
    widget. *)
Lemma C6_counterexample_null_motion_handle_and_no_records :
  (let s := Example.started (Example.without handleMotionEvent) Example.dev0 in
   let s' := (UpdateControllers Example.dev0 s).1 in
   controllers s = [Example.record0] /\
   hitWidget (pointedAt s Example.dev0 (widgets s) Example.record0) = Some 0%nat /\
   List.map pointerEnabled (widgets s') = [false; false]) /\
  (let s1 := (UpdateControllers Example.dev0 Example.s0).1 in
   let s2 := RegisterDeviceDelegate (Some Example.devAway)
               (RegisterDeviceDelegate None s1) in
   let s3 := (UpdateControllers Example.devAway s2).1 in
   controllers s2 = [] /\
   handleMotionEventMethod s2 = Some handleMotionEvent /\
   List.map pointerEnabled (widgets s3) = [true; false]).
Proof. vm_compute. repeat split. Qed.

(** ** Callback handles *)

(** C5 (the code departs from it).  The scroll-event callback is missing
    from the activity, so its handle is null; the touch pad is touched
    and then swiped while the controller points at the browser widget.
    The second frame calls [CallVoidMethod] with the null handle.  A null
    motion-event handle, with the scroll callback present, leaves the
    same two frames without any call: it disables the scroll events as
    well.  And [InitializeJava] reports the scroll callback as not found
    exactly when it was found. *)
Theorem C5_scroll_event_called_through_null_handle :
  (let s := Example.started (Example.without handleScrollEvent) Example.dev0 in
   let s1 := (UpdateControllers Example.devTouch s).1 in
   handleScrollEventMethod s = None /\
   handleMotionEventMethod s = Some handleMotionEvent /\
   List.filter isNullCall (UpdateControllers Example.devScroll s1).2 =
     [CallVoidMethod None [JInt 5; JInt 0; JFloat (Example.f 40); JFloat F32.zero]]) /\
  (let s := Example.started (Example.without handleMotionEvent) Example.dev0 in
   let s1 := (UpdateControllers Example.devTouch s).1 in
   handleScrollEventMethod s = Some handleScrollEvent /\
   (UpdateControllers Example.devTouch s).2 = [] /\
   (UpdateControllers Example.devScroll s1).2 = []) /\
  (resolveMethods Example.allMethods State_new).2 =
    [VRB_LOG "Failed to find Java method: handleScrollEvent (IIFF)V"] /\
  (resolveMethods (Example.without handleScrollEvent) State_new).2 = [].
Proof. vm_compute. repeat split. Qed.

(** ** Controller records *)

(** [operator=] copies the values last sent. *)
Lemma assign_sentValues this aRecord :
  sentValues (ControllerRecord_assign this aRecord) = sentValues aRecord.
Proof. reflexivity. Qed.

(** The copy and move constructors take [pressed], [xx] and [yy] from
    the storage, whatever the record copied holds. *)
Lemma copy_sentValues storage aRecord :
  sentValues (ControllerRecord_copy storage aRecord)
  = (widget aRecord, pressed storage, xx storage, yy storage) /\
  sentValues (ControllerRecord_move storage aRecord)
  = (widget aRecord, pressed storage, xx storage, yy storage).
Proof. split; reflexivity. Qed.

(** The pointer step leaves in the record the values of the event it
    sends, and leaves the record alone when it sends none. *)
Lemma pointerStep_sent s handle aPressed theX theY record :
  match (pointerStep s handle aPressed theX theY record).2 with
  | [] => (pointerStep s handle aPressed theX theY record).1 = record
  | _ :: _ =>
      sentValues (pointerStep s handle aPressed theX theY record).1
      = (handle, aPressed, theX, theY)
  end.
Proof. unfold pointerStep. destruct (_ || _); reflexivity. Qed.

(** C7 (the code departs from it).  A record that holds the values last
    sent, (5, pressed, 100, 50), is copied or moved into zeroed storage:
    the copy holds (5, not pressed, 0, 0), while the assignment operator
    keeps the values.  And the record [InitializeJava] moves into the
    vector, when the storage held ones, is pressed at (1, 1) before
    anything was sent, unlike the record [ControllerRecord(ix)] made. *)
Theorem C7_copy_and_move_lose_the_sent_values :
  let sent := (updateRecord Example.s0 Example.devPressed (widgets Example.s0) []
                 Example.record0).1.1.1 in
  sentValues sent = (5, true, Example.f 100, Example.f 50) /\
  sentValues (ControllerRecord_copy (Example.zeroed 0) sent)
    = (5, false, F32.zero, F32.zero) /\
  sentValues (ControllerRecord_move (Example.zeroed 0) sent)
    = (5, false, F32.zero, F32.zero) /\
  sentValues (ControllerRecord_assign (Example.zeroed 0) sent) = sentValues sent /\
  sentValues (ControllerRecord_new 0) = (0, false, F32.zero, F32.zero) /\
  List.map sentValues
    (controllers
       (InitializeJava (Some Example.allMethods) Example.browser Example.urlbar
          Example.identity Example.ones
          (RegisterDeviceDelegate (Some Example.dev0) State_new)).1)
    = [(0, true, F32.one, F32.one)].
Proof. vm_compute. repeat split. Qed.

(** ** Draw *)

(** C9.  When the device delegate is absent or the world is paused,
    [Draw] returns at once: the state (controller records, widgets and
    their highlights, flags) is unchanged, and nothing is done but
    writing one log line: no host call, no device call, no draw-list
    reset. *)
Theorem C9_paused_or_no_device_draw_does_nothing
    (noVrApi contextInitializeGL : bool) (s : State) :
  paused s = true \/ device s = None ->
  exists msg, Draw noVrApi contextInitializeGL s = (s, [VRB_LOG msg]).
Proof.
  intros H. unfold Draw. destruct (device s) as [dev|].
  - destruct H as [-> | H]; [|discriminate H]. eexists. reflexivity.
  - eexists. reflexivity.
Qed.

Lemma C9_witness :
  paused (Pause Example.s0) = true /\
  exists msg, Draw false true (Pause Example.s0) = (Pause Example.s0, [VRB_LOG msg]).
Proof.
  split; [reflexivity|].
  apply (C9_paused_or_no_device_draw_does_nothing false true (Pause Example.s0)).
  left. reflexivity.
Defined.

Lemma callsThrough_isHostCall methodID trace :
  callsThrough methodID trace -> Forall (fun e => isHostCall e = true) trace.
Proof. intros H. eapply Forall_impl; [exact H|]. intros e (args & ->). reflexivity. Qed.

Lemma updateRecord_isHostCall s dev ws active record :
  Forall (fun e => isHostCall e = true) (updateRecord s dev ws active record).2.
Proof.
  destruct (updateRecord_calls s dev ws active record)
    as (moved & scrolled & -> & Hmoved & Hscrolled).
  rewrite !Forall_app.
  repeat split; eauto using callsThrough_isHostCall, gestureStep_through.
Qed.

Lemma controllerLoop_isHostCall s dev records ws active :
  Forall (fun e => isHostCall e = true) (controllerLoop s dev records ws active).2.
Proof.
  revert ws active. induction records as [|r rest IH]; intros ws active; [constructor|].
  cbn [controllerLoop].
  pose proof (updateRecord_isHostCall s dev ws active r) as Hr.
  destruct (updateRecord s dev ws active r) as [[[r' ws1] active1] calls1].
  specialize (IH ws1 active1).
  destruct (controllerLoop s dev rest ws1 active1) as [[[rest' ws2] active2] calls2].
  cbn [fst snd] in *. apply Forall_app. split; assumption.
Qed.

(** [UpdateControllers] makes host calls only. *)
Lemma UpdateControllers_isHostCall dev s :
  Forall (fun e => isHostCall e = true) (UpdateControllers dev s).2.
Proof.
  unfold UpdateControllers.
  pose proof (controllerLoop_isHostCall s dev (controllers s) (widgets s) []) as H.
  destruct (controllerLoop s dev (controllers s) (widgets s) [])
    as [[[records ws] active] calls]. exact H.
Qed.

Lemma filter_hostCalls trace :
  Forall (fun e => isHostCall e = true) trace -> List.filter isDrawListOp trace = [].
Proof.
  induction 1 as [|e trace He _ IH]; [reflexivity|].
  cbn. destruct e; try discriminate He. exact IH.
Qed.

(** The draw-list operations of a frame that reaches rendering. *)
Lemma Draw_drawListOps noVrApi contextInitializeGL s :
  device s <> None -> paused s = false ->
  glInitialized s = true \/ contextInitializeGL = true ->
  List.filter isDrawListOp (Draw noVrApi contextInitializeGL s).2 =
    [DrawListReset; Cull; DrawListDraw CameraEnum.Left]
    ++ (if noVrApi then [] else [DrawListDraw CameraEnum.Right]).
Proof.
  intros Hdev Hpaused Hgl. unfold Draw.
  destruct (device s) as [dev|]; [|congruence]. rewrite Hpaused.
  assert (Hcalls : forall s0, List.filter isDrawListOp (UpdateControllers dev s0).2 = [])
    by (intros s0; apply filter_hostCalls, UpdateControllers_isHostCall).
  assert (Haudio : forall s0, List.filter isDrawListOp (audioPose dev s0) = []).
  { intros s0. unfold audioPose. destruct (nonnull _); reflexivity. }
  destruct (glInitialized s) eqn:Egl; cbn [negb].
  - rewrite Egl. cbn [negb].
    specialize (Hcalls s). destruct (UpdateControllers dev s) as [s' calls].
    cbn [fst snd] in *.
    rewrite !List.filter_app, Hcalls, Haudio. destruct noVrApi; reflexivity.
  - destruct Hgl as [Hgl | ->]; [discriminate|]. cbn [glInitialized set_glInitialized negb].
    specialize (Hcalls (set_glInitialized true s)).
    destruct (UpdateControllers dev (set_glInitialized true s)) as [s' calls].
    cbn [fst snd] in *.
    rewrite !List.filter_app, Hcalls, Haudio. destruct noVrApi; reflexivity.
Qed.

(** Splitting a trace at a draw-list operation splits its draw-list
    operations there. *)
Lemma filter_split trace l1 b l2 :
  trace = l1 ++ b :: l2 -> isDrawListOp b = true ->
  List.filter isDrawListOp trace
  = List.filter isDrawListOp l1 ++ b :: List.filter isDrawListOp l2.
Proof. intros -> Hb. rewrite List.filter_app. cbn. now rewrite Hb. Qed.

(** Where the draws are among the draw-list operations of a frame. *)
Lemma drawListOps_split (noVrApi : bool) eye A B :
  [DrawListReset; Cull; DrawListDraw CameraEnum.Left]
    ++ (if noVrApi then [] else [DrawListDraw CameraEnum.Right])
  = A ++ DrawListDraw eye :: B ->
  In Cull A /\ ~ In Cull B /\
  (eye = CameraEnum.Right -> In (DrawListDraw CameraEnum.Left) A).
Proof.
  intros H.
  destruct A as [|a1 [|a2 [|a3 [|a4 [|a5 A]]]]]; destruct noVrApi; cbn in H;
    try discriminate H; injection H as <-; try discriminate; subst.
  all: try match goal with H : [] = _ ++ _ :: _ |- _ =>
             destruct (app_cons_not_nil _ _ _ H) end.
  all: repeat match goal with H : _ :: _ = _ :: _ |- _ => injection H as <- end.
  all: subst; cbn; intuition congruence.
Qed.

(** C8.  In every [Draw] invocation that reaches rendering, the scene is
    culled into the draw list before each eye is drawn, it is not culled
    again after an eye was drawn, the left eye is drawn, and when the
    right eye is drawn the left eye was drawn before it (the right eye is
    drawn unless the build is for one eye). *)
Theorem C8_cull_before_draws_and_left_before_right
    (noVrApi contextInitializeGL : bool) (s : State) :
  device s <> None -> paused s = false ->
  glInitialized s = true \/ contextInitializeGL = true ->
  let trace := (Draw noVrApi contextInitializeGL s).2 in
  (forall eye, completedBefore Cull (DrawListDraw eye) trace) /\
  doneBefore (DrawListDraw CameraEnum.Left) (DrawListDraw CameraEnum.Right) trace /\
  In (DrawListDraw CameraEnum.Left) trace /\
  (noVrApi = false -> In (DrawListDraw CameraEnum.Right) trace).
Proof.
  intros Hdev Hpaused Hgl trace.
  pose proof (Draw_drawListOps noVrApi contextInitializeGL s Hdev Hpaused Hgl) as Hops.
  fold trace in Hops.
  assert (Hin : forall e, isDrawListOp e = true ->
                  In e (List.filter isDrawListOp trace) -> In e trace)
    by (intros e _ He; now apply List.filter_In in He).
  split; [|split; [|split]].
  - intros eye l1 l2 Hsplit.
    rewrite (filter_split trace l1 _ l2 Hsplit eq_refl) in Hops.
    destruct (drawListOps_split _ _ _ _ (eq_sym Hops)) as (HA & HB & _). split.
    + now apply List.filter_In in HA.
    + intros Hl2. apply HB. apply List.filter_In. split; [assumption|reflexivity].
  - intros l1 l2 Hsplit.
    rewrite (filter_split trace l1 _ l2 Hsplit eq_refl) in Hops.
    destruct (drawListOps_split _ _ _ _ (eq_sym Hops)) as (_ & _ & HL).
    specialize (HL eq_refl). now apply List.filter_In in HL.
  - apply Hin; [reflexivity|]. rewrite Hops. cbn. auto.
  - intros ->. apply Hin; [reflexivity|]. rewrite Hops. cbn. auto.
Qed.

Lemma C8_witness :
  let trace := (Draw false true Example.s0).2 in
  (forall eye, completedBefore Cull (DrawListDraw eye) trace) /\
  doneBefore (DrawListDraw CameraEnum.Left) (DrawListDraw CameraEnum.Right) trace /\
  In (DrawListDraw CameraEnum.Left) trace /\
  (false = false -> In (DrawListDraw CameraEnum.Right) trace).
Proof.
  apply (C8_cull_before_draws_and_left_before_right false true Example.s0).
  - discriminate.
  - reflexivity.
  - right. reflexivity.
Defined.

(** ** The callback handles over the life of the world *)

Lemma State_new_resolved : handles_resolved State_new.
Proof. resolved_by_computation. Qed.

Lemma GetMethodID_resolved clazz m :
  GetMethodID clazz m = None \/ GetMethodID clazz m = Some m.
Proof. unfold GetMethodID. destruct (clazz m); auto. Qed.

Lemma resolveMethods_resolved clazz s : handles_resolved (resolveMethods clazz s).1.
Proof. repeat split; apply GetMethodID_resolved. Qed.

Lemma InitializeJava_resolved clazz browser urlbar created storage s :
  handles_resolved s ->
  handles_resolved (InitializeJava clazz browser urlbar created storage s).1.
Proof.
  intros Hs. destruct clazz as [clazz|]; [|exact Hs].
  unfold InitializeJava. cbn [resolveMethods].
  destruct (_ && _); repeat split; apply GetMethodID_resolved.
Qed.

Lemma ShutdownJava_resolved s : handles_resolved (ShutdownJava s).1.
Proof. repeat split; left; reflexivity. Qed.

Lemma RegisterDeviceDelegate_resolved aDelegate s :
  handles_resolved s -> handles_resolved (RegisterDeviceDelegate aDelegate s).
Proof. intros Hs. destruct aDelegate; exact Hs. Qed.

Lemma UpdateControllers_resolved dev s :
  handles_resolved s -> handles_resolved (UpdateControllers dev s).1.
Proof.
  intros Hs. unfold UpdateControllers.
  destruct (controllerLoop s dev (controllers s) (widgets s) [])
    as [[[records ws] active] calls]. exact Hs.
Qed.

Lemma Draw_resolved noVrApi contextInitializeGL s :
  handles_resolved s -> handles_resolved (Draw noVrApi contextInitializeGL s).1.
Proof.
  intros Hs. unfold Draw. destruct (device s) as [dev|]; [|exact Hs].
  destruct (paused s); [exact Hs|].
  destruct (glInitialized s) eqn:Egl; cbn [negb].
  - rewrite Egl. cbn [negb].
    pose proof (UpdateControllers_resolved dev s Hs) as H.
    destruct (UpdateControllers dev s). exact H.
  - destruct contextInitializeGL; cbn [negb glInitialized set_glInitialized]; [|exact Hs].
    pose proof (UpdateControllers_resolved dev (set_glInitialized true s) Hs) as H.
    destruct (UpdateControllers dev (set_glInitialized true s)). exact H.
Qed.

(** ** The scenarios of the design document *)

(** The world after start-up: the two widgets, one record with nothing
    sent, and the constants. *)
Example started_state :
  let s := Example.started Example.allMethods
             (Example.deviceWith 1 Example.identity false None None) in
  List.map GetHandle (widgets s) = [5; 6] /\
  List.map sentValues (controllers s) = [(0, false, F32.zero, F32.zero)] /\
  farClip s = Example.f 100 /\ kScrollFactor = Example.f 20 /\
  handleMotionEventMethod s = Some handleMotionEvent /\ paused s = false.
Proof. vm_compute. repeat split. Qed.

(** Controller 0 points at the widget with handle 5 at local (100, 50),
    not pressed: the first frame emits (5, 0, false, 100, 50), a second
    identical frame emits nothing, a third frame with the button down
    emits (5, 0, true, 100, 50). *)
Example scenario_pointer :
  let frame1 := UpdateControllers Example.dev0 Example.s0 in
  let frame2 := UpdateControllers Example.dev0 frame1.1 in
  let frame3 := UpdateControllers Example.devPressed frame2.1 in
  frame1.2 = [CallVoidMethod (Some handleMotionEvent)
                [JInt 5; JInt 0; JBoolean false;
                 JFloat (Example.f 100); JFloat (Example.f 50)]] /\
  frame2.2 = [] /\
  frame3.2 = [CallVoidMethod (Some handleMotionEvent)
                [JInt 5; JInt 0; JBoolean true;
                 JFloat (Example.f 100); JFloat (Example.f 50)]].
Proof. vm_compute. repeat split. Qed.

(** The touch pad reports (1, 0) and then (3, 0), the button is up: the
    first frame sets touched and the baseline and emits no scroll event,
    the second emits the difference times the scroll factor. *)
Example scenario_scroll :
  let frame1 := UpdateControllers Example.devTouch Example.s0 in
  let frame2 := UpdateControllers Example.devScroll frame1.1 in
  callsTo handleScrollEvent frame1.2 = [] /\
  List.map (fun r => (touched r, touchPadX r, touchPadY r)) (controllers frame1.1)
    = [(F32.of_bool true, Example.f 1, Example.f 0)] /\
  frame2.2 = [CallVoidMethod (Some handleScrollEvent)
                [JInt 5; JInt 0; JFloat (Example.f 40); JFloat (Example.f 0)]].
Proof. vm_compute. repeat split. Qed.

(** The delegate is removed while two controllers are active: no record
    is left. *)
Example scenario_deregistered :
  let dev := Example.deviceWith 2 Example.identity false None None in
  let s := Example.started Example.allMethods dev in
  length (controllers s) = 2%nat /\
  controllers (RegisterDeviceDelegate None s) = [] /\
  controllerCount (RegisterDeviceDelegate None s) = 0.
Proof. vm_compute. repeat split. Qed.

(** * Further properties *)

(** ** The scene over a frame *)

Lemma pointerStep_index s handle aPressed theX theY record :
  index (pointerStep s handle aPressed theX theY record).1 = index record.
Proof. apply pointerStep_record. Qed.

Lemma pointerStep_controller s handle aPressed theX theY record :
  controller (pointerStep s handle aPressed theX theY record).1 = controller record.
Proof. unfold pointerStep. destruct (_ || _); reflexivity. Qed.

Lemma scrollStep_controller s dev record :
  controller (scrollStep s dev record).1 = controller record.
Proof.
  unfold scrollStep. destruct (GetControllerScrolled dev (index record)) as [[x y]|];
    reflexivity.
Qed.

(** A pass keeps the index of the record and moves its node to the pose
    of the controller. *)
Lemma updateRecord_index_controller s dev ws active record :
  index (updateRecord s dev ws active record).1.1.1 = index record /\
  controller (updateRecord s dev ws active record).1.1.1
  = option_map (fun _ => GetControllerTransform dev (index record)) (controller record).
Proof.
  destruct (handleMotionEventMethod s) as [m|] eqn:Hm;
    [destruct (hitWidget (pointedAt s dev ws record)) as [i|] eqn:Hi|].
  - destruct (hitTest_lookup _ _ _ _ Hi) as (w & Hw & _).
    rewrite (updateRecord_hit s dev ws active record m i w Hm Hi Hw). cbn [fst snd].
    rewrite scrollStep_index, pointerStep_index, scrollStep_controller,
      pointerStep_controller. split; reflexivity.
  - rewrite updateRecord_miss by (right; exact Hi). split; reflexivity.
  - rewrite updateRecord_miss by (left; exact Hm). split; reflexivity.
Qed.

Lemma pointedAt_placement s dev ws ws' record :
  placement ws = placement ws' ->
  pointedAt s dev ws record = pointedAt s dev ws' record.
Proof.
  intros H. rewrite <- (pointedAt_toggled s dev false ws), <- (pointedAt_toggled s dev false ws').
  unfold placement in H. now rewrite H.
Qed.

Lemma placement_lookup ws ws' i w :
  placement ws = placement ws' -> ws !! i = Some w ->
  exists w', ws' !! i = Some w' /\ GetHandle w' = GetHandle w /\
             ConvertToWidgetCoordinates w' = ConvertToWidgetCoordinates w.
Proof.
  intros H Hw. assert (Hl : placement ws !! i = Some (TogglePointer false w))
    by (unfold placement; now rewrite list_lookup_fmap, Hw).
  rewrite H in Hl. unfold placement in Hl. rewrite list_lookup_fmap in Hl.
  destruct (ws' !! i) as [w'|]; [|discriminate Hl]. cbn in Hl. injection Hl as Hh _ Hc.
  exists w'. repeat split; assumption.
Qed.

(** The record and the calls of a pass do not depend on [active], nor on
    the pointer highlights of the widgets. *)
Lemma updateRecord_placement s dev ws ws' active active' record :
  placement ws = placement ws' ->
  (updateRecord s dev ws active record).1.1.1
  = (updateRecord s dev ws' active' record).1.1.1 /\
  (updateRecord s dev ws active record).2 = (updateRecord s dev ws' active' record).2.
Proof.
  intros H. pose proof (pointedAt_placement s dev ws ws' record H) as Hp.
  destruct (handleMotionEventMethod s) as [m|] eqn:Hm;
    [destruct (hitWidget (pointedAt s dev ws record)) as [i|] eqn:Hi|].
  - destruct (hitTest_lookup _ _ _ _ Hi) as (w & Hw & _).
    destruct (placement_lookup ws ws' i w H Hw) as (w' & Hw' & Hh & Hc).
    rewrite (updateRecord_hit s dev ws active record m i w Hm Hi Hw).
    rewrite Hp in Hi.
    rewrite (updateRecord_hit s dev ws' active' record m i w' Hm Hi Hw').
    cbn [fst snd]. rewrite Hp, Hh, Hc. split; reflexivity.
  - rewrite (updateRecord_miss s dev ws) by (right; exact Hi).
    rewrite Hp in Hi. rewrite (updateRecord_miss s dev ws') by (right; exact Hi).
    split; reflexivity.
  - rewrite !updateRecord_miss by (left; exact Hm). split; reflexivity.
Qed.

Lemma placement_idem ws : placement (placement ws) = placement ws.
Proof. unfold placement. rewrite <- list_fmap_compose. reflexivity. Qed.

(** The loop over the controllers treats each record by itself. *)
Lemma controllerLoop_each s dev records ws active :
  (controllerLoop s dev records ws active).1.1.1 = recordAfter s dev ws <$> records /\
  (controllerLoop s dev records ws active).2
  = List.flat_map (callsOf s dev ws) records.
Proof.
  revert ws active. induction records as [|r rest IH]; intros ws active; [split; reflexivity|].
  cbn [controllerLoop].
  destruct (updateRecord_scene s dev ws active r) as [Hws _].
  destruct (updateRecord_placement s dev ws ws active [] r eq_refl) as [Hr Hc].
  destruct (updateRecord s dev ws active r) as [[[r' ws1] active1] calls1].
  cbn [fst snd] in Hws, Hr, Hc. subst ws1.
  specialize (IH (TogglePointer false <$> ws) active1).
  destruct (controllerLoop s dev rest _ active1) as [[[rest' ws2] active2] calls2].
  cbn [fst snd] in *. destruct IH as [-> ->].
  assert (Hplace : placement (TogglePointer false <$> ws) = placement ws)
    by apply placement_idem.
  split.
  - cbn. unfold recordAfter at 2. rewrite <- Hr. f_equal.
    apply list_fmap_ext. intros _ x _. unfold recordAfter.
    apply (updateRecord_placement s dev _ ws [] [] x Hplace).
  - cbn. unfold callsOf at 2. rewrite <- Hc. f_equal.
    apply flat_map_ext. intros x. unfold callsOf.
    apply (updateRecord_placement s dev _ ws [] [] x Hplace).
Qed.

(** The widgets after [toggleActive] stand where they stood. *)
Lemma toggleActive_placement active ws : placement (toggleActive active ws) = placement ws.
Proof.
  apply list_eq. intros i. unfold placement.
  rewrite !list_lookup_fmap, toggleActive_lookup.
  destruct (ws !! i) as [w|]; [|reflexivity]. cbn.
  destruct (bool_decide (i ∈ active)); reflexivity.
Qed.

(** [UpdateControllers] leaves the widgets where they stand. *)
Lemma UpdateControllers_placement dev s :
  placement (widgets (UpdateControllers dev s).1) = placement (widgets s).
Proof.
  unfold UpdateControllers.
  destruct (controllerLoop_scene s dev (controllers s) (widgets s) []) as [Hws _].
  destruct (controllerLoop s dev (controllers s) (widgets s) [])
    as [[[records ws] active] calls].
  cbn [fst snd widgets set_scene] in *. subst ws.
  rewrite toggleActive_placement. destruct (controllers s); [reflexivity|].
  apply placement_idem.
Qed.

(** [UpdateControllers] changes the widgets and the records only. *)
Lemma UpdateControllers_others dev s ws records :
  set_scene ws records (UpdateControllers dev s).1 = set_scene ws records s.
Proof.
  unfold UpdateControllers.
  destruct (controllerLoop s dev (controllers s) (widgets s) [])
    as [[[records' ws'] active] calls]. reflexivity.
Qed.

Lemma UpdateControllers_records dev s :
  controllers (UpdateControllers dev s).1 = recordAfter s dev (widgets s) <$> controllers s.
Proof.
  pose proof (proj1 (controllerLoop_each s dev (controllers s) (widgets s) [])) as Hrs.
  unfold UpdateControllers.
  destruct (controllerLoop s dev (controllers s) (widgets s) [])
    as [[[records ws] active] calls]. exact Hrs.
Qed.

(** X1.  [UpdateControllers] changes the widgets in their pointer
    highlight only (same widgets, same order, same handles and
    geometry); it keeps the records in place, each with its index, and
    moves the node of each record to the pose the device reports for its
    controller; it leaves the rest of the state alone. *)
Theorem UpdateControllers_keeps_the_scene (dev : DeviceDelegate) (s : State) :
  let s' := (UpdateControllers dev s).1 in
  placement (widgets s') = placement (widgets s) /\
  List.map index (controllers s') = List.map index (controllers s) /\
  List.map controller (controllers s')
  = List.map (fun r => option_map (fun _ => GetControllerTransform dev (index r))
                         (controller r)) (controllers s) /\
  set_scene (widgets s) (controllers s) s' = set_scene (widgets s) (controllers s) s.
Proof.
  intros s'. subst s'.
  split; [apply UpdateControllers_placement|].
  rewrite UpdateControllers_records.
  split; [|split; [|apply UpdateControllers_others]].
  - induction (controllers s) as [|r rest IH]; [reflexivity|].
    cbn. rewrite IH. f_equal. apply updateRecord_index_controller.
  - induction (controllers s) as [|r rest IH]; [reflexivity|].
    cbn. rewrite IH. f_equal. apply updateRecord_index_controller.
Qed.

(** A frame with the single record [record]. *)
Lemma UpdateControllers_single dev s record :
  controllers (UpdateControllers dev (set_scene (widgets s) [record] s)).1
  = [recordAfter s dev (widgets s) record] /\
  (UpdateControllers dev (set_scene (widgets s) [record] s)).2
  = callsOf s dev (widgets s) record.
Proof.
  unfold UpdateControllers, recordAfter, callsOf. cbn [controllers widgets set_scene controllerLoop].
  change (updateRecord (set_scene (widgets s) [record] s)) with (updateRecord s).
  destruct (updateRecord s dev (widgets s) [] record) as [[[r' ws1] active1] calls1].
  cbn. now rewrite app_nil_r.
Qed.

(** X2.  The controllers do not interfere: the record of each controller
    after [UpdateControllers], and the calls made for it, are those of a
    frame on the same widgets in which it is the only controller; the
    calls of the frame are those of the records, in their order. *)
Theorem UpdateControllers_treats_each_controller_alone (dev : DeviceDelegate) (s : State) :
  let alone record := UpdateControllers dev (set_scene (widgets s) [record] s) in
  controllers (UpdateControllers dev s).1
  = List.flat_map (fun record => controllers (alone record).1) (controllers s) /\
  (UpdateControllers dev s).2
  = List.flat_map (fun record => (alone record).2) (controllers s).
Proof.
  intros alone. subst alone. unfold UpdateControllers at 1 3.
  destruct (controllerLoop_each s dev (controllers s) (widgets s) []) as [Hrs Hcalls].
  destruct (controllerLoop s dev (controllers s) (widgets s) [])
    as [[[records ws] active] calls].
  cbn [fst snd controllers set_scene] in *. subst records calls. split.
  - induction (controllers s) as [|r rest IH]; [reflexivity|].
    cbn [fmap list_fmap flat_map]. rewrite (proj1 (UpdateControllers_single dev s r)).
    cbn. f_equal. exact IH.
  - apply flat_map_ext. intros r. symmetry. apply UpdateControllers_single.
Qed.

(** ** Pointer events over frames *)

Lemma sameAsSent_sentValues a b handle aPressed theX theY :
  sentValues a = sentValues b ->
  sameAsSent a handle aPressed theX theY = sameAsSent b handle aPressed theX theY.
Proof. unfold sentValues, sameAsSent. intros [= -> -> -> ->]. reflexivity. Qed.

(** After the pointer step the record compares equal to the values of
    the frame, when the coordinates are not NaN. *)
Lemma pointerStep_settles s handle aPressed theX theY record :
  ordered theX -> ordered theY ->
  sameAsSent (pointerStep s handle aPressed theX theY record).1
    handle aPressed theX theY = true.
Proof.
  intros Hx Hy. rewrite pointerStep_cases.
  destruct (sameAsSent record handle aPressed theX theY) eqn:E; [exact E|].
  cbn. unfold sameAsSent. cbn. unfold ordered in Hx, Hy. rewrite Hx, Hy.
  rewrite Bool.eqb_reflx, Z.eqb_refl. reflexivity.
Qed.

Lemma callsTo_flat_map_nil {A} m (f : A -> list Effect) l :
  (forall x, In x l -> callsTo m (f x) = []) -> callsTo m (List.flat_map f l) = [].
Proof.
  induction l as [|x l IH]; intros H; [reflexivity|].
  cbn [flat_map]. rewrite callsTo_app, H by (left; reflexivity).
  apply IH. intros y Hy. apply H. now right.
Qed.

(** A record that went through a pass sends no pointer event in a second
    pass with the same answers of the device. *)
Lemma recordAfter_settled s dev ws ws1 record :
  handles_resolved s ->
  placement ws1 = placement ws ->
  (forall i w p, ws !! i = Some w ->
     ordered (ConvertToWidgetCoordinates w p).1 /\
     ordered (ConvertToWidgetCoordinates w p).2) ->
  callsTo handleMotionEvent (callsOf s dev ws1 (recordAfter s dev ws record)) = [].
Proof.
  intros Hres Hplace Hord. unfold callsOf.
  rewrite (proj2 (updateRecord_placement s dev ws1 ws [] [] _ Hplace)).
  set (r1 := recordAfter s dev ws record).
  assert (Hix : index r1 = index record)
    by apply (updateRecord_index_controller s dev ws [] record).
  assert (Hp : pointedAt s dev ws r1 = pointedAt s dev ws record)
    by (unfold pointedAt; now rewrite Hix).
  destruct (handleMotionEventMethod s) as [m|] eqn:Hm;
    [destruct (hitWidget (pointedAt s dev ws record)) as [i|] eqn:Hi|].
  - destruct (hitTest_lookup _ _ _ _ Hi) as (w & Hw & _).
    assert (Hi1 : hitWidget (pointedAt s dev ws r1) = Some i) by now rewrite Hp.
    rewrite (updateRecord_hit s dev ws [] r1 m i w Hm Hi1 Hw). cbn [fst snd].
    rewrite !callsTo_app.
    rewrite (callsTo_other _ _ _ (gestureStep_through s))
      by (apply resolved_gesture_not; [assumption|discriminate]).
    rewrite (callsTo_other _ _ _ (scrollStep_through s dev _))
      by (apply resolved_scroll_not; [assumption|discriminate]).
    rewrite app_nil_r. cbn [app].
    rewrite pointerStep_cases.
    match goal with |- callsTo _ (if ?c then _ else _).2 = _ =>
      assert (Hsame : c = true); [|rewrite Hsame; reflexivity] end.
    rewrite Hp, Hix.
    rewrite (sameAsSent_sentValues _ r1) by reflexivity.
    subst r1. unfold recordAfter.
    rewrite (updateRecord_hit s dev ws [] record m i w Hm Hi Hw). cbn [fst snd].
    erewrite sameAsSent_sentValues by apply scrollStep_sentValues.
    destruct (Hord i w (hitPoint (pointedAt s dev ws record)) Hw) as [Hx Hy].
    apply pointerStep_settles; assumption.
  - assert (Hi1 : hitWidget (pointedAt s dev ws r1) = None) by now rewrite Hp.
    rewrite updateRecord_miss by (right; exact Hi1). cbn [snd].
    apply (callsTo_other _ _ _ (gestureStep_through s)).
    apply resolved_gesture_not; [assumption|discriminate].
  - rewrite updateRecord_miss by (left; exact Hm). cbn [snd].
    apply (callsTo_other _ _ _ (gestureStep_through s)).
    apply resolved_gesture_not; [assumption|discriminate].
Qed.

(** X3.  Debouncing over frames: when the device gives the same answers
    in two consecutive frames and the local coordinates of the widgets
    are not NaN, the second frame sends no pointer event, whatever the
    records held before the first. *)
Theorem second_identical_frame_sends_no_pointer_event (dev : DeviceDelegate) (s : State) :
  handles_resolved s ->
  (forall i w p, widgets s !! i = Some w ->
     ordered (ConvertToWidgetCoordinates w p).1 /\
     ordered (ConvertToWidgetCoordinates w p).2) ->
  callsTo handleMotionEvent (UpdateControllers dev (UpdateControllers dev s).1).2 = [].
Proof.
  intros Hres Hord.
  pose proof (UpdateControllers_placement dev s) as Hplace.
  pose proof (proj1 (controllerLoop_each s dev (controllers s) (widgets s) [])) as Hrs.
  unfold UpdateControllers in *.
  destruct (controllerLoop s dev (controllers s) (widgets s) [])
    as [[[records ws] active] calls].
  cbn [fst snd widgets controllers set_scene] in *. subst records.
  pose proof (proj2 (controllerLoop_each (set_scene (toggleActive active ws)
                       (recordAfter s dev (widgets s) <$> controllers s) s) dev
                       (recordAfter s dev (widgets s) <$> controllers s)
                       (toggleActive active ws) [])) as Hcalls.
  destruct (controllerLoop _ dev (recordAfter s dev (widgets s) <$> controllers s)
              (toggleActive active ws) []) as [[[records2 ws2] active2] calls2].
  cbn [fst snd] in *. subst calls2.
  apply callsTo_flat_map_nil. intros r1 Hin.
  apply list_elem_of_In, list_elem_of_fmap in Hin as (r & -> & _).
  change (callsOf (set_scene (toggleActive active ws)
                     (recordAfter s dev (widgets s) <$> controllers s) s))
    with (callsOf s).
  apply recordAfter_settled; assumption.
Qed.

Lemma X3_witness :
  callsTo handleMotionEvent
    (UpdateControllers Example.dev0 (UpdateControllers Example.dev0 Example.s0).1).2 = [].
Proof.
  apply (second_identical_frame_sends_no_pointer_event Example.dev0 Example.s0).
  - resolved_by_computation.
  - intros [|[|i]] w p Hw; cbn in Hw; try discriminate Hw;
      injection Hw as <-; split; reflexivity.
Defined.

(** A float that does not compare equal to itself is NaN, and compares
    unequal to everything. *)
Lemma ne_self_ne_all x a : F32.ne x x = true -> F32.ne a x = true.
Proof.
  unfold F32.ne, SFeqb. intros H.
  destruct x as [sx|sx| |sx mx ex].
  - cbn in H. discriminate.
  - destruct sx; cbn in H; discriminate.
  - destruct a as [?|[]| |[]]; reflexivity.
  - exfalso. destruct sx; cbn in H;
      change (Pos.compare_cont Eq mx mx) with (Pos.compare mx mx) in H;
      rewrite Z.compare_refl, Pos.compare_refl in H; discriminate.
Qed.

(** X4.  A NaN local coordinate defeats the debouncing: for a controller
    with a hit widget and the motion callback resolved, every pass sends
    a pointer event when the local x or y is NaN, whatever the record
    holds. *)
Theorem nan_coordinate_sends_a_pointer_event_every_pass
    (s : State) (dev : DeviceDelegate) (ws : list Widget) (active : list nat)
    (record : ControllerRecord) (i : nat) (w : Widget) :
  handles_resolved s ->
  handleMotionEventMethod s = Some handleMotionEvent ->
  hitWidget (pointedAt s dev ws record) = Some i ->
  ws !! i = Some w ->
  let xy := ConvertToWidgetCoordinates w (hitPoint (pointedAt s dev ws record)) in
  F32.ne xy.1 xy.1 = true \/ F32.ne xy.2 xy.2 = true ->
  callsTo handleMotionEvent (updateRecord s dev ws active record).2 =
    [CallVoidMethod (Some handleMotionEvent)
       [JInt (GetHandle w); JInt (index record);
        JBoolean (GetControllerButtonState dev (index record) 0);
        JFloat xy.1; JFloat xy.2]].
Proof.
  intros Hres Hm Hi Hw xy Hnan.
  rewrite (updateRecord_hit s dev ws active record _ i w Hm Hi Hw).
  fold xy. cbn [fst snd]. rewrite !callsTo_app.
  rewrite (callsTo_other _ _ _ (gestureStep_through s))
    by (apply resolved_gesture_not; [assumption|discriminate]).
  rewrite (callsTo_other _ _ _ (scrollStep_through s dev _))
    by (apply resolved_scroll_not; [assumption|discriminate]).
  rewrite app_nil_r. cbn [app].
  unfold pointerStep. cbn [xx yy SetTransform].
  assert (Hor : F32.ne (xx record) xy.1 || F32.ne (yy record) xy.2 = true).
  { destruct Hnan as [H|H].
    - now rewrite (ne_self_ne_all _ (xx record) H).
    - rewrite (ne_self_ne_all _ (yy record) H). apply orb_true_r. }
  rewrite Hor. cbn. rewrite Hm. reflexivity.
Qed.

Lemma X4_witness :
  let s := Sample.nanWorld in
  let first := updateRecord s Example.dev0 (widgets s) [] Example.record0 in
  let second := updateRecord s Example.dev0 first.1.1.2 [] first.1.1.1 in
  second.2 = first.2 /\
  callsTo handleMotionEvent second.2 =
    [CallVoidMethod (Some handleMotionEvent)
       [JInt 8; JInt 0; JBoolean false; JFloat S754_nan; JFloat (Example.f 0)]].
Proof.
  intros s first second. split; [reflexivity|].
  assert (Hres : handles_resolved s) by resolved_by_computation.
  exact (nan_coordinate_sends_a_pointer_event_every_pass s Example.dev0 first.1.1.2 []
           first.1.1.1 0 (TogglePointer false Sample.nanWidget)
           Hres eq_refl eq_refl eq_refl (or_introl eq_refl)).
Defined.

(** ** How many calls, and through which handles *)

Lemma pointerStep_length s handle aPressed theX theY record :
  (length (pointerStep s handle aPressed theX theY record).2 <= 1)%nat.
Proof. unfold pointerStep. destruct (_ || _); cbn; lia. Qed.

Lemma scrollStep_length s dev record :
  (length (scrollStep s dev record).2 <= 1)%nat.
Proof.
  unfold scrollStep. destruct (GetControllerScrolled dev (index record)) as [[x y]|];
    cbn; [destruct (_ && _); cbn|]; lia.
Qed.

Lemma callsTo_length m trace : (length (callsTo m trace) <= length trace)%nat.
Proof. apply List.filter_length_le. Qed.

(** One pass sends at most one pointer event and one scroll event. *)
Lemma callsOf_at_most_one s dev ws record :
  handles_resolved s ->
  (length (callsTo handleMotionEvent (callsOf s dev ws record)) <= 1)%nat /\
  (length (callsTo handleScrollEvent (callsOf s dev ws record)) <= 1)%nat.
Proof.
  intros Hres. unfold callsOf.
  assert (Hg1 : callsTo handleMotionEvent (gestureStep s) = [])
    by (apply (callsTo_other _ _ _ (gestureStep_through s));
        apply resolved_gesture_not; [assumption|discriminate]).
  assert (Hg2 : callsTo handleScrollEvent (gestureStep s) = [])
    by (apply (callsTo_other _ _ _ (gestureStep_through s));
        apply resolved_gesture_not; [assumption|discriminate]).
  destruct (handleMotionEventMethod s) as [m|] eqn:Hm;
    [destruct (hitWidget (pointedAt s dev ws record)) as [i|] eqn:Hi|].
  - destruct (hitTest_lookup _ _ _ _ Hi) as (w & Hw & _).
    rewrite (updateRecord_hit s dev ws [] record m i w Hm Hi Hw). cbn [fst snd].
    rewrite !callsTo_app, Hg1, Hg2. cbn [app]. split.
    + rewrite (callsTo_other _ _ _ (scrollStep_through s dev _))
        by (apply resolved_scroll_not; [assumption|discriminate]).
      rewrite app_nil_r. etransitivity; [apply callsTo_length|apply pointerStep_length].
    + rewrite (callsTo_other _ _ _ (pointerStep_through s _ _ _ _ _))
        by (rewrite Hm; rewrite <- Hm; apply resolved_motion_not; [assumption|discriminate]).
      cbn [app]. etransitivity; [apply callsTo_length|apply scrollStep_length].
  - rewrite updateRecord_miss by (right; exact Hi). cbn [snd]. rewrite Hg1, Hg2. cbn. lia.
  - rewrite updateRecord_miss by (left; exact Hm). cbn [snd]. rewrite Hg1, Hg2. cbn. lia.
Qed.

Lemma flat_map_length_le {A} (f : A -> list Effect) (g : list Effect -> list Effect) l :
  (forall t1 t2, g (t1 ++ t2) = g t1 ++ g t2) ->
  (forall x, length (g (f x)) <= 1)%nat ->
  (length (g (List.flat_map f l)) <= length l)%nat.
Proof.
  intros Happ H. induction l as [|x l IH].
  - cbn. specialize (Happ [] []). cbn in Happ.
    destruct (g []) as [|e t]; [cbn; lia|].
    apply (f_equal (@length _)) in Happ. rewrite length_app in Happ. cbn in Happ. lia.
  - cbn [flat_map]. rewrite Happ, length_app. specialize (H x). cbn. lia.
Qed.

(** X5.  No event storm: a frame sends at most one pointer event and at
    most one scroll event for each controller record. *)
Theorem frame_sends_at_most_one_event_per_controller (dev : DeviceDelegate) (s : State) :
  handles_resolved s ->
  (length (callsTo handleMotionEvent (UpdateControllers dev s).2)
   <= length (controllers s))%nat /\
  (length (callsTo handleScrollEvent (UpdateControllers dev s).2)
   <= length (controllers s))%nat.
Proof.
  intros Hres.
  pose proof (proj2 (controllerLoop_each s dev (controllers s) (widgets s) [])) as Hcalls.
  unfold UpdateControllers.
  destruct (controllerLoop s dev (controllers s) (widgets s) [])
    as [[[records ws] active] calls].
  cbn [fst snd] in *. subst calls.
  split; apply flat_map_length_le; try apply callsTo_app;
    intros r; apply (callsOf_at_most_one s dev (widgets s) r Hres).
Qed.

Lemma X5_witness :
  (length (callsTo handleMotionEvent (UpdateControllers Example.devTouch Example.s1).2)
   <= length (controllers Example.s1))%nat /\
  (length (callsTo handleScrollEvent (UpdateControllers Example.devTouch Example.s1).2)
   <= length (controllers Example.s1))%nat.
Proof.
  apply (frame_sends_at_most_one_event_per_controller Example.devTouch Example.s1).
  resolved_by_computation.
Defined.

Lemma callsThrough_nonnull m trace :
  callsThrough (Some m) trace -> Forall (fun e => isNullCall e = false) trace.
Proof. intros H. eapply Forall_impl; [exact H|]. intros e (args & ->). reflexivity. Qed.

Lemma gestureStep_nonnull s : Forall (fun e => isNullCall e = false) (gestureStep s).
Proof.
  unfold gestureStep. destruct (gestures s) as [g|]; [|constructor].
  induction (pendingGestures g) as [|type l IH]; [constructor|].
  cbn [flat_map]. apply Forall_app. split; [|exact IH].
  unfold gestureCall. destruct (handleGestureMethod s) as [m|].
  - destruct (_ && _); repeat constructor.
  - rewrite andb_false_r. constructor.
Qed.

(** A pass calls through a null handle only for a scroll event. *)
Lemma callsOf_nonnull s dev ws record :
  handleScrollEventMethod s <> None \/ handleMotionEventMethod s = None ->
  Forall (fun e => isNullCall e = false) (callsOf s dev ws record).
Proof.
  intros H. unfold callsOf.
  destruct (handleMotionEventMethod s) as [m|] eqn:Hm;
    [destruct (hitWidget (pointedAt s dev ws record)) as [i|] eqn:Hi|].
  - destruct H as [H|H]; [|discriminate H].
    destruct (hitTest_lookup _ _ _ _ Hi) as (w & Hw & _).
    rewrite (updateRecord_hit s dev ws [] record m i w Hm Hi Hw). cbn [fst snd].
    rewrite !Forall_app. split; [apply gestureStep_nonnull|]. split.
    + apply (callsThrough_nonnull m). rewrite <- Hm. apply pointerStep_through.
    + destruct (handleScrollEventMethod s) as [m'|] eqn:Hs; [|congruence].
      apply (callsThrough_nonnull m'). rewrite <- Hs. apply scrollStep_through.
  - rewrite updateRecord_miss by (right; exact Hi). apply gestureStep_nonnull.
  - rewrite updateRecord_miss by (left; exact Hm). apply gestureStep_nonnull.
Qed.

Lemma Forall_flat_map {A} (P : Effect -> Prop) (f : A -> list Effect) l :
  (forall x, Forall P (f x)) -> Forall P (List.flat_map f l).
Proof.
  intros H. induction l as [|x l IH]; [constructor|].
  cbn [flat_map]. apply Forall_app. split; [apply H|exact IH].
Qed.

Lemma UpdateControllers_calls dev s :
  (UpdateControllers dev s).2 = List.flat_map (callsOf s dev (widgets s)) (controllers s).
Proof.
  pose proof (proj2 (controllerLoop_each s dev (controllers s) (widgets s) [])) as Hcalls.
  unfold UpdateControllers.
  destruct (controllerLoop s dev (controllers s) (widgets s) [])
    as [[[records ws] active] calls]. exact Hcalls.
Qed.

Lemma set_glInitialized_same s : set_glInitialized (glInitialized s) s = s.
Proof. destruct s. reflexivity. Qed.

(** [Draw] when it gets past its checks. *)
Lemma Draw_runs noVrApi contextInitializeGL s dev :
  device s = Some dev ->
  rendersFrame contextInitializeGL s = true ->
  let s1 := set_glInitialized true s in
  Draw noVrApi contextInitializeGL s =
    ((UpdateControllers dev s1).1,
     (if glInitialized s then [] else [ContextInitializeGL])
     ++ [ProcessEvents; ContextUpdate] ++ (UpdateControllers dev s1).2
     ++ render noVrApi ++ audioPose dev (UpdateControllers dev s1).1).
Proof.
  intros Hdev Hr s1. unfold rendersFrame in Hr. rewrite Hdev in Hr. cbn in Hr.
  apply andb_prop in Hr as [Hp Hgl]. apply negb_true_iff in Hp.
  unfold Draw. rewrite Hdev, Hp.
  destruct (glInitialized s) eqn:Egl; cbn [negb].
  - rewrite Egl. cbn [negb].
    assert (Hs1 : s1 = s) by (subst s1; rewrite <- Egl; apply set_glInitialized_same).
    rewrite Hs1. destruct (UpdateControllers dev s) as [s' calls]. reflexivity.
  - cbn in Hgl. subst contextInitializeGL. cbn [glInitialized set_glInitialized negb].
    fold s1. destruct (UpdateControllers dev s1) as [s' calls]. reflexivity.
Qed.

(** [Draw] when it stops at one of its checks: the state is as it was,
    and nothing is done but logging and, at most, trying to initialize
    the GL context. *)
Lemma Draw_skips noVrApi contextInitializeGL s :
  rendersFrame contextInitializeGL s = false ->
  (Draw noVrApi contextInitializeGL s).1 = s /\
  exists msg,
    (Draw noVrApi contextInitializeGL s).2 = [VRB_LOG msg] \/
    (Draw noVrApi contextInitializeGL s).2 = [ContextInitializeGL; VRB_LOG msg].
Proof.
  intros Hr. unfold rendersFrame in Hr. unfold Draw.
  destruct (device s) as [dev|]; [|split; [reflexivity|eexists; left; reflexivity]].
  destruct (paused s); [split; [reflexivity|eexists; left; reflexivity]|].
  cbn in Hr. apply orb_false_elim in Hr as [Hgl ->].
  rewrite Hgl. cbn [negb glInitialized set_glInitialized]. split.
  - cbn. rewrite <- Hgl. apply set_glInitialized_same.
  - eexists. right. reflexivity.
Qed.

Lemma render_no_call noVrApi :
  Forall (fun e => isHostCall e = false) (render noVrApi) /\
  Forall (fun e => isNullCall e = false) (render noVrApi).
Proof. destruct noVrApi; split; repeat constructor. Qed.

Lemma not_host_not_null trace :
  Forall (fun e => isHostCall e = false) trace ->
  Forall (fun e => isNullCall e = false) trace.
Proof.
  intros H. eapply Forall_impl; [exact H|]. intros [] He; try reflexivity. discriminate He.
Qed.

(** X6.  A call through a null handle can only be a scroll call: when
    the scroll-event handle is not null, or the motion-event handle is
    null, no call of a frame goes through a null handle. *)
Theorem frame_calls_no_null_handle_unless_scroll_is_unresolved
    (noVrApi contextInitializeGL : bool) (s : State) :
  handleScrollEventMethod s <> None \/ handleMotionEventMethod s = None ->
  Forall (fun e => isNullCall e = false) (Draw noVrApi contextInitializeGL s).2.
Proof.
  intros H. destruct (rendersFrame contextInitializeGL s) eqn:Hr.
  - assert (Hdev : exists dev, device s = Some dev).
    { unfold rendersFrame in Hr. destruct (device s) as [dev|]; [eauto|discriminate Hr]. }
    destruct Hdev as [dev Hdev].
    rewrite (Draw_runs noVrApi contextInitializeGL s dev Hdev Hr). cbn [snd].
    rewrite !Forall_app. split; [destruct (glInitialized s); repeat constructor|].
    split; [repeat constructor|]. split; [|split].
    + rewrite UpdateControllers_calls. apply Forall_flat_map. intros r.
      now apply callsOf_nonnull.
    + apply render_no_call.
    + unfold audioPose. destruct (handleAudioPoseMethod _) as [m|] eqn:Ha; cbn.
      * repeat constructor.
      * constructor.
  - destruct (Draw_skips noVrApi contextInitializeGL s Hr) as (_ & msg & [-> | ->]);
      repeat constructor.
Qed.

Lemma X6_witness :
  Forall (fun e => isNullCall e = false) (Draw false true Example.s1).2.
Proof.
  apply (frame_calls_no_null_handle_unless_scroll_is_unresolved false true Example.s1).
  left. discriminate.
Defined.

(** ** Frames that do not render, and the GL context *)

Lemma gestureStep_null s : handleGestureMethod s = None -> gestureStep s = [].
Proof.
  intros H. unfold gestureStep. rewrite H. destruct (gestures s) as [g|]; [|reflexivity].
  induction (pendingGestures g) as [|type l IH]; [reflexivity|].
  cbn [flat_map]. now rewrite gestureCall_null, IH.
Qed.

(** Without the motion and gesture callbacks [UpdateControllers] makes
    no call. *)
Lemma UpdateControllers_silent dev s :
  handleMotionEventMethod s = None -> handleGestureMethod s = None ->
  (UpdateControllers dev s).2 = [].
Proof.
  intros Hm Hg. rewrite UpdateControllers_calls.
  induction (controllers s) as [|r rest IH]; [reflexivity|].
  cbn [flat_map]. rewrite IH, app_nil_r. unfold callsOf.
  rewrite updateRecord_miss by (left; exact Hm). now apply gestureStep_null.
Qed.

(** Without the motion, gesture and audio callbacks a frame makes no
    call. *)
Lemma Draw_silent noVrApi contextInitializeGL s :
  handleMotionEventMethod s = None -> handleGestureMethod s = None ->
  handleAudioPoseMethod s = None ->
  Forall (fun e => isHostCall e = false) (Draw noVrApi contextInitializeGL s).2.
Proof.
  intros Hm Hg Ha.
  destruct (rendersFrame contextInitializeGL s) eqn:Hr.
  - assert (Hdev : exists dev, device s = Some dev).
    { unfold rendersFrame in Hr. destruct (device s) as [dev|]; [eauto|discriminate Hr]. }
    destruct Hdev as [dev Hdev].
    rewrite (Draw_runs noVrApi contextInitializeGL s dev Hdev Hr). cbn [snd].
    rewrite (UpdateControllers_silent dev (set_glInitialized true s)) by assumption.
    assert (Hau : audioPose dev (UpdateControllers dev (set_glInitialized true s)).1 = []).
    { unfold audioPose.
      pose proof (UpdateControllers_others dev (set_glInitialized true s) [] []) as Ho.
      apply (f_equal handleAudioPoseMethod) in Ho. cbn in Ho. now rewrite Ho, Ha. }
    rewrite Hau, app_nil_r. cbn [app].
    rewrite !Forall_app. split; [destruct (glInitialized s); repeat constructor|].
    constructor; [reflexivity|]. constructor; [reflexivity|]. apply render_no_call.
  - destruct (Draw_skips noVrApi contextInitializeGL s Hr) as (_ & msg & [-> | ->]);
      repeat constructor.
Qed.

(** X7.  After [ShutdownJava] the world is silent: a frame makes no JNI
    call at all, whatever the controllers and gestures are. *)
Theorem no_host_call_after_ShutdownJava
    (noVrApi contextInitializeGL : bool) (s : State) :
  Forall (fun e => isHostCall e = false)
    (Draw noVrApi contextInitializeGL (ShutdownJava s).1).2.
Proof. apply Draw_silent; reflexivity. Qed.

(** X8.  A frame whose lazy GL initialization fails changes nothing: the
    state is as it was, nothing is polled, sent or drawn, and the next
    frame tries the initialization again. *)
Theorem failed_GL_initialization_changes_nothing_and_is_retried
    (noVrApi noVrApi' contextInitializeGL' : bool) (s : State) (dev : DeviceDelegate) :
  device s = Some dev -> paused s = false -> glInitialized s = false ->
  Draw noVrApi false s = (s, [ContextInitializeGL; VRB_LOG "FAILED to initialize GL"]) /\
  List.hd_error (Draw noVrApi' contextInitializeGL' (Draw noVrApi false s).1).2
  = Some ContextInitializeGL.
Proof.
  intros Hdev Hp Hgl.
  assert (H1 : Draw noVrApi false s
               = (s, [ContextInitializeGL; VRB_LOG "FAILED to initialize GL"])).
  { unfold Draw. rewrite Hdev, Hp, Hgl. cbn. f_equal.
    rewrite <- Hgl. apply set_glInitialized_same. }
  split; [exact H1|]. rewrite H1. cbn [fst].
  unfold Draw. rewrite Hdev, Hp, Hgl. cbn [negb].
  destruct contextInitializeGL'; cbn [glInitialized set_glInitialized negb].
  - destruct (UpdateControllers dev (set_glInitialized true s)). reflexivity.
  - reflexivity.
Qed.

Lemma X8_witness :
  let s := Example.s0 in
  Draw false false s = (s, [ContextInitializeGL; VRB_LOG "FAILED to initialize GL"]) /\
  List.hd_error (Draw false true (Draw false false s).1).2 = Some ContextInitializeGL.
Proof.
  apply (failed_GL_initialization_changes_nothing_and_is_retried
           false false true Example.s0 Example.dev0); reflexivity.
Defined.

Lemma UpdateControllers_flags dev s :
  device (UpdateControllers dev s).1 = device s /\
  paused (UpdateControllers dev s).1 = paused s /\
  glInitialized (UpdateControllers dev s).1 = glInitialized s.
Proof.
  pose proof (UpdateControllers_others dev s [] []) as Ho.
  repeat split;
    [apply (f_equal device) in Ho | apply (f_equal paused) in Ho
     | apply (f_equal glInitialized) in Ho]; exact Ho.
Qed.

(** X9.  The GL context is initialized once: a frame that renders leaves
    the world initialized, with its device and not paused, and the next
    frame renders without trying the initialization again. *)
Theorem rendering_frame_initializes_GL_once
    (noVrApi noVrApi' contextInitializeGL contextInitializeGL' : bool) (s : State) :
  rendersFrame contextInitializeGL s = true ->
  let s' := (Draw noVrApi contextInitializeGL s).1 in
  glInitialized s' = true /\
  rendersFrame contextInitializeGL' s' = true /\
  ~ In ContextInitializeGL (Draw noVrApi' contextInitializeGL' s').2.
Proof.
  intros Hr s'.
  assert (Hdev : exists dev, device s = Some dev).
  { unfold rendersFrame in Hr. destruct (device s) as [dev|]; [eauto|discriminate Hr]. }
  destruct Hdev as [dev Hdev].
  assert (Hp : paused s = false).
  { unfold rendersFrame in Hr. rewrite Hdev in Hr. cbn in Hr.
    apply andb_prop in Hr as [Hp _]. now apply negb_true_iff in Hp. }
  subst s'. rewrite (Draw_runs noVrApi contextInitializeGL s dev Hdev Hr). cbn [fst].
  destruct (UpdateControllers_flags dev (set_glInitialized true s)) as (Hd & Hpa & Hg).
  cbn [device paused glInitialized set_glInitialized] in Hd, Hpa, Hg.
  set (s2 := (UpdateControllers dev (set_glInitialized true s)).1) in *.
  assert (Hr2 : rendersFrame contextInitializeGL' s2 = true)
    by (unfold rendersFrame; now rewrite Hd, Hpa, Hg, Hdev, Hp).
  split; [exact Hg|]. split; [exact Hr2|].
  rewrite (Draw_runs noVrApi' contextInitializeGL' s2 dev (eq_trans Hd Hdev) Hr2).
  cbn [snd]. rewrite Hg. cbn [app].
  intros [H|[H|H]]; try discriminate H.
  apply in_app_or in H as [H|H].
  - pose proof (UpdateControllers_isHostCall dev (set_glInitialized true s2)) as Hall.
    rewrite List.Forall_forall in Hall. specialize (Hall _ H). discriminate Hall.
  - apply in_app_or in H as [H|H].
    + destruct noVrApi'; cbn in H; intuition discriminate.
    + unfold audioPose in H. destruct (nonnull _); cbn in H; intuition discriminate.
Qed.

Lemma X9_witness :
  let s' := (Draw false true Example.s0).1 in
  glInitialized s' = true /\
  rendersFrame false s' = true /\
  ~ In ContextInitializeGL (Draw false false s').2.
Proof.
  apply (rendering_frame_initializes_GL_once false false true false Example.s0).
  reflexivity.
Defined.

(** ** The hit test and the order of the widgets *)

(** Once a widget is hit, some widget stays hit. *)
Lemma hitLoop_keeps_hit start direction ptr ws h :
  hitWidget h <> None -> hitWidget (hitLoop start direction ptr ws h).2 <> None.
Proof.
  revert ptr h. induction ws as [|w ws IH]; intros ptr h Hh; [exact Hh|].
  cbn. specialize (IH (S ptr) (testWidget start direction ptr (TogglePointer false w) h)).
  destruct (hitLoop start direction (S ptr) ws _) as [rest' h'']. cbn in *.
  apply IH. unfold testWidget. destruct (hit _); [|exact Hh].
  destruct (_ && _); [discriminate|exact Hh].
Qed.

(** Without a hit the loop returns the values it started with. *)
Lemma hitLoop_no_hit start direction ptr ws h :
  hitWidget (hitLoop start direction ptr ws h).2 = None ->
  (hitLoop start direction ptr ws h).2 = h.
Proof.
  revert ptr h. induction ws as [|w ws IH]; intros ptr h Hnone; [reflexivity|].
  cbn in *.
  pose proof (hitLoop_keeps_hit start direction (S ptr) ws
                (testWidget start direction ptr (TogglePointer false w) h)) as Hkeep.
  specialize (IH (S ptr) (testWidget start direction ptr (TogglePointer false w) h)).
  destruct (hitLoop start direction (S ptr) ws _) as [rest' h'']. cbn in *.
  rewrite IH by assumption.
  unfold testWidget in *. destruct (hit _); [|reflexivity].
  destruct (_ && _); [|reflexivity].
  exfalso. apply Hkeep; [discriminate|]. exact Hnone.
Qed.

(** X10.  The order of the widgets matters for ties only: when no two
    candidates are at distances that compare equal, the hit test on a
    permutation of the widgets selects the same widget, with the same
    distance and intersection point. *)
Theorem hit_test_is_independent_of_the_order_without_ties
    (far : float) (transform : Matrix) (ws ws' : list Widget) :
  Permutation ws ws' ->
  noTies far (rayStart transform) (rayDirection transform) ws ->
  hitObject ws (hitTest far transform ws).2 = hitObject ws' (hitTest far transform ws').2 /\
  hitDistance (hitTest far transform ws).2 = hitDistance (hitTest far transform ws').2 /\
  hitPoint (hitTest far transform ws).2 = hitPoint (hitTest far transform ws').2.
Proof.
  intros Hperm Hties.
  pose proof (hitTest_nearest far transform ws) as Hn.
  pose proof (hitTest_nearest far transform ws') as Hn'.
  assert (Hto : forall j w, ws !! j = Some w -> exists k, ws' !! k = Some w).
  { intros j w Hj. apply list_elem_of_lookup. rewrite <- Hperm.
    apply list_elem_of_lookup. eauto. }
  assert (Hfrom : forall k w, ws' !! k = Some w -> exists j, ws !! j = Some w).
  { intros k w Hk. apply list_elem_of_lookup. rewrite Hperm.
    apply list_elem_of_lookup. eauto. }
  unfold nearest, hitObject in *.
  destruct (hitWidget (hitTest far transform ws).2) as [i|] eqn:Hi;
    destruct (hitWidget (hitTest far transform ws').2) as [i'|] eqn:Hi'.
  - destruct Hn as (w & Hw & Hc & Hd & Hp & Hmin).
    destruct Hn' as (w' & Hw' & Hc' & Hd' & Hp' & Hmin').
    assert (Heq : w = w').
    { destruct (Hfrom _ _ Hw') as [k Hk].
      destruct (decide (i = k)) as [->|Hne]; [congruence|].
      destruct (Hto _ _ Hw) as [k' Hk'].
      destruct (Hties i k w w' Hw Hk Hne Hc Hc') as [Hlt|Hlt].
      - destruct (Hmin' k' w Hk' Hc) as [Hge _]. congruence.
      - destruct (Hmin k w' Hk Hc') as [Hge _]. congruence. }
    subst w'. rewrite Hw, Hw', Hd, Hd', Hp, Hp'. repeat split.
  - exfalso. destruct Hn as (w & Hw & Hc & _). destruct Hn' as [_ Hnone].
    destruct (Hto _ _ Hw) as [k Hk]. exact (Hnone k w Hk Hc).
  - exfalso. destruct Hn' as (w' & Hw' & Hc' & _). destruct Hn as [_ Hnone].
    destruct (Hfrom _ _ Hw') as [j Hj]. exact (Hnone j w' Hj Hc').
  - unfold hitTest in *. rewrite (hitLoop_no_hit _ _ _ _ _ Hi), (hitLoop_no_hit _ _ _ _ _ Hi').
    repeat split.
Qed.

Lemma X10_witness :
  let ws := [Sample.nearW; Sample.farW] in
  let ws' := [Sample.farW; Sample.nearW] in
  hitObject ws (hitTest (Example.f 100) Example.identity ws).2
  = hitObject ws' (hitTest (Example.f 100) Example.identity ws').2 /\
  hitDistance (hitTest (Example.f 100) Example.identity ws).2
  = hitDistance (hitTest (Example.f 100) Example.identity ws').2 /\
  hitPoint (hitTest (Example.f 100) Example.identity ws).2
  = hitPoint (hitTest (Example.f 100) Example.identity ws').2.
Proof.
  apply (hit_test_is_independent_of_the_order_without_ties (Example.f 100)
           Example.identity [Sample.nearW; Sample.farW] [Sample.farW; Sample.nearW]).
  - apply perm_swap.
  - intros [|[|j]] [|[|k]] wj wk Hj Hk Hne _ _; cbn in Hj, Hk;
      try discriminate Hj; try discriminate Hk; try congruence;
      injection Hj as <-; injection Hk as <-; [left|right]; reflexivity.
Defined.

(** ** Surfaces *)

Lemma dispatchFirst_length GetType GetName GetSize methodID aName aSurface ws :
  (length (dispatchFirst GetType GetName GetSize methodID aName aSurface ws) <= 1)%nat.
Proof.
  induction ws as [|w ws IH]; cbn; [lia|].
  destruct (String.eqb aName (GetName w)); [|exact IH].
  destruct (GetSize w). cbn. lia.
Qed.

Lemma dispatchFirst_isDispatch GetType GetName GetSize methodID aName aSurface ws :
  dispatches (dispatchFirst GetType GetName GetSize methodID aName aSurface ws)
  = dispatchFirst GetType GetName GetSize methodID aName aSurface ws.
Proof.
  induction ws as [|w ws IH]; cbn; [reflexivity|].
  destruct (String.eqb aName (GetName w)); [|exact IH].
  destruct (GetSize w). reflexivity.
Qed.

(** The first widget with the name gets the call. *)
Lemma dispatchFirst_first GetType GetName GetSize methodID aName aSurface ws i w :
  ws !! i = Some w -> GetName w = aName ->
  (forall j w', (j < i)%nat -> ws !! j = Some w' -> GetName w' <> aName) ->
  dispatchFirst GetType GetName GetSize methodID aName aSurface ws
  = [CallVoidMethodL methodID (GetType w) (GetHandle w) aSurface
       (GetSize w).1 (GetSize w).2].
Proof.
  revert i. induction ws as [|w0 ws IH]; intros i Hw Hname Hbefore; [discriminate Hw|].
  cbn. destruct i as [|i].
  - cbn in Hw. injection Hw as ->. rewrite Hname, String.eqb_refl.
    destruct (GetSize w). reflexivity.
  - destruct (String.eqb aName (GetName w0)) eqn:E.
    + apply String.eqb_eq in E. destruct (Hbefore 0%nat w0); [lia|reflexivity|congruence].
    + apply (IH i Hw Hname). intros j w' Hj Hw'.
      apply (Hbefore (S j) w'); [lia|exact Hw'].
Qed.

Lemma dispatchFirst_none GetType GetName GetSize methodID aName aSurface ws :
  (forall i w, ws !! i = Some w -> GetName w <> aName) ->
  dispatchFirst GetType GetName GetSize methodID aName aSurface ws = [].
Proof.
  induction ws as [|w0 ws IH]; intros Hnone; [reflexivity|].
  cbn. destruct (String.eqb aName (GetName w0)) eqn:E.
  - apply String.eqb_eq in E. destruct (Hnone 0%nat w0); [reflexivity|congruence].
  - apply IH. intros i w Hw. apply (Hnone (S i) w Hw).
Qed.

Lemma SetSurfaceTexture_dispatches GetType GetName GetSize b s aName aSurface :
  dispatches (SetSurfaceTexture GetType GetName GetSize b s aName aSurface)
  = if env b && activity b && nonnull (dispatchCreateWidgetMethod s)
    then dispatchFirst GetType GetName GetSize (dispatchCreateWidgetMethod s)
           aName aSurface (widgets s)
    else [].
Proof.
  unfold SetSurfaceTexture. unfold dispatches at 1. cbn [filter isDispatch].
  destruct (env b && activity b && nonnull (dispatchCreateWidgetMethod s));
    [apply dispatchFirst_isDispatch | reflexivity].
Qed.

(** X11.  [SetSurfaceTexture] hands a surface to one widget at most: to
    the first widget that bears the name, and only when the environment,
    the activity and the create-widget callback are all there; widgets
    further on with the same name, or a name no widget bears, get
    nothing. *)
Theorem SetSurfaceTexture_reaches_the_first_widget_with_the_name
    (GetType : Widget -> Z) (GetName : Widget -> string) (GetSize : Widget -> Z * Z)
    (b : Binding) (s : State) (aName : string) (aSurface : jobject) :
  let calls := dispatches (SetSurfaceTexture GetType GetName GetSize b s aName aSurface) in
  (length calls <= 1)%nat /\
  (forall i w, widgets s !! i = Some w -> GetName w = aName ->
     (forall j w', (j < i)%nat -> widgets s !! j = Some w' -> GetName w' <> aName) ->
     calls = if env b && activity b && nonnull (dispatchCreateWidgetMethod s)
             then [CallVoidMethodL (dispatchCreateWidgetMethod s) (GetType w) (GetHandle w)
                     aSurface (GetSize w).1 (GetSize w).2]
             else []) /\
  ((forall i w, widgets s !! i = Some w -> GetName w <> aName) -> calls = []).
Proof.
  intros calls. subst calls. rewrite SetSurfaceTexture_dispatches.
  destruct (env b && activity b && nonnull (dispatchCreateWidgetMethod s)).
  - split; [apply dispatchFirst_length|]. split.
    + intros i w Hw Hname Hbefore. now apply (dispatchFirst_first _ _ _ _ _ _ _ i w).
    + apply dispatchFirst_none.
  - cbn. split; [lia|]. split; reflexivity.
Qed.

Lemma X11_witness :
  let s := Example.s0 in
  dispatches (SetSurfaceTexture Surface.typeOf Surface.nameOf Surface.sizeOf
                Surface.bound s "urlbar" (Some 7))
  = [CallVoidMethodL (Some dispatchCreateWidget) 1 6 (Some 7) 1920 275] /\
  dispatches (SetSurfaceTexture Surface.typeOf Surface.nameOf Surface.sizeOf
                Surface.bound s "floor" (Some 7)) = [].
Proof.
  intros s.
  destruct (SetSurfaceTexture_reaches_the_first_widget_with_the_name
              Surface.typeOf Surface.nameOf Surface.sizeOf Surface.bound s "urlbar" (Some 7))
    as (_ & Hfirst & _).
  destruct (SetSurfaceTexture_reaches_the_first_widget_with_the_name
              Surface.typeOf Surface.nameOf Surface.sizeOf Surface.bound s "floor" (Some 7))
    as (_ & _ & Hnone).
  split.
  - apply (Hfirst 1%nat Example.urlbar); [reflexivity|reflexivity|].
    intros [|j] w' Hj Hw'; [|lia]. cbn in Hw'. injection Hw' as <-. discriminate.
  - apply Hnone. intros [|[|i]] w Hw; cbn in Hw; try discriminate Hw;
      injection Hw as <-; discriminate.
Defined.

(** A frame that renders leaves the world with its device, not paused,
    and the GL context initialized. *)
Lemma Draw_renders_flags noVrApi contextInitializeGL s :
  rendersFrame contextInitializeGL s = true ->
  device (Draw noVrApi contextInitializeGL s).1 = device s /\
  paused (Draw noVrApi contextInitializeGL s).1 = false /\
  glInitialized (Draw noVrApi contextInitializeGL s).1 = true.
Proof.
  intros Hr.
  assert (Hdev : exists dev, device s = Some dev).
  { unfold rendersFrame in Hr. destruct (device s) as [dev|]; [eauto|discriminate Hr]. }
  destruct Hdev as [dev Hdev].
  assert (Hp : paused s = false).
  { unfold rendersFrame in Hr. rewrite Hdev in Hr. cbn in Hr.
    apply andb_prop in Hr as [Hp _]. now apply negb_true_iff in Hp. }
  rewrite (Draw_runs noVrApi contextInitializeGL s dev Hdev Hr). cbn [fst].
  destruct (UpdateControllers_flags dev (set_glInitialized true s)) as (Hd & Hpa & Hg).
  cbn [device paused glInitialized set_glInitialized] in Hd, Hpa, Hg.
  rewrite Hd, Hpa, Hg. auto.
Qed.

Lemma InitializeGL_initialized GetType GetName GetSize gl lookup b s :
  glInitialized s = true ->
  InitializeGL GetType GetName GetSize gl lookup b s
  = (s, [Plain (VRB_LOG "BrowserWorld::InitializeGL")]).
Proof. intros H. unfold InitializeGL. now rewrite H. Qed.

(** X12.  The surfaces are looked up by the one [InitializeGL] that
    initializes the context: once the context is initialized, by an
    [InitializeGL] that succeeded or by a frame that rendered (which
    initializes it without looking up any surface), [InitializeGL]
    leaves the world as it is and hands over no surface. *)
Theorem InitializeGL_does_nothing_once_the_context_is_initialized
    (GetType : Widget -> Z) (GetName : Widget -> string) (GetSize : Widget -> Z * Z)
    (noVrApi gl gl' : bool) (lookup lookup' : string -> jobject) (b b' : Binding)
    (s : State) :
  let log := [Plain (VRB_LOG "BrowserWorld::InitializeGL")] in
  let s1 := (InitializeGL GetType GetName GetSize true lookup b s).1 in
  InitializeGL GetType GetName GetSize gl' lookup' b' s1 = (s1, log) /\
  (rendersFrame gl s = true ->
   let s2 := (Draw noVrApi gl s).1 in
   InitializeGL GetType GetName GetSize gl' lookup' b' s2 = (s2, log)).
Proof.
  intros log s1. split.
  - apply InitializeGL_initialized. subst s1. unfold InitializeGL.
    destruct (glInitialized s) eqn:E; cbn [negb]; [exact E|reflexivity].
  - intros Hr s2. apply InitializeGL_initialized.
    apply (Draw_renders_flags noVrApi gl s Hr).
Qed.

Lemma SetSurfaceTexture_length GetType GetName GetSize b s aName aSurface :
  (length (dispatches (SetSurfaceTexture GetType GetName GetSize b s aName aSurface))
   <= 1)%nat.
Proof.
  rewrite SetSurfaceTexture_dispatches. destruct (_ && _); [|cbn; lia].
  apply dispatchFirst_length.
Qed.

Lemma dispatchFirst_surface GetType GetName GetSize methodID aName aSurface ws :
  aSurface <> None ->
  Forall handsOverSurface (dispatchFirst GetType GetName GetSize methodID aName aSurface ws).
Proof.
  intros Hs. induction ws as [|w ws IH]; cbn; [constructor|].
  destruct (String.eqb aName (GetName w)); [|exact IH].
  destruct (GetSize w). repeat constructor. exact Hs.
Qed.

Lemma lookupSurfaces_bound GetType GetName GetSize lookup b s ws :
  (length (dispatches (lookupSurfaces GetType GetName GetSize lookup b s ws))
   <= length ws)%nat /\
  Forall handsOverSurface (lookupSurfaces GetType GetName GetSize lookup b s ws).
Proof.
  unfold lookupSurfaces. induction ws as [|w ws [IHl IHs]]; [split; [cbn; lia|constructor]|].
  cbn [flat_map]. unfold dispatches in *. rewrite List.filter_app, length_app. split.
  - assert (H1 : (length (List.filter isDispatch
                   (if nonnull (lookup (GetName w))
                    then SetSurfaceTexture GetType GetName GetSize b s (GetName w)
                           (lookup (GetName w))
                    else [])) <= 1)%nat).
    { destruct (nonnull (lookup (GetName w))); [|cbn; lia].
      apply SetSurfaceTexture_length. }
    cbn [length]. lia.
  - apply Forall_app. split; [|exact IHs].
    destruct (lookup (GetName w)) as [x|] eqn:E; cbn [nonnull]; [|constructor].
    unfold SetSurfaceTexture. constructor; [exact I|].
    destruct (_ && _); [|constructor]. now apply dispatchFirst_surface.
Qed.

(** With distinct names, the first widget with the name of a widget is
    that widget. *)
Lemma dispatchFirst_own GetType GetName GetSize methodID aSurface ws w :
  List.NoDup (List.map GetName ws) -> In w ws ->
  dispatchFirst GetType GetName GetSize methodID (GetName w) aSurface ws
  = [CallVoidMethodL methodID (GetType w) (GetHandle w) aSurface
       (GetSize w).1 (GetSize w).2].
Proof.
  induction ws as [|w0 ws IH]; intros Hnodup Hin; [destruct Hin|].
  cbn [List.map] in Hnodup. apply List.NoDup_cons_iff in Hnodup as [Hfresh Hnodup].
  cbn [dispatchFirst]. destruct Hin as [-> | Hin].
  - rewrite String.eqb_refl. destruct (GetSize w). reflexivity.
  - destruct (String.eqb (GetName w) (GetName w0)) eqn:E.
    + apply String.eqb_eq in E. destruct Hfresh. rewrite <- E. now apply in_map.
    + now apply IH.
Qed.

(** The calls of the loop of lines 421-427 when the names differ. *)
Lemma lookupSurfaces_own GetType GetName GetSize lookup b s ws :
  List.NoDup (List.map GetName (widgets s)) ->
  (forall w, In w ws -> In w (widgets s)) ->
  dispatches (lookupSurfaces GetType GetName GetSize lookup b s ws)
  = if env b && activity b && nonnull (dispatchCreateWidgetMethod s)
    then List.flat_map
           (fun w => match lookup (GetName w) with
                     | Some surface =>
                         [CallVoidMethodL (dispatchCreateWidgetMethod s) (GetType w)
                            (GetHandle w) (Some surface) (GetSize w).1 (GetSize w).2]
                     | None => []
                     end) ws
    else [].
Proof.
  intros Hnodup. unfold lookupSurfaces.
  induction ws as [|w ws IH]; intros Hin; [now destruct (_ && _)|].
  cbn [flat_map]. unfold dispatches in *. rewrite List.filter_app.
  rewrite IH by (intros x Hx; apply Hin; now right).
  destruct (lookup (GetName w)) as [surface|] eqn:E; cbn [nonnull].
  - pose proof (SetSurfaceTexture_dispatches GetType GetName GetSize b s (GetName w)
                  (Some surface)) as Hd.
    unfold dispatches in Hd. rewrite Hd.
    destruct (env b && activity b && nonnull (dispatchCreateWidgetMethod s));
      [|reflexivity].
    rewrite (dispatchFirst_own GetType GetName GetSize _ _ (widgets s) w Hnodup)
      by (apply Hin; now left).
    reflexivity.
  - destruct (env b && activity b && nonnull (dispatchCreateWidgetMethod s)); reflexivity.
Qed.

(** X13.  [InitializeGL] never hands over a null surface; when the
    context fails to initialize it hands over none and leaves the world
    as it was; and when it initializes the context of a world whose
    widgets bear different surface-texture names, each widget whose name
    the factory knows gets its own surface, once, in the order of the
    widgets, and the others get none (no widget gets any when the
    environment, the activity or the create-widget callback is
    missing). *)
Theorem InitializeGL_hands_each_widget_its_own_surface_when_names_differ
    (GetType : Widget -> Z) (GetName : Widget -> string) (GetSize : Widget -> Z * Z)
    (gl : bool) (lookup : string -> jobject) (b : Binding) (s : State) :
  let result := InitializeGL GetType GetName GetSize gl lookup b s in
  Forall handsOverSurface result.2 /\
  (gl = false -> result.1 = s /\ dispatches result.2 = []) /\
  (List.NoDup (List.map GetName (widgets s)) -> glInitialized s = false -> gl = true ->
   dispatches result.2
   = if env b && activity b && nonnull (dispatchCreateWidgetMethod s)
     then List.flat_map
            (fun w => match lookup (GetName w) with
                      | Some surface =>
                          [CallVoidMethodL (dispatchCreateWidgetMethod s) (GetType w)
                             (GetHandle w) (Some surface) (GetSize w).1 (GetSize w).2]
                      | None => []
                      end) (widgets s)
     else []).
Proof.
  intros result. subst result. unfold InitializeGL.
  destruct (glInitialized s) eqn:E; cbn [negb].
  - cbn [fst snd]. split; [repeat constructor|]. split; [auto|discriminate].
  - destruct gl; cbn [glInitialized set_glInitialized negb fst snd].
    + destruct (lookupSurfaces_bound GetType GetName GetSize lookup b
                  (set_glInitialized true s) (widgets s)) as [_ Hs].
      split; [|split; [discriminate|]].
      * apply Forall_app. split; [repeat constructor|exact Hs].
      * intros Hnodup _ _. unfold dispatches. rewrite List.filter_app. cbn [filter isDispatch app].
        apply (lookupSurfaces_own GetType GetName GetSize lookup b
                 (set_glInitialized true s) (widgets s) Hnodup).
        auto.
    + split; [repeat constructor|]. split; [|discriminate]. intros _. split; [|reflexivity].
      rewrite <- E. apply set_glInitialized_same.
Qed.

Lemma X13_witness :
  let s := Example.s0 in
  dispatches (InitializeGL Surface.typeOf Surface.nameOf Surface.sizeOf true
                Surface.factory Surface.bound s).2
  = [CallVoidMethodL (Some dispatchCreateWidget) 0 5 (Some 42) 1920 1080].
Proof.
  intros s.
  destruct (InitializeGL_hands_each_widget_its_own_surface_when_names_differ
              Surface.typeOf Surface.nameOf Surface.sizeOf true Surface.factory
              Surface.bound s) as (_ & _ & Hown).
  apply Hown; [|reflexivity|reflexivity].
  cbn. constructor; [intros [H|[]]; discriminate H|].
  constructor; [intros []|constructor].
Defined.

(** ** The records over the life of the world *)

(** The records [createControllers] appends. *)
Lemma createControllers_appends created storage n ix v :
  createControllers created storage n ix v
  = v ++ List.map (fun k => ControllerRecord_move (storage (ix + Z.of_nat k))
                             (set_controller (Some created)
                                (ControllerRecord_new (ix + Z.of_nat k))))
           (List.seq 0 n).
Proof.
  revert ix v. induction n as [|n IH]; intros ix v; [cbn; now rewrite app_nil_r|].
  cbn [createControllers]. rewrite IH. unfold push_back_move.
  rewrite <- app_assoc. f_equal. cbn [seq List.map app].
  rewrite Z.add_0_r. f_equal.
  rewrite <- List.seq_shift, List.map_map. apply List.map_ext. intros k.
  replace (ix + 1 + Z.of_nat k) with (ix + Z.of_nat (S k)) by lia. reflexivity.
Qed.

(** The records after [InitializeJava]. *)
Lemma InitializeJava_controllers clazz browser urlbar created storage s :
  controllers (InitializeJava (Some clazz) browser urlbar created storage s).1
  = if Nat.eqb (length (controllers s)) 0 && (0 <? controllerCount s)
    then List.map (fun k => ControllerRecord_move (storage (Z.of_nat k))
                              (set_controller (Some created)
                                 (ControllerRecord_new (Z.of_nat k))))
           (List.seq 0 (Z.to_nat (controllerCount s)))
    else controllers s.
Proof.
  unfold InitializeJava.
  cbn [resolveMethods InitializeWindows set_scene set_methods widgets controllers
       controllerCount fst].
  destruct (Nat.eqb (length (controllers s)) 0) eqn:E; cbn [andb]; [|reflexivity].
  destruct (0 <? controllerCount s); [|reflexivity].
  cbn [controllers set_scene]. rewrite createControllers_appends.
  destruct (controllers s); [|discriminate E]. reflexivity.
Qed.

(** X14.  [InitializeJava], when it finds the class, no record yet and
    [controllerCount > 0], makes one record for each controller: numbered
    from 0, pointing at no widget (handle 0), each with a node, whatever
    the storage of the vector held; otherwise it leaves the records as
    they are.  Each time it appends the two widgets after the ones
    already there. *)
Theorem InitializeJava_makes_one_record_per_controller
    (clazz : jclass) (browser urlbar : Widget) (created : Matrix)
    (storage : Z -> ControllerRecord) (s : State) :
  let s' := (InitializeJava (Some clazz) browser urlbar created storage s).1 in
  widgets s' = widgets s ++ [browser; urlbar] /\
  (controllers s = [] -> 0 < controllerCount s ->
   length (controllers s') = Z.to_nat (controllerCount s) /\
   List.map index (controllers s')
   = List.map Z.of_nat (List.seq 0 (Z.to_nat (controllerCount s))) /\
   Forall (fun r => widget r = 0 /\ controller r = Some created) (controllers s')) /\
  (controllers s <> [] \/ controllerCount s <= 0 -> controllers s' = controllers s).
Proof.
  intros s'. subst s'. split; [|split].
  - unfold InitializeJava.
    cbn [resolveMethods InitializeWindows set_scene set_methods widgets controllers
         controllerCount fst].
    destruct (_ && _); reflexivity.
  - intros Hnone Hcount. rewrite InitializeJava_controllers, Hnone.
    apply Z.ltb_lt in Hcount. rewrite Hcount. cbn [length Nat.eqb andb].
    rewrite length_map, length_seq, !List.map_map. split; [reflexivity|]. split.
    + apply List.map_ext. intros k. reflexivity.
    + apply List.Forall_forall. intros r Hr. apply List.in_map_iff in Hr as (k & <- & _).
      split; reflexivity.
  - rewrite InitializeJava_controllers. intros [Hsome | Hcount].
    + destruct (controllers s) as [|r rest] eqn:E; [congruence|]. reflexivity.
    + apply Z.ltb_ge in Hcount. rewrite Hcount, andb_false_r. reflexivity.
Qed.

Lemma X14_witness :
  let s := RegisterDeviceDelegate
             (Some (Example.deviceWith 3 Example.identity false None None)) State_new in
  let s' := (InitializeJava (Some Example.allMethods) Example.browser Example.urlbar
               Example.identity Example.ones s).1 in
  List.map index (controllers s') = [0; 1; 2] /\
  Forall (fun r => widget r = 0 /\ controller r = Some Example.identity) (controllers s').
Proof.
  intros s s'.
  destruct (InitializeJava_makes_one_record_per_controller Example.allMethods
              Example.browser Example.urlbar Example.identity Example.ones s)
    as (_ & Hmade & _).
  destruct (Hmade eq_refl eq_refl) as (_ & Hix & Hall). split; [exact Hix|exact Hall].
Defined.

Lemma UpdateControllers_indices dev s :
  List.map index (controllers (UpdateControllers dev s).1) = List.map index (controllers s).
Proof.
  rewrite UpdateControllers_records.
  induction (controllers s) as [|r rest IH]; [reflexivity|].
  cbn. rewrite IH. f_equal. apply updateRecord_index_controller.
Qed.

Lemma UpdateControllers_nodes dev s :
  Forall (fun r => controller r <> None) (controllers s) ->
  Forall (fun r => controller r <> None) (controllers (UpdateControllers dev s).1).
Proof.
  rewrite UpdateControllers_records. intros H.
  induction H as [|r rest Hr _ IH]; [constructor|].
  cbn. constructor; [|exact IH]. unfold recordAfter.
  rewrite (proj2 (updateRecord_index_controller s dev (widgets s) [] r)).
  destruct (controller r); [discriminate|congruence].
Qed.

Lemma UpdateControllers_recordsNumbered dev s :
  recordsNumbered s -> recordsNumbered (UpdateControllers dev s).1.
Proof.
  intros [Hix Hnodes]. split; [|now apply UpdateControllers_nodes].
  rewrite UpdateControllers_indices, Hix. f_equal. f_equal.
  rewrite <- (length_map index (controllers (UpdateControllers dev s).1)).
  now rewrite UpdateControllers_indices, length_map.
Qed.

Lemma UpdateControllers_nothingWithoutDevice dev s :
  nothingWithoutDevice s -> nothingWithoutDevice (UpdateControllers dev s).1.
Proof.
  intros H Hdev.
  pose proof (UpdateControllers_others dev s [] []) as Ho.
  assert (Hd : device (UpdateControllers dev s).1 = device s)
    by (apply (f_equal device) in Ho; exact Ho).
  assert (Hc : controllerCount (UpdateControllers dev s).1 = controllerCount s)
    by (apply (f_equal controllerCount) in Ho; exact Ho).
  assert (Hg : gestures (UpdateControllers dev s).1 = gestures s)
    by (apply (f_equal gestures) in Ho; exact Ho).
  rewrite Hd in Hdev. destruct (H Hdev) as (H1 & H2 & H3).
  rewrite Hc, Hg, UpdateControllers_records, H2. auto.
Qed.

(** The state after [Draw]: as it was, or after [UpdateControllers] with
    the GL context initialized. *)
Lemma Draw_state noVrApi contextInitializeGL s :
  (Draw noVrApi contextInitializeGL s).1 = s \/
  exists dev, (Draw noVrApi contextInitializeGL s).1
              = (UpdateControllers dev (set_glInitialized true s)).1.
Proof.
  destruct (rendersFrame contextInitializeGL s) eqn:Hr.
  - assert (Hdev : exists dev, device s = Some dev).
    { unfold rendersFrame in Hr. destruct (device s) as [dev|]; [eauto|discriminate Hr]. }
    destruct Hdev as [dev Hdev]. right. exists dev.
    now rewrite (Draw_runs noVrApi contextInitializeGL s dev Hdev Hr).
  - left. apply (Draw_skips noVrApi contextInitializeGL s Hr).
Qed.

Lemma perform_recordsNumbered op s :
  recordsNumbered s -> recordsNumbered (perform op s).
Proof.
  intros H. destruct op; cbn [perform].
  - destruct aDelegate; [exact H|]. split; [reflexivity|constructor].
  - destruct clazz as [clazz|]; [|exact H].
    unfold recordsNumbered. rewrite InitializeJava_controllers.
    destruct (_ && _); [|exact H].
    rewrite length_map, length_seq, List.map_map. split.
    + apply List.map_ext. intros k. reflexivity.
    + apply List.Forall_forall. intros r Hr. apply List.in_map_iff in Hr as (k & <- & _).
      discriminate.
  - exact H.
  - unfold InitializeGL. destruct (glInitialized s); cbn [negb]; [exact H|].
    destruct contextInitializeGL; exact H.
  - exact H.
  - exact H.
  - exact H.
  - destruct (Draw_state noVrApi contextInitializeGL s) as [-> | [dev ->]]; [exact H|].
    now apply UpdateControllers_recordsNumbered.
Qed.

Lemma perform_nothingWithoutDevice op s :
  nothingWithoutDevice s -> nothingWithoutDevice (perform op s).
Proof.
  intros H. destruct op; cbn [perform].
  - destruct aDelegate; intros Hdev; [discriminate Hdev|]. repeat split.
  - destruct clazz as [clazz|]; [|exact H].
    intros Hdev.
    assert (Hsame : device s = None /\
              controllerCount (InitializeJava (Some clazz) browser urlbar created storage s).1
              = controllerCount s /\
              gestures (InitializeJava (Some clazz) browser urlbar created storage s).1
              = gestures s).
    { revert Hdev. unfold InitializeJava.
      cbn [resolveMethods InitializeWindows set_scene set_methods fst].
      destruct (_ && _); cbn; auto. }
    destruct Hsame as (Hd & Hc & Hg). destruct (H Hd) as (H1 & H2 & H3).
    rewrite Hc, Hg, InitializeJava_controllers, H1, H2. cbn. auto.
  - exact H.
  - unfold InitializeGL. destruct (glInitialized s); cbn [negb]; [exact H|].
    destruct contextInitializeGL; exact H.
  - exact H.
  - exact H.
  - exact H.
  - destruct (Draw_state noVrApi contextInitializeGL s) as [-> | [dev ->]]; [exact H|].
    apply UpdateControllers_nothingWithoutDevice. exact H.
Qed.

Lemma worldAfter_invariant (P : State -> Prop) :
  P State_new -> (forall op s, P s -> P (perform op s)) ->
  forall ops, P (worldAfter ops).
Proof.
  intros H0 Hstep ops. unfold worldAfter. generalize State_new H0.
  induction ops as [|op ops IH]; intros s Hs; [exact Hs|].
  cbn. apply IH, Hstep, Hs.
Qed.

(** X15.  Whatever entry points are called, in whatever order and with
    whatever arguments: the controller records are numbered from 0 in
    their order and each has its node, and without a device delegate
    there is no record, no controller count and no gesture source. *)
Theorem records_stay_numbered_and_need_a_device (ops : list Operation) :
  recordsNumbered (worldAfter ops) /\ nothingWithoutDevice (worldAfter ops).
Proof.
  apply (worldAfter_invariant (fun s => recordsNumbered s /\ nothingWithoutDevice s)).
  - split; [split; [reflexivity|constructor]|]. intros _. repeat split.
  - intros op s [H1 H2]. split;
      [now apply perform_recordsNumbered | now apply perform_nothingWithoutDevice].
Qed.

Lemma perform_resolved op s : handles_resolved s -> handles_resolved (perform op s).
Proof.
  intros H. destruct op; cbn [perform].
  - now apply RegisterDeviceDelegate_resolved.
  - now apply InitializeJava_resolved.
  - apply ShutdownJava_resolved.
  - unfold InitializeGL. destruct (glInitialized s); cbn [negb]; [exact H|].
    destruct contextInitializeGL; exact H.
  - exact H.
  - exact H.
  - exact H.
  - now apply Draw_resolved.
Qed.

Lemma perform_farClip op s : farClip (perform op s) = farClip s.
Proof.
  destruct op; cbn [perform].
  - destruct aDelegate; reflexivity.
  - destruct clazz as [clazz|]; [|reflexivity]. unfold InitializeJava.
    cbn [resolveMethods InitializeWindows set_scene set_methods fst].
    destruct (_ && _); reflexivity.
  - reflexivity.
  - unfold InitializeGL. destruct (glInitialized s); cbn [negb]; [reflexivity|].
    destruct contextInitializeGL; reflexivity.
  - reflexivity.
  - reflexivity.
  - reflexivity.
  - destruct (Draw_state noVrApi contextInitializeGL s) as [-> | [dev ->]]; [reflexivity|].
    pose proof (UpdateControllers_others dev (set_glInitialized true s) [] []) as Ho.
    apply (f_equal farClip) in Ho. exact Ho.
Qed.

(** X16.  Whatever entry points are called: every callback handle is
    null or the method it was looked up as, and the far clip distance,
    the bound of the hit test, is 100.0. *)
Theorem handles_stay_resolved_and_far_clip_is_100 (ops : list Operation) :
  handles_resolved (worldAfter ops) /\ farClip (worldAfter ops) = F32.of_Z 100.
Proof.
  apply (worldAfter_invariant (fun s => handles_resolved s /\ farClip s = F32.of_Z 100)).
  - split; [apply State_new_resolved|reflexivity].
  - intros op s [H1 H2]. split; [now apply perform_resolved|].
    now rewrite perform_farClip.
Qed.

(** ** Scroll events over frames *)

(** The scroll calls and the touch fields of a pass with a hit in which
    the device reports a scroll position. *)
Lemma updateRecord_hit_scroll s dev ws active record i w x y :
  handles_resolved s ->
  handleMotionEventMethod s = Some handleMotionEvent ->
  handleScrollEventMethod s = Some handleScrollEvent ->
  hitWidget (pointedAt s dev ws record) = Some i ->
  ws !! i = Some w ->
  GetControllerScrolled dev (index record) = Some (x, y) ->
  let result := updateRecord s dev ws active record in
  callsTo handleScrollEvent result.2 =
    (if F32.to_bool (touched record) && negb (GetControllerButtonState dev (index record) 0)
     then [CallVoidMethod (Some handleScrollEvent)
             [JInt (GetHandle w); JInt (index record);
              JFloat (F32.mul (F32.sub x (touchPadX record)) kScrollFactor);
              JFloat (F32.mul (F32.sub y (touchPadY record)) kScrollFactor)]]
     else []) /\
  index result.1.1.1 = index record /\
  touched result.1.1.1 = F32.of_bool true /\
  touchPadX result.1.1.1 = x /\ touchPadY result.1.1.1 = y.
Proof.
  intros Hres Hm Hs Hi Hw Hscroll result. subst result.
  rewrite (updateRecord_hit s dev ws active record _ i w Hm Hi Hw).
  cbn [fst snd]. rewrite !callsTo_app.
  rewrite (callsTo_other _ _ _ (gestureStep_through s))
    by (apply resolved_gesture_not; [assumption|discriminate]).
  rewrite (callsTo_other _ _ _ (pointerStep_through s _ _ _ _ _))
    by (apply resolved_motion_not; [assumption|discriminate]).
  cbn [app].
  match goal with |- context [scrollStep s dev ?r] =>
    pose proof (scrollStep_through s dev r) as Hthrough;
    destruct (pointerStep_record s (GetHandle w)
                (GetControllerButtonState dev (index record) 0)
                (ConvertToWidgetCoordinates w (hitPoint (pointedAt s dev ws record))).1
                (ConvertToWidgetCoordinates w (hitPoint (pointedAt s dev ws record))).2
                (SetTransform (GetControllerTransform dev (index record)) record))
      as (Hwid & Hpr & Hix & Hto & Htx & Hty)
  end.
  rewrite Hs in Hthrough. rewrite (callsTo_same _ _ Hthrough). clear Hthrough.
  cbn [SetTransform index touched touchPadX touchPadY] in Hix, Hto, Htx, Hty.
  unfold scrollStep. rewrite Hix, Hwid, Hpr, Hto, Htx, Hty, Hs, Hscroll.
  cbn [fst snd setTouch touched touchPadX touchPadY index]. rewrite Hix. repeat split.
Qed.

(** X17.  Scroll events are not debounced: once the touch pad was
    touched in a frame with a hit, the next frame with a hit, a reported
    scroll position and the button up sends a scroll event with the
    movement since that frame times 20.0, also when the finger did not
    move. *)
Theorem touched_pad_sends_a_scroll_event_every_frame
    (s : State) (dev1 dev2 : DeviceDelegate) (ws1 ws2 : list Widget)
    (active1 active2 : list nat) (record : ControllerRecord)
    (i1 i2 : nat) (w1 w2 : Widget) (x1 y1 x2 y2 : float) :
  handles_resolved s ->
  handleMotionEventMethod s = Some handleMotionEvent ->
  handleScrollEventMethod s = Some handleScrollEvent ->
  hitWidget (pointedAt s dev1 ws1 record) = Some i1 -> ws1 !! i1 = Some w1 ->
  GetControllerScrolled dev1 (index record) = Some (x1, y1) ->
  hitWidget (pointedAt s dev2 ws2 record) = Some i2 -> ws2 !! i2 = Some w2 ->
  GetControllerScrolled dev2 (index record) = Some (x2, y2) ->
  GetControllerButtonState dev2 (index record) 0 = false ->
  let record1 := (updateRecord s dev1 ws1 active1 record).1.1.1 in
  callsTo handleScrollEvent (updateRecord s dev2 ws2 active2 record1).2 =
    [CallVoidMethod (Some handleScrollEvent)
       [JInt (GetHandle w2); JInt (index record);
        JFloat (F32.mul (F32.sub x2 x1) (F32.of_Z 20));
        JFloat (F32.mul (F32.sub y2 y1) (F32.of_Z 20))]].
Proof.
  intros Hres Hm Hs Hi1 Hw1 Hsc1 Hi2 Hw2 Hsc2 Hup record1.
  destruct (updateRecord_hit_scroll s dev1 ws1 active1 record i1 w1 x1 y1
              Hres Hm Hs Hi1 Hw1 Hsc1) as (_ & Hix & Hto & Htx & Hty).
  fold record1 in Hix, Hto, Htx, Hty.
  assert (Hi2' : hitWidget (pointedAt s dev2 ws2 record1) = Some i2)
    by (unfold pointedAt in *; now rewrite Hix).
  assert (Hsc2' : GetControllerScrolled dev2 (index record1) = Some (x2, y2))
    by now rewrite Hix.
  destruct (updateRecord_hit_scroll s dev2 ws2 active2 record1 i2 w2 x2 y2
              Hres Hm Hs Hi2' Hw2 Hsc2') as (Hcalls & _).
  rewrite Hcalls, Hix, Hto, Htx, Hty, Hup. reflexivity.
Qed.

Lemma X17_witness :
  let s := Example.s0 in
  let record1 := (updateRecord s Example.devTouch (widgets s) [] Example.record0).1.1.1 in
  callsTo handleScrollEvent
    (updateRecord s Example.devTouch (widgets s) [] record1).2 =
    [CallVoidMethod (Some handleScrollEvent)
       [JInt 5; JInt 0; JFloat F32.zero; JFloat F32.zero]].
Proof.
  intros s record1.
  assert (Hres : handles_resolved s) by resolved_by_computation.
  exact (touched_pad_sends_a_scroll_event_every_frame s Example.devTouch Example.devTouch
           (widgets s) (widgets s) [] [] Example.record0 0 0 Example.browser Example.browser
           (Example.f 1) (Example.f 0) (Example.f 1) (Example.f 0)
           Hres eq_refl eq_refl eq_refl eq_refl eq_refl eq_refl eq_refl eq_refl eq_refl).
Defined.

(** ** The order of a frame *)

Lemma split_unique {A} (x : A) l r l1 l2 :
  ~ In x l -> ~ In x r -> l ++ x :: r = l1 ++ x :: l2 -> l1 = l /\ l2 = r.
Proof.
  revert l1. induction l as [|a l IH]; intros l1 Hl Hr H.
  - destruct l1 as [|b l1]; cbn in H.
    + injection H as <-. auto.
    + injection H as <- ->. destruct Hr. apply in_or_app. right. now left.
  - destruct l1 as [|b l1]; cbn in H.
    + injection H as -> _. destruct Hl. now left.
    + injection H as <- H. destruct (IH l1) as [-> ->]; auto.
      intros Hin. apply Hl. now right.
Qed.

Lemma audioPose_through dev s : callsThrough (handleAudioPoseMethod s) (audioPose dev s).
Proof.
  unfold audioPose. destruct (nonnull _); repeat constructor. eexists; reflexivity.
Qed.

Lemma resolved_audio_not s m :
  handles_resolved s -> m <> handleAudioPose -> handleAudioPoseMethod s <> Some m.
Proof. intros (_ & _ & _ & [H|H] & _) Hm; rewrite H; congruence. Qed.

(** [UpdateControllers] calls the gesture, motion and scroll callbacks
    only. *)
Lemma UpdateControllers_callsTo_other dev s m :
  handles_resolved s ->
  m <> handleGesture -> m <> handleMotionEvent -> m <> handleScrollEvent ->
  callsTo m (UpdateControllers dev s).2 = [].
Proof.
  intros Hres Hg Hm Hs. rewrite UpdateControllers_calls.
  apply callsTo_flat_map_nil. intros r _. unfold callsOf.
  destruct (updateRecord_calls s dev (widgets s) [] r)
    as (moved & scrolled & -> & Hmoved & Hscrolled).
  rewrite !callsTo_app.
  rewrite (callsTo_other _ _ _ (gestureStep_through s))
    by (now apply resolved_gesture_not).
  rewrite (callsTo_other _ _ _ Hmoved) by (now apply resolved_motion_not).
  rewrite (callsTo_other _ _ _ Hscrolled) by (now apply resolved_scroll_not).
  reflexivity.
Qed.

(** X18.  The order of a frame that renders: the device is polled and
    every pointer, scroll and gesture event is sent before [StartFrame];
    the head pose is not reported before it. *)
Theorem input_events_are_sent_before_the_frame_starts
    (noVrApi contextInitializeGL : bool) (s : State) :
  rendersFrame contextInitializeGL s = true ->
  handles_resolved s ->
  let trace := (Draw noVrApi contextInitializeGL s).2 in
  In StartFrame trace /\
  forall l1 l2, trace = l1 ++ StartFrame :: l2 ->
    In ProcessEvents l1 /\ callsTo handleAudioPose l1 = [] /\
    callsTo handleMotionEvent l2 = [] /\ callsTo handleScrollEvent l2 = [] /\
    callsTo handleGesture l2 = [].
Proof.
  intros Hr Hres trace.
  assert (Hdev : exists dev, device s = Some dev).
  { unfold rendersFrame in Hr. destruct (device s) as [dev|]; [eauto|discriminate Hr]. }
  destruct Hdev as [dev Hdev]. subst trace.
  rewrite (Draw_runs noVrApi contextInitializeGL s dev Hdev Hr). cbn [snd].
  set (s1 := set_glInitialized true s).
  assert (Hres1 : handles_resolved s1) by exact Hres.
  set (before := (if glInitialized s then [] else [ContextInitializeGL])
                 ++ [ProcessEvents; ContextUpdate] ++ (UpdateControllers dev s1).2
                 ++ [DrawListReset; Cull]).
  set (after := [BindEye CameraEnum.Left; DrawListDraw CameraEnum.Left]
                ++ (if noVrApi then []
                    else [BindEye CameraEnum.Right; DrawListDraw CameraEnum.Right])
                ++ [EndFrame] ++ audioPose dev (UpdateControllers dev s1).1).
  assert (Hshape : (if glInitialized s then [] else [ContextInitializeGL])
                   ++ [ProcessEvents; ContextUpdate] ++ (UpdateControllers dev s1).2
                   ++ render noVrApi ++ audioPose dev (UpdateControllers dev s1).1
                   = before ++ StartFrame :: after).
  { subst before after. unfold render. rewrite <- !app_assoc. reflexivity. }
  rewrite Hshape.
  assert (Hres2 : handles_resolved (UpdateControllers dev s1).1)
    by now apply UpdateControllers_resolved.
  assert (Hb : ~ In StartFrame before).
  { assert (Hall : Forall (fun e => e <> StartFrame) before).
    { subst before. rewrite !Forall_app. split; [|split; [|split]].
      - destruct (glInitialized s); repeat constructor; discriminate.
      - repeat constructor; discriminate.
      - eapply Forall_impl; [apply UpdateControllers_isHostCall|].
        intros e He ->. discriminate He.
      - repeat constructor; discriminate. }
    rewrite List.Forall_forall in Hall. intros H. now apply (Hall _ H). }
  assert (Ha : ~ In StartFrame after).
  { assert (Hall : Forall (fun e => e <> StartFrame) after).
    { subst after. rewrite !Forall_app. split; [|split; [|split]].
      - repeat constructor; discriminate.
      - destruct noVrApi; repeat constructor; discriminate.
      - repeat constructor; discriminate.
      - unfold audioPose. destruct (nonnull _); repeat constructor; discriminate. }
    rewrite List.Forall_forall in Hall. intros H. now apply (Hall _ H). }
  split; [apply in_or_app; right; now left|].
  intros l1 l2 Hsplit. destruct (split_unique _ _ _ _ _ Hb Ha Hsplit) as [-> ->].
  assert (Hafter : forall m, m <> handleAudioPose -> callsTo m after = []).
  { intros m Hm. subst after. rewrite !callsTo_app.
    rewrite (callsTo_other _ _ _ (audioPose_through dev _))
      by (now apply resolved_audio_not).
    destruct noVrApi; reflexivity. }
  split; [|split; [|split; [|split]]]; try (apply Hafter; discriminate).
  - subst before. apply in_or_app. right. now left.
  - subst before. rewrite !callsTo_app.
    rewrite (UpdateControllers_callsTo_other dev s1) by (assumption || discriminate).
    destruct (glInitialized s); reflexivity.
Qed.

Lemma X18_witness :
  let trace := (Draw false true Example.s0).2 in
  In StartFrame trace /\
  forall l1 l2, trace = l1 ++ StartFrame :: l2 ->
    In ProcessEvents l1 /\ callsTo handleAudioPose l1 = [] /\
    callsTo handleMotionEvent l2 = [] /\ callsTo handleScrollEvent l2 = [] /\
    callsTo handleGesture l2 = [].
Proof.
  apply (input_events_are_sent_before_the_frame_starts false true Example.s0).
  - reflexivity.
  - resolved_by_computation.
Defined.

(** ** Frames without records, without the motion callback, without a hit *)

Lemma set_scene_same s : set_scene (widgets s) (controllers s) s = s.
Proof. destruct s. reflexivity. Qed.

(** X19.  With no controller record [UpdateControllers] does nothing at
    all: the state is as it was (no pointer highlight is cleared) and no
    call is made (no gesture is read). *)
Theorem UpdateControllers_without_records_does_nothing (dev : DeviceDelegate) (s : State) :
  controllers s = [] -> UpdateControllers dev s = (s, []).
Proof.
  intros H. unfold UpdateControllers. rewrite H. cbn.
  rewrite <- H. now rewrite set_scene_same.
Qed.

Lemma X19_witness :
  let s := RegisterDeviceDelegate (Some Example.devAway)
             (RegisterDeviceDelegate None Example.s1) in
  UpdateControllers (Example.devSwipes 1 [GestureType.SwipeLeft]) s = (s, []).
Proof.
  apply (UpdateControllers_without_records_does_nothing
           (Example.devSwipes 1 [GestureType.SwipeLeft])).
  reflexivity.
Defined.

Lemma activeOf_null s dev ws records :
  handleMotionEventMethod s = None -> activeOf s dev ws records = [].
Proof.
  intros H. unfold activeOf. induction records as [|r rest IH]; [reflexivity|].
  cbn. unfold pushedBy at 1. now rewrite H, IH.
Qed.

(** X20.  Without the motion-event callback a frame with at least one
    record switches every pointer highlight off, and every record keeps
    its sent values and its touch state. *)
Theorem frame_without_motion_callback_clears_the_highlights
    (dev : DeviceDelegate) (s : State) :
  handleMotionEventMethod s = None -> controllers s <> [] ->
  let s' := (UpdateControllers dev s).1 in
  widgets s' = placement (widgets s) /\
  List.map sentValues (controllers s') = List.map sentValues (controllers s) /\
  List.map touchState (controllers s') = List.map touchState (controllers s).
Proof.
  intros Hm Hrecords s'. subst s'. split.
  - unfold UpdateControllers.
    destruct (controllerLoop_scene s dev (controllers s) (widgets s) []) as [Hws Hact].
    destruct (controllerLoop s dev (controllers s) (widgets s) [])
      as [[[records ws] active] calls].
    cbn [fst snd widgets set_scene] in *. subst ws active.
    rewrite activeOf_null by assumption. cbn.
    destruct (controllers s); [congruence|reflexivity].
  - rewrite UpdateControllers_records. clear Hrecords.
    split; induction (controllers s) as [|r rest IH]; try reflexivity;
      cbn; rewrite IH; f_equal; unfold recordAfter;
      rewrite updateRecord_miss by (left; exact Hm); reflexivity.
Qed.

Lemma X20_witness :
  let s := Example.started (Example.without handleMotionEvent) Example.dev0 in
  let s' := (UpdateControllers Example.devTouch s).1 in
  widgets s' = placement (widgets s) /\
  List.map sentValues (controllers s') = List.map sentValues (controllers s) /\
  List.map touchState (controllers s') = List.map touchState (controllers s).
Proof.
  apply (frame_without_motion_callback_clears_the_highlights Example.devTouch
           (Example.started (Example.without handleMotionEvent) Example.dev0)).
  - reflexivity.
  - discriminate.
Defined.

Lemma recordAfter_without_hit s dev ws records :
  (forall record, In record records -> hitWidget (pointedAt s dev ws record) = None) ->
  List.map sentValues (recordAfter s dev ws <$> records) = List.map sentValues records /\
  List.map touchState (recordAfter s dev ws <$> records) = List.map touchState records.
Proof.
  induction records as [|r rest IH]; intros Hnone; [split; reflexivity|].
  destruct IH as [IH1 IH2]; [intros r' Hr'; apply Hnone; now right|].
  cbn. rewrite IH1, IH2. unfold recordAfter.
  rewrite updateRecord_miss by (right; apply Hnone; now left). split; reflexivity.
Qed.

(** X21.  No event tells the host that a pointer left: in a frame in
    which no controller points at a widget, no pointer or scroll event
    is sent, and every record keeps its sent values (the handle of the
    widget it pointed at last) and its touch state. *)
Theorem frame_without_any_hit_sends_nothing_and_keeps_the_records
    (dev : DeviceDelegate) (s : State) :
  handles_resolved s ->
  (forall record, In record (controllers s) ->
     hitWidget (pointedAt s dev (widgets s) record) = None) ->
  let result := UpdateControllers dev s in
  callsTo handleMotionEvent result.2 = [] /\
  callsTo handleScrollEvent result.2 = [] /\
  List.map sentValues (controllers result.1) = List.map sentValues (controllers s) /\
  List.map touchState (controllers result.1) = List.map touchState (controllers s).
Proof.
  intros Hres Hnone result. subst result.
  rewrite UpdateControllers_calls, UpdateControllers_records.
  assert (Hcalls : forall m, m <> handleGesture ->
            callsTo m (List.flat_map (callsOf s dev (widgets s)) (controllers s)) = []).
  { intros m Hm. apply callsTo_flat_map_nil. intros r Hr. unfold callsOf.
    rewrite updateRecord_miss by (right; now apply Hnone). cbn [snd].
    apply (callsTo_other _ _ _ (gestureStep_through s)).
    now apply resolved_gesture_not. }
  split; [apply Hcalls; discriminate|]. split; [apply Hcalls; discriminate|].
  now apply recordAfter_without_hit.
Qed.

Lemma X21_witness :
  let result := UpdateControllers Example.devAway Example.s1 in
  callsTo handleMotionEvent result.2 = [] /\
  callsTo handleScrollEvent result.2 = [] /\
  List.map sentValues (controllers result.1) = List.map sentValues (controllers Example.s1) /\
  List.map touchState (controllers result.1) = List.map touchState (controllers Example.s1).
Proof.
  apply (frame_without_any_hit_sends_nothing_and_keeps_the_records
           Example.devAway Example.s1).
  - resolved_by_computation.
  - intros record [<-|[]]. reflexivity.
Defined.

(** ** Registering the device again, pausing, and the surface observer *)

(** A frame of a world without records changes neither the records nor
    the widgets nor the controller count. *)
Lemma Draw_without_records noVrApi contextInitializeGL s :
  controllers s = [] ->
  controllers (Draw noVrApi contextInitializeGL s).1 = [] /\
  widgets (Draw noVrApi contextInitializeGL s).1 = widgets s /\
  controllerCount (Draw noVrApi contextInitializeGL s).1 = controllerCount s.
Proof.
  intros H. destruct (Draw_state noVrApi contextInitializeGL s) as [-> | [dev ->]]; [auto|].
  unfold UpdateControllers. cbn [controllers widgets set_glInitialized]. rewrite H.
  cbn. auto.
Qed.

Lemma drawAll_without_records frames s :
  controllers s = [] ->
  controllers (drawAll frames s) = [] /\
  widgets (drawAll frames s) = widgets s /\
  controllerCount (drawAll frames s) = controllerCount s.
Proof.
  revert s. induction frames as [|f frames IH]; intros s H; [auto|].
  cbn [drawAll fold_left].
  destruct (Draw_without_records f.1 f.2 s H) as (H1 & H2 & H3).
  destruct (IH _ H1) as (IH1 & IH2 & IH3). fold (drawAll frames (Draw f.1 f.2 s).1).
  rewrite IH1, IH2, IH3, H2, H3. auto.
Qed.

(** X22.  Removing the device delegate and registering one again leaves
    the world without controller records, however many frames are drawn
    (the widgets, with their highlights, stay as they were), until
    [InitializeJava] runs again; and that makes the records of the new
    device and appends the two widgets a second time. *)
Theorem reregistered_device_has_no_records_until_InitializeJava
    (dev : DeviceDelegate) (s : State) (frames : list (bool * bool))
    (clazz : jclass) (browser urlbar : Widget) (created : Matrix)
    (storage : Z -> ControllerRecord) :
  0 < GetControllerCount dev ->
  let s1 := drawAll frames
              (RegisterDeviceDelegate (Some dev) (RegisterDeviceDelegate None s)) in
  let s2 := (InitializeJava (Some clazz) browser urlbar created storage s1).1 in
  controllers s1 = [] /\ widgets s1 = widgets s /\
  length (controllers s2) = Z.to_nat (GetControllerCount dev) /\
  widgets s2 = widgets s ++ [browser; urlbar].
Proof.
  intros Hcount s1 s2.
  destruct (drawAll_without_records frames
              (RegisterDeviceDelegate (Some dev) (RegisterDeviceDelegate None s)) eq_refl)
    as (H1 & H2 & H3).
  fold s1 in H1, H2, H3. cbn in H2, H3.
  split; [exact H1|]. split; [exact H2|]. subst s2. split.
  - rewrite InitializeJava_controllers, H1, H3. cbn [length Nat.eqb andb].
    apply Z.ltb_lt in Hcount. rewrite Hcount. now rewrite length_map, length_seq.
  - unfold InitializeJava.
    cbn [resolveMethods InitializeWindows set_scene set_methods widgets controllers
         controllerCount fst].
    rewrite <- H2. destruct (_ && _); reflexivity.
Qed.

Lemma X22_witness :
  let s1 := drawAll [(false, true); (false, true)]
              (RegisterDeviceDelegate (Some Example.devTouch)
                 (RegisterDeviceDelegate None Example.s1)) in
  let s2 := (InitializeJava (Some Example.allMethods) Example.browser Example.urlbar
               Example.identity Example.zeroed s1).1 in
  controllers s1 = [] /\ widgets s1 = widgets Example.s1 /\
  length (controllers s2) = 1%nat /\
  widgets s2 = widgets Example.s1 ++ [Example.browser; Example.urlbar].
Proof.
  apply (reregistered_device_has_no_records_until_InitializeJava Example.devTouch
           Example.s1 [(false, true); (false, true)] Example.allMethods
           Example.browser Example.urlbar Example.identity Example.zeroed).
  reflexivity.
Defined.

Lemma dispatchFirst_withoutSurface GetType GetName GetSize methodID aName aSurface ws :
  List.map withoutSurface
    (dispatchFirst GetType GetName GetSize methodID aName aSurface ws)
  = dispatchFirst GetType GetName GetSize methodID aName None ws.
Proof.
  induction ws as [|w ws IH]; cbn; [reflexivity|].
  destruct (String.eqb aName (GetName w)); [|exact IH].
  destruct (GetSize w). reflexivity.
Qed.

(** X23.  The surface observer: when a surface texture is destroyed the
    host gets, for the same widget, the call it got when the texture was
    created, with a null surface in the place of the surface; when the
    world is gone neither callback does anything. *)
Theorem SurfaceTextureDestroyed_undoes_SurfaceTextureCreated
    (GetType : Widget -> Z) (GetName : Widget -> string) (GetSize : Widget -> Z * Z)
    (world : option (Binding * State)) (aName : string) (aSurfaceTexture : jobject) :
  SurfaceTextureDestroyed GetType GetName GetSize world aName
  = List.map withoutSurface
      (SurfaceTextureCreated GetType GetName GetSize world aName aSurfaceTexture) /\
  (world = None ->
   SurfaceTextureCreated GetType GetName GetSize world aName aSurfaceTexture = []).
Proof.
  split; [|intros ->; reflexivity].
  destruct world as [[b s]|]; [|reflexivity].
  unfold SurfaceTextureDestroyed, SurfaceTextureCreated, SetSurfaceTexture.
  cbn [List.map withoutSurface]. f_equal.
  destruct (_ && _); [|reflexivity].
  symmetry. apply dispatchFirst_withoutSurface.
Qed.

Lemma Resume_Pause s : paused s = false -> Resume (Pause s) = s.
Proof. intros H. destruct s. cbn in *. subst. reflexivity. Qed.

Lemma drawAll_paused frames s : paused s = true -> drawAll frames s = s.
Proof.
  intros H. induction frames as [|f frames IH]; [reflexivity|].
  cbn [drawAll fold_left].
  assert (Hskip : (Draw f.1 f.2 s).1 = s).
  { apply Draw_skips. unfold rendersFrame. rewrite H. cbn.
    now rewrite andb_false_r. }
  rewrite Hskip. exact IH.
Qed.

(** X24.  Pausing loses nothing: a running world that is paused, asked
    to draw any number of frames and resumed is the world it was. *)
Theorem pause_frames_resume_gives_the_world_back
    (frames : list (bool * bool)) (s : State) :
  paused s = false -> Resume (drawAll frames (Pause s)) = s.
Proof.
  intros H. rewrite drawAll_paused by reflexivity. now apply Resume_Pause.
Qed.

Lemma X24_witness :
  Resume (drawAll [(false, true); (true, false)] (Pause Example.s1)) = Example.s1.
Proof.
  apply (pause_frames_resume_gives_the_world_back [(false, true); (true, false)] Example.s1).
  reflexivity.
Defined.

(** ** Highlights and events, whatever came before *)

Lemma activeOf_placement s dev ws ws' records :
  placement ws = placement ws' -> activeOf s dev ws records = activeOf s dev ws' records.
Proof.
  intros H. unfold activeOf. apply flat_map_ext. intros r. unfold pushedBy.
  now rewrite (pointedAt_placement s dev ws ws' r H).
Qed.

(** The widgets after [UpdateControllers]. *)
Lemma UpdateControllers_widgets dev s :
  widgets (UpdateControllers dev s).1
  = toggleActive (activeOf s dev (widgets s) (controllers s))
      (match controllers s with [] => widgets s | _ :: _ => placement (widgets s) end).
Proof.
  unfold UpdateControllers.
  destruct (controllerLoop_scene s dev (controllers s) (widgets s) []) as [Hws Hact].
  destruct (controllerLoop s dev (controllers s) (widgets s) [])
    as [[[records ws] active] calls].
  cbn [fst snd widgets set_scene] in *. subst ws active. reflexivity.
Qed.

(** X25.  No stale highlight: with at least one controller record, the
    pointer highlights after [UpdateControllers] do not depend on the
    highlights before it. *)
Theorem highlights_do_not_depend_on_the_highlights_before
    (dev : DeviceDelegate) (s : State) (ws' : list Widget) :
  controllers s <> [] ->
  placement ws' = placement (widgets s) ->
  widgets (UpdateControllers dev (set_scene ws' (controllers s) s)).1
  = widgets (UpdateControllers dev s).1.
Proof.
  intros Hrecords Hplace. rewrite !UpdateControllers_widgets.
  cbn [widgets controllers set_scene].
  change (activeOf (set_scene ws' (controllers s) s)) with (activeOf s).
  rewrite (activeOf_placement s dev ws' (widgets s) _ Hplace).
  destruct (controllers s); [congruence|]. now rewrite Hplace.
Qed.

Lemma X25_witness :
  let s := Example.s0 in
  widgets (UpdateControllers Example.devAway
             (set_scene (TogglePointer true <$> widgets s) (controllers s) s)).1
  = widgets (UpdateControllers Example.devAway s).1.
Proof.
  intros s.
  apply (highlights_do_not_depend_on_the_highlights_before Example.devAway s
           (TogglePointer true <$> widgets s)).
  - discriminate.
  - reflexivity.
Defined.

(** X26.  Pointing at another widget is always reported: for a
    controller with a hit widget whose handle is not the one in its
    record, with the motion callback resolved, the pass sends a pointer
    event with the values of the frame, whatever coordinates and pressed
    state the record holds.  So the first hit of a record made by
    [InitializeJava] (handle 0) on a widget with another handle is
    reported whatever the storage of the vector held. *)
Theorem pointing_at_another_widget_is_always_reported
    (s : State) (dev : DeviceDelegate) (ws : list Widget) (active : list nat)
    (record : ControllerRecord) (i : nat) (w : Widget) :
  handles_resolved s ->
  handleMotionEventMethod s = Some handleMotionEvent ->
  hitWidget (pointedAt s dev ws record) = Some i ->
  ws !! i = Some w ->
  widget record <> GetHandle w ->
  let xy := ConvertToWidgetCoordinates w (hitPoint (pointedAt s dev ws record)) in
  let result := updateRecord s dev ws active record in
  callsTo handleMotionEvent result.2 =
    [CallVoidMethod (Some handleMotionEvent)
       [JInt (GetHandle w); JInt (index record);
        JBoolean (GetControllerButtonState dev (index record) 0);
        JFloat xy.1; JFloat xy.2]] /\
  sentValues result.1.1.1
  = (GetHandle w, GetControllerButtonState dev (index record) 0, xy.1, xy.2).
Proof.
  intros Hres Hm Hi Hw Hne xy result. subst result.
  rewrite (updateRecord_hit s dev ws active record _ i w Hm Hi Hw).
  fold xy. cbn [fst snd]. rewrite !callsTo_app, scrollStep_sentValues.
  rewrite (callsTo_other _ _ _ (gestureStep_through s))
    by (apply resolved_gesture_not; [assumption|discriminate]).
  rewrite (callsTo_other _ _ _ (scrollStep_through s dev _))
    by (apply resolved_scroll_not; [assumption|discriminate]).
  rewrite app_nil_r. cbn [app].
  unfold pointerStep. cbn [widget SetTransform].
  apply Z.eqb_neq in Hne. rewrite Hne. cbn [negb]. rewrite !orb_true_r.
  cbn. rewrite Hm. split; reflexivity.
Qed.

Lemma X26_witness :
  let s := Resume (InitializeJava (Some Example.allMethods) Example.browser Example.urlbar
                     Example.identity Example.ones
                     (RegisterDeviceDelegate (Some Example.devPressed) State_new)).1 in
  let made := ControllerRecord_move (Example.ones 0)
                (set_controller (Some Example.identity) (ControllerRecord_new 0)) in
  let result := updateRecord s Example.devPressed (widgets s) [] made in
  controllers s = [made] /\
  callsTo handleMotionEvent result.2 =
    [CallVoidMethod (Some handleMotionEvent)
       [JInt 5; JInt 0; JBoolean true; JFloat (Example.f 100); JFloat (Example.f 50)]] /\
  sentValues result.1.1.1 = (5, true, Example.f 100, Example.f 50).
Proof.
  intros s made result. split; [reflexivity|].
  assert (Hres : handles_resolved s) by resolved_by_computation.
  assert (Hne : widget made <> GetHandle Example.browser) by discriminate.
  exact (pointing_at_another_widget_is_always_reported s Example.devPressed (widgets s) []
           made 0 Example.browser Hres eq_refl eq_refl eq_refl Hne).
Defined.

(** ** The gesture events of a frame *)




